(** * remote_agent: session and process management core

    A shallow embedding of the agent layer of [src/agent_system.py] and of
    its variants ([persistent_claude_agent.py], [pty_claude_agent.py],
    [claude_cli_agent.py]), followed by the properties of the design
    document that can be stated over it.

    Conventions.
    - A Python [dict] whose iteration order is observable (the session map,
      event dictionaries, decoded JSON objects) is an insertion-ordered
      association list, module [PyDict].  Dictionaries that are only looked
      up are [gmap]s, the in-flight set is a [gset].
    - Everything the interpreter or the operating system decides (fresh
      uuids, clock readings, what a child process prints, whether a signal
      can be delivered) is an explicit oracle argument.
    - Every call into the operating system is recorded in an effect log. *)

From Stdlib Require Import ZArith List String Ascii Bool Lia.
From stdpp Require Import base option list gmap sets strings pretty.
Import ListNotations.

Local Open Scope string_scope.
Local Open Scope list_scope.

(** ** Python values shared by all modules *)

(** Exceptions that the modelled code raises or catches. *)
Inductive Exn :=
| ValueError (msg : string)
| TypeError (msg : string)
| AttributeError (msg : string)
| JSONDecodeError
| UnicodeDecodeError
| TimeoutError
| ProcessLookupError
| OSError (errno : Z)
| KeyError (key : string)
| Exception (msg : string).

Inductive result (A : Type) :=
| Ok (a : A)
| Raise (e : Exn).
Arguments Ok {A} a.
Arguments Raise {A} e.

Definition is_Ok {A} (r : result A) : bool :=
  match r with Ok _ => true | Raise _ => false end.

(** [type(e).__name__] *)
Definition exn_type_name (e : Exn) : string :=
  match e with
  | ValueError _ => "ValueError"
  | TypeError _ => "TypeError"
  | AttributeError _ => "AttributeError"
  | JSONDecodeError => "JSONDecodeError"
  | UnicodeDecodeError => "UnicodeDecodeError"
  | TimeoutError => "TimeoutError"
  | ProcessLookupError => "ProcessLookupError"
  | OSError _ => "OSError"
  | KeyError _ => "KeyError"
  | Exception _ => "Exception"
  end.

(** [str(e)] *)
Definition exn_str (e : Exn) : string :=
  match e with
  | ValueError m | TypeError m | AttributeError m | Exception m => m
  | KeyError k => "'" +:+ k +:+ "'"
  | JSONDecodeError => "Expecting value"
  | UnicodeDecodeError => "'utf-8' codec can't decode bytes"
  | TimeoutError => ""
  | ProcessLookupError => ""
  | OSError _ => "OSError"
  end.

(** ** Insertion-ordered dictionaries *)

Module PyDict.
Section Dict.
Context {K : Type} `{EqDecision K} {V : Type}.

(** [d.get(k)] *)
Fixpoint get (k : K) (d : list (K * V)) : option V :=
  match d with
  | [] => None
  | (k', v) :: d' => if decide (k = k') then Some v else get k d'
  end.

(** [k in d] *)
Definition mem (k : K) (d : list (K * V)) : bool :=
  match get k d with Some _ => true | None => false end.

(** [d[k] = v]: an existing key keeps its position, a new key goes last. *)
Fixpoint set (k : K) (v : V) (d : list (K * V)) : list (K * V) :=
  match d with
  | [] => [(k, v)]
  | (k', v') :: d' =>
      if decide (k = k') then (k', v) :: d' else (k', v') :: set k v d'
  end.

(** [del d[k]] for a key that is present; a missing key leaves [d] as is
    (callers test membership first). *)
Fixpoint del (k : K) (d : list (K * V)) : list (K * V) :=
  match d with
  | [] => []
  | (k', v') :: d' =>
      if decide (k = k') then d' else (k', v') :: del k d'
  end.

Definition keys (d : list (K * V)) : list K := map fst d.
Definition values (d : list (K * V)) : list V := map snd d.
End Dict.
End PyDict.

(** ** JSON values and [json.loads] *)

Module Json.

#[local] Set Warnings "-register-all".

Inductive t :=
| JNull
| JBool (b : bool)
| JNum (literal : string)          (* the number as written *)
| JStr (s : string)
| JArr (items : list t)
| JObj (members : list (string * t)).

Definition is_ws (c : ascii) : bool :=
  match c with
  | " "%char | "009"%char | "010"%char | "013"%char => true
  | _ => false
  end.

Fixpoint skip_ws (s : list ascii) : list ascii :=
  match s with
  | c :: s' => if is_ws c then skip_ws s' else s
  | [] => []
  end.

Definition is_digit (c : ascii) : bool :=
  let n := nat_of_ascii c in (48 <=? n)%nat && (n <=? 57)%nat.

Definition hex_val (c : ascii) : option N :=
  let n := N_of_ascii c in
  if (48 <=? n)%N && (n <=? 57)%N then Some (n - 48)%N
  else if (97 <=? n)%N && (n <=? 102)%N then Some (n - 87)%N
  else if (65 <=? n)%N && (n <=? 70)%N then Some (n - 55)%N
  else None.

Definition hex4 (a b c d : ascii) : option N :=
  match hex_val a, hex_val b, hex_val c, hex_val d with
  | Some x, Some y, Some z, Some w => Some (((x * 16 + y) * 16 + z) * 16 + w)%N
  | _, _, _, _ => None
  end.

(** UTF-8 encoding of a code point (strings are byte strings here). *)
Definition utf8 (n : N) : list ascii :=
  if (n <? 128)%N then [ascii_of_N n]
  else if (n <? 2048)%N then
    [ascii_of_N (192 + n / 64); ascii_of_N (128 + n mod 64)]
  else if (n <? 65536)%N then
    [ascii_of_N (224 + n / 4096); ascii_of_N (128 + (n / 64) mod 64);
     ascii_of_N (128 + n mod 64)]
  else
    [ascii_of_N (240 + n / 262144); ascii_of_N (128 + (n / 4096) mod 64);
     ascii_of_N (128 + (n / 64) mod 64); ascii_of_N (128 + n mod 64)].

(** The body of a string literal, after the opening quote.  Control
    characters are rejected (strict mode); a high surrogate escape followed
    by a low surrogate escape is one code point. *)
Fixpoint scan_string (s : list ascii) (acc : list ascii)
  : option (string * list ascii) :=
  match s with
  | [] => None
  | "034"%char :: rest => Some (string_of_list_ascii (rev acc), rest)
  | "\"%char :: rest =>
      match rest with
      | "034"%char :: r => scan_string r ("034"%char :: acc)
      | "\"%char :: r => scan_string r ("\"%char :: acc)
      | "/"%char :: r => scan_string r ("/"%char :: acc)
      | "b"%char :: r => scan_string r ("008"%char :: acc)
      | "f"%char :: r => scan_string r ("012"%char :: acc)
      | "n"%char :: r => scan_string r ("010"%char :: acc)
      | "r"%char :: r => scan_string r ("013"%char :: acc)
      | "t"%char :: r => scan_string r ("009"%char :: acc)
      | "u"%char :: a :: b :: c :: d :: r =>
          match hex4 a b c d with
          | None => None
          | Some hi =>
              let single := scan_string r (rev (utf8 hi) ++ acc) in
              if (55296 <=? hi)%N && (hi <=? 56319)%N then
                match r with
                | "\"%char :: "u"%char :: a' :: b' :: c' :: d' :: r' =>
                    match hex4 a' b' c' d' with
                    | Some lo =>
                        if (56320 <=? lo)%N && (lo <=? 57343)%N then
                          scan_string r'
                            (rev (utf8 (65536 + (hi - 55296) * 1024 + (lo - 56320)))
                               ++ acc)
                        else single
                    | None => single
                    end
                | _ => single
                end
              else single
          end
      | _ => None
      end
  | c :: rest =>
      if (nat_of_ascii c <? 32)%nat then None else scan_string rest (c :: acc)
  end.

Fixpoint take_digits (s : list ascii) : list ascii * list ascii :=
  match s with
  | c :: s' =>
      if is_digit c then let '(d, r) := take_digits s' in (c :: d, r)
      else ([], s)
  | [] => ([], [])
  end.

(** A number: optional minus, integer part without leading zeros, optional
    fraction, optional exponent; the longest such prefix. *)
Definition scan_number (s : list ascii) : option (string * list ascii) :=
  let '(sign, s1) :=
    match s with
    | "-"%char :: r => (["-"%char], r)
    | _ => ([], s)
    end in
  let int_part :=
    match s1 with
    | "0"%char :: r => Some (["0"%char], r)
    | c :: _ =>
        if is_digit c then Some (take_digits s1) else None
    | [] => None
    end in
  match int_part with
  | None => None
  | Some (ds, s2) =>
      let '(frac, s3) :=
        match s2 with
        | "."%char :: r =>
            match take_digits r with
            | ([], _) => ([], s2)
            | (fd, r') => ("."%char :: fd, r')
            end
        | _ => ([], s2)
        end in
      let '(ex, s4) :=
        match s3 with
        | e :: r =>
            if Ascii.eqb e "e" || Ascii.eqb e "E" then
              let '(sg, r1) :=
                match r with
                | "+"%char :: r1 => (["+"%char], r1)
                | "-"%char :: r1 => (["-"%char], r1)
                | _ => ([], r)
                end in
              match take_digits r1 with
              | ([], _) => ([], s3)
              | (ed, r2) => (e :: sg ++ ed, r2)
              end
            else ([], s3)
        | [] => ([], s3)
        end in
      Some (string_of_list_ascii (sign ++ ds ++ frac ++ ex), s4)
  end.

Fixpoint strip_prefix (p s : list ascii) : option (list ascii) :=
  match p, s with
  | [], _ => Some s
  | a :: p', b :: s' => if Ascii.eqb a b then strip_prefix p' s' else None
  | _ :: _, [] => None
  end.

(** [d[k] = v] while an object is being read: a repeated key keeps its
    first position and takes the last value. *)
Fixpoint put (k : string) (v : t) (d : list (string * t)) : list (string * t) :=
  match d with
  | [] => [(k, v)]
  | (k', v') :: d' =>
      if String.eqb k k' then (k', v) :: d' else (k', v') :: put k v d'
  end.

(** One value, then the elements of an array after its first bracket, then
    the members of an object after its first brace. *)
Fixpoint scan_value (fuel : nat) (s : list ascii) : option (t * list ascii) :=
  match fuel with
  | O => None
  | S fuel' =>
      match s with
      | "034"%char :: r =>
          match scan_string r [] with
          | Some (str, r') => Some (JStr str, r')
          | None => None
          end
      | "{"%char :: r =>
          match skip_ws r with
          | "}"%char :: r' => Some (JObj [], r')
          | r' => scan_members fuel' r' []
          end
      | "["%char :: r =>
          match skip_ws r with
          | "]"%char :: r' => Some (JArr [], r')
          | r' => scan_items fuel' r' []
          end
      | _ =>
          match strip_prefix (list_ascii_of_string "null") s with
          | Some r => Some (JNull, r)
          | None =>
          match strip_prefix (list_ascii_of_string "true") s with
          | Some r => Some (JBool true, r)
          | None =>
          match strip_prefix (list_ascii_of_string "false") s with
          | Some r => Some (JBool false, r)
          | None =>
          match strip_prefix (list_ascii_of_string "NaN") s with
          | Some r => Some (JNum "NaN", r)
          | None =>
          match strip_prefix (list_ascii_of_string "Infinity") s with
          | Some r => Some (JNum "Infinity", r)
          | None =>
          match strip_prefix (list_ascii_of_string "-Infinity") s with
          | Some r => Some (JNum "-Infinity", r)
          | None =>
              match scan_number s with
              | Some (lit, r) => Some (JNum lit, r)
              | None => None
              end
          end end end end end end
      end
  end
with scan_items (fuel : nat) (s : list ascii) (acc : list t)
  : option (t * list ascii) :=
  match fuel with
  | O => None
  | S fuel' =>
      match scan_value fuel' s with
      | None => None
      | Some (v, r) =>
          match skip_ws r with
          | "]"%char :: r' => Some (JArr (rev (v :: acc)), r')
          | ","%char :: r' => scan_items fuel' (skip_ws r') (v :: acc)
          | _ => None
          end
      end
  end
with scan_members (fuel : nat) (s : list ascii) (acc : list (string * t))
  : option (t * list ascii) :=
  match fuel with
  | O => None
  | S fuel' =>
      match s with
      | "034"%char :: r =>
          match scan_string r [] with
          | None => None
          | Some (key, r1) =>
              match skip_ws r1 with
              | ":"%char :: r2 =>
                  match scan_value fuel' (skip_ws r2) with
                  | None => None
                  | Some (v, r3) =>
                      match skip_ws r3 with
                      | "}"%char :: r4 => Some (JObj (put key v acc), r4)
                      | ","%char :: r4 =>
                          scan_members fuel' (skip_ws r4) (put key v acc)
                      | _ => None
                      end
                  end
              | _ => None
              end
          end
      | _ => None
      end
  end.

(** [json.loads(s)]; [Raise JSONDecodeError] for every rejected text. *)
Definition loads (s : string) : result t :=
  let l := list_ascii_of_string s in
  match scan_value (2 * length l + 2) (skip_ws l) with
  | Some (v, rest) =>
      match skip_ws rest with
      | [] => Ok v
      | _ => Raise JSONDecodeError
      end
  | None => Raise JSONDecodeError
  end.

End Json.

(** ** Event dictionaries *)

Inductive PyVal :=
| VStr (s : string)
| VBool (b : bool)
| VInt (n : Z)
| VJson (j : Json.t).

(** The events an execution yields are Python dictionaries. *)
Definition Event := list (string * PyVal).

(** A decoded JSON value stored in an event. *)
Definition of_json (j : Json.t) : PyVal :=
  match j with
  | Json.JStr s => VStr s
  | Json.JBool b => VBool b
  | _ => VJson j
  end.

(** ** Data model ([agent_system.py], lines 20-45) *)

Inductive AgentType := CLAUDE_CODE | GEMINI_CLI | CUSTOM.

#[global] Instance AgentType_eq_dec : EqDecision AgentType.
Proof. solve_decision. Defined.

Module AgentTypeValue.
Definition value (t : AgentType) : string :=
  match t with
  | CLAUDE_CODE => "claude_code"
  | GEMINI_CLI => "gemini_cli"
  | CUSTOM => "custom"
  end.
End AgentTypeValue.

Module AgentConfig.
Record t := mk {
  agent_type : AgentType;
  executable_path : string;
  default_args : list string;
  working_directory : option string;
  timeout : Z;
  max_sessions : Z;
  stream_format : string
}.
End AgentConfig.

(** Handle of a child process; what the process does is decided by the
    oracles of the operations that use the handle. *)
Record Process := { pid : nat }.

#[global] Instance Process_eq_dec : EqDecision Process.
Proof. solve_decision. Defined.

Module Session.
Record t := mk {
  id : string;
  user_id : string;
  agent_type : AgentType;
  process : option Process;
  created_at : Z;
  working_directory : string;
  config : AgentConfig.t
}.

Definition set_process (p : option Process) (s : t) : t :=
  mk (id s) (user_id s) (agent_type s) p (created_at s)
     (working_directory s) (config s).
End Session.

(** Calls into the operating system, in the order they are made. *)
Inductive OsEffect :=
| Spawn (p : Process) (argv : list string) (cwd : string)
        (env : option (gmap string string))
| Terminate (p : Process)            (* Process.terminate(): SIGTERM *)
| Kill (p : Process)                 (* Process.kill(): SIGKILL *)
| StdinWrite (p : Process) (data : string)
| StdinClose (p : Process)
| OsKill (pid : nat) (signal : Z)    (* os.kill(pid, signal) *)
| OsClose (fd : Z)                   (* os.close(fd) *)
| OsWrite (fd : Z) (data : string).  (* os.write(fd, data) *)


(** ** String helpers *)

(** [needle in hay] *)
Fixpoint str_contains (needle hay : string) : bool :=
  if String.prefix needle hay then true
  else match hay with
       | EmptyString => false
       | String _ hay' => str_contains needle hay'
       end.

(** ** BaseAgent: session bookkeeping ([agent_system.py], lines 47-90, 199-232) *)

Module BaseAgent.

Record t := mk {
  config : AgentConfig.t;
  sessions : list (string * Session.t)
}.

Definition init (cfg : AgentConfig.t) : t := mk cfg [].

Definition set_sessions (d : list (string * Session.t)) (a : t) : t :=
  mk (config a) d.

(** What the operating system answers while a session's process is torn
    down: [returncode is None] before and after the grace period, and
    whether the two signal calls raise. *)
Record TermOracle := {
  alive_before : bool;
  terminate_raises : bool;
  alive_after : bool;
  kill_raises : bool
}.

(** The [try] block of [terminate_session] (lines 207-213); every
    exception is logged and swallowed. *)
Definition stop_process (o : TermOracle) (p : Process) : list OsEffect :=
  if terminate_raises o then []
  else if alive_after o then
    (if kill_raises o then [Terminate p] else [Terminate p; Kill p])
  else [Terminate p].

Definition terminate_session (o : TermOracle) (session_id : string) (a : t)
  : bool * list OsEffect * t :=
  match PyDict.get session_id (sessions a) with
  | None => (false, [], a)
  | Some session =>
      let fx :=
        match Session.process session with
        | Some p => if alive_before o then stop_process o p else []
        | None => []
        end in
      (true, fx, set_sessions (PyDict.del session_id (sessions a)) a)
  end.

(** [min(user_sessions, key=lambda s: s.created_at)]: the first element
    among those with the least key; [None] stands for the [ValueError]
    on an empty sequence. *)
Fixpoint min_from (best : Session.t) (l : list Session.t) : Session.t :=
  match l with
  | [] => best
  | s :: l' =>
      min_from (if (Session.created_at s <? Session.created_at best)%Z
                then s else best) l'
  end.

Definition py_min (l : list Session.t) : option Session.t :=
  match l with
  | [] => None
  | s :: l' => Some (min_from s l')
  end.

(** [self] as seen from the methods of [BaseAgent]: the instance may belong
    to a subclass, and [self.terminate_session] is the subclass's override. *)
Class Self (A : Type) := {
  TermEnv : Type;
  base : A -> t;
  with_base : t -> A -> A;
  self_terminate_session : TermEnv -> string -> A -> bool * list OsEffect * A
}.

(** Values drawn from the environment by one [create_session] call. *)
Record CreateEnv (T : Type) := {
  uuid4 : string;          (* str(uuid.uuid4()) *)
  now : Z;                 (* datetime.now() *)
  getcwd : string;         (* os.getcwd() *)
  evict : T                (* teardown of the evicted session *)
}.
Arguments uuid4 {T} _.
Arguments now {T} _.
Arguments getcwd {T} _.
Arguments evict {T} _.

Definition user_sessions (user : string) (a : t) : list Session.t :=
  List.filter (fun s => bool_decide (Session.user_id s = user))
              (PyDict.values (sessions a)).

(** [x or y] on strings: [None] and the empty string are falsy. *)
Definition str_or (x : option string) (y : string) : string :=
  match x with
  | Some s => if bool_decide (s = "") then y else s
  | None => y
  end.

Definition create_session {A} `{Self A} (e : CreateEnv TermEnv)
    (user : string) (working_directory : option string) (a : A)
  : result string * list OsEffect * A :=
  let session_id := uuid4 e in
  let us := user_sessions user (base a) in
  let evicted :=
    if (AgentConfig.max_sessions (config (base a)) <=? Z.of_nat (length us))%Z
    then match py_min us with
         | None => Raise (ValueError "min() arg is an empty sequence")
         | Some oldest =>
             let '(_, fx, a') :=
               self_terminate_session (evict e) (Session.id oldest) a in
             Ok (fx, a')
         end
    else Ok ([], a) in
  match evicted with
  | Raise ex => (Raise ex, [], a)
  | Ok (fx, a') =>
      let cfg := config (base a') in
      let wd :=
        match working_directory with
        | Some d => d
        | None => str_or (AgentConfig.working_directory cfg) (getcwd e)
        end in
      let session :=
        Session.mk session_id user (AgentConfig.agent_type cfg)
                   None (now e) wd cfg in
      (Ok session_id, fx,
       with_base
         (set_sessions (PyDict.set session_id session (sessions (base a')))
                       (base a')) a')
  end.

(** A plain [BaseAgent] (the one-shot agents [ClaudeCodeAgent],
    [GeminiCLIAgent], [CustomAgent] inherit both methods unchanged). *)
#[global] Instance BaseAgent_Self : Self t := {|
  TermEnv := TermOracle;
  base := fun a => a;
  with_base := fun b _ => b;
  self_terminate_session := terminate_session
|}.

(** A caller that creates one session after the other, as the bridge does
    for each [/new] request; a call that raises leaves the agent as the
    exception found it. *)
Fixpoint create_sessions {A} `{Self A}
    (calls : list (CreateEnv TermEnv * option string)) (user : string) (a : A)
  : A :=
  match calls with
  | [] => a
  | (e, wd) :: calls' =>
      create_sessions calls' user (create_session e user wd a).2
  end.

(** [get_session_info]: the [is_running] flag needs the process's
    return code, supplied as [running]. *)
Record SessionInfo := {
  info_id : string;
  info_user_id : string;
  info_agent_type : string;
  info_created_at : Z;
  info_working_directory : string;
  info_is_running : bool
}.

Definition get_session_info (returncode_is_None : bool)
    (session_id : string) (a : t) : option SessionInfo :=
  match PyDict.get session_id (sessions a) with
  | None => None
  | Some s =>
      Some {| info_id := Session.id s;
              info_user_id := Session.user_id s;
              info_agent_type := AgentTypeValue.value (Session.agent_type s);
              info_created_at := Session.created_at s;
              info_working_directory := Session.working_directory s;
              info_is_running :=
                match Session.process s with
                | Some _ => returncode_is_None
                | None => false
                end |}
  end.

(** *** [execute_command] (lines 92-197) *)

(** The methods a concrete agent supplies.  [create_process] is present on
    some subclasses only ([hasattr(self, 'create_process')]); it decides
    the environment handed to the child from [os.environ] and the expanded
    home directory.  [parse_output] also receives the current timestamp. *)
Record Hooks := {
  prepare_command : string -> Session.t -> result (list string);
  parse_output : string -> string -> result Event;
  create_process :
    option (gmap string string -> string -> gmap string string)
}.

(** One [wait_for(process.stdout.readline(), timeout=0.1)] followed by
    [line.decode('utf-8').strip()]. *)
Inductive ReadOutcome :=
| RLine (output : result string)  (* a line; its text decoded and stripped,
                                     or the decoding error *)
| REof                            (* readline returned b'' *)
| RTimeout (exited : bool)        (* nothing within 0.1 s; [exited] is
                                     [process.returncode is not None] *)
| RError (e : Exn).               (* any other exception of the read *)

(** What the child process and the clock do during one execution. *)
Record World := {
  environ : gmap string string;     (* os.environ *)
  home : string;                    (* os.path.expanduser('~') *)
  spawn : result Process;           (* create_subprocess_exec *)
  clock : nat -> Z;                 (* time.time() - start_time at the k-th
                                       pass of the loop, in milliseconds *)
  reads : nat -> ReadOutcome;       (* the read of the k-th pass *)
  stamp : nat -> string;            (* datetime.now().isoformat() there *)
  timeout_terminate_raises : bool;  (* process.terminate() at the timeout *)
  wait : option Z;                  (* process.wait(): the return code, or
                                       [None] when it never returns *)
  stderr_read : result string       (* stderr.read().decode().strip() *)
}.

Definition not_found_event (session_id : string) : Event :=
  [("error", VStr "Session not found"); ("session_id", VStr session_id)].

(** [timeout = 300], in the unit of [clock]. *)
Definition timeout_ms : Z := 300000.

Definition timeout_event (session_id : string) (session : Session.t) : Event :=
  [("error", VStr "Command timed out after 300 seconds");
   ("session_id", VStr session_id);
   ("agent_type", VStr (AgentTypeValue.value (Session.agent_type session)));
   ("timeout", VBool true)].

(** ["timeout" in event and event["timeout"] is True] *)
Definition is_timeout_event (e : Event) : bool :=
  match PyDict.get "timeout" e with
  | Some (VBool true) => true
  | _ => false
  end.

Definition failed_event (session_id : string) (session : Session.t)
    (error_msg : string) (return_code : Z) : Event :=
  [("error", VStr ("Command failed: " +:+ error_msg));
   ("session_id", VStr session_id);
   ("agent_type", VStr (AgentTypeValue.value (Session.agent_type session)));
   ("return_code", VInt return_code)].

Definition exception_event (session_id : string) (session : Session.t)
    (e : Exn) : Event :=
  [("error", VStr (exn_str e));
   ("session_id", VStr session_id);
   ("agent_type", VStr (AgentTypeValue.value (Session.agent_type session)));
   ("exception_type", VStr (exn_type_name e))].

(** Lines 148-149. *)
Definition tag_output (session_id : string) (session : Session.t)
    (parsed_output : Event) : Event :=
  PyDict.set "agent_type"
    (VStr (AgentTypeValue.value (Session.agent_type session)))
    (PyDict.set "session_id" (VStr session_id) parsed_output).

(** One pass of the [while True] loop (lines 122-168): [None] when the
    loop ends without a result yet, otherwise the events and OS calls from
    this pass on, given those of the passes after it ([continue]). *)
Definition loop_pass (h : Hooks) (w : World) (p : Process)
    (session_id : string) (session : Session.t) (k : nat)
    (continue : option (list Event * list OsEffect))
  : option (list Event * list OsEffect) :=
  if (timeout_ms <? clock w k)%Z then
    if timeout_terminate_raises w then Some ([], [])
    else Some ([timeout_event session_id session], [Terminate p])
  else
    match reads w k with
    | REof => Some ([], [])
    | RTimeout exited => if exited then Some ([], []) else continue
    | RError _ => Some ([], [])
    | RLine (Raise _) => continue
    | RLine (Ok output) =>
        if bool_decide (output = "") then continue
        else
          match parse_output h (stamp w k) output with
          | Raise UnicodeDecodeError => continue
          | Raise _ => Some ([], [])
          | Ok parsed_output =>
              match continue with
              | None => None
              | Some (evs, fx) =>
                  Some (tag_output session_id session parsed_output :: evs, fx)
              end
          end
    end.

(** The loop from its [k]-th pass on.  [None]: it is still running after
    [fuel] passes. *)
Fixpoint output_loop (h : Hooks) (w : World) (p : Process)
    (session_id : string) (session : Session.t) (fuel k : nat)
  : option (list Event * list OsEffect) :=
  match fuel with
  | O => None
  | S fuel' =>
      loop_pass h w p session_id session k
        (output_loop h w p session_id session fuel' (S k))
  end.

Inductive Status :=
| Finished                  (* the generator ran to its end *)
| Blocked                   (* stuck in [process.wait()] *)
| OutOfFuel.                (* the loop outlived the fuel *)

Record Run := {
  events : list Event;
  effects : list OsEffect;
  status : Status;
  after : t
}.

(** [session.process = p] on the session object held by the map. *)
Definition set_session_process (session_id : string) (p : option Process)
    (a : t) : t :=
  match PyDict.get session_id (sessions a) with
  | Some s =>
      set_sessions (PyDict.set session_id (Session.set_process p s) (sessions a)) a
  | None => a
  end.

Definition execute_command (h : Hooks) (w : World) (fuel : nat)
    (session_id message : string) (a : t) : Run :=
  match PyDict.get session_id (sessions a) with
  | None => {| events := [not_found_event session_id]; effects := [];
               status := Finished; after := a |}
  | Some session =>
      let cleaned := set_session_process session_id None a in
      match prepare_command h message session with
      | Raise e =>
          {| events := [exception_event session_id session e]; effects := [];
             status := Finished; after := cleaned |}
      | Ok cmd =>
          match spawn w with
          | Raise e =>
              {| events := [exception_event session_id session e];
                 effects := []; status := Finished; after := cleaned |}
          | Ok process =>
              let env :=
                match create_process h with
                | Some mk_env => Some (mk_env (environ w) (home w))
                | None => None
                end in
              let started :=
                [Spawn process cmd (Session.working_directory session) env] in
              let running := set_session_process session_id (Some process) a in
              match output_loop h w process session_id session fuel 0 with
              | None =>
                  {| events := []; effects := started; status := OutOfFuel;
                     after := running |}
              | Some (evs, fx) =>
                  match wait w with
                  | None =>
                      {| events := evs; effects := started ++ fx;
                         status := Blocked; after := running |}
                  | Some return_code =>
                      if (return_code =? 0)%Z then
                        {| events := evs; effects := started ++ fx;
                           status := Finished; after := cleaned |}
                      else
                        match stderr_read w with
                        | Raise e =>
                            {| events :=
                                 evs ++ [exception_event session_id session e];
                               effects := started ++ fx;
                               status := Finished; after := cleaned |}
                        | Ok error_msg =>
                            {| events :=
                                 evs ++ [failed_event session_id session
                                           error_msg return_code];
                               effects := started ++ fx;
                               status := Finished; after := cleaned |}
                        end
                  end
              end
          end
      end
  end.

(** *** [list_sessions] (lines 234-248) *)

Record SessionList := {
  listed : list SessionInfo;
  total : nat;
  listed_max_sessions : Z;
  listed_agent_type : string
}.

(** [returncode_is_None] answers, per session id, whether the session's
    process (if any) is still running. *)
Definition list_sessions (returncode_is_None : string -> bool)
    (user_id : option string) (a : t) : SessionList :=
  let selected :=
    flat_map
      (fun session =>
         if match user_id with
            | None => true
            | Some u => bool_decide (Session.user_id session = u)
            end
         then match get_session_info (returncode_is_None (Session.id session))
                      (Session.id session) a with
              | Some info => [info]
              | None => []
              end
         else [])
      (PyDict.values (sessions a)) in
  {| listed := selected; total := length selected;
     listed_max_sessions := AgentConfig.max_sessions (config a);
     listed_agent_type := AgentTypeValue.value (AgentConfig.agent_type (config a)) |}.

End BaseAgent.

(** ** ClaudeCodeAgent ([agent_system.py], lines 250-315) *)

Module ClaudeCodeAgent.

Definition prepare_command (cfg : AgentConfig.t) (message : string)
    (session : Session.t) : result (list string) :=
  Ok [AgentConfig.executable_path cfg; "--print";
      "--output-format=stream-json"; "--verbose"; message].

(** The environment built by [create_process] (lines 265-267). *)
Definition create_process_env (environ : gmap string string) (home : string)
  : gmap string string :=
  <["HOME" := home]> environ.

Definition dquote : string := String "034"%char EmptyString.

(** [type(value).__name__]; a number written with a fraction or an
    exponent, and the three non-finite literals, decode to [float]. *)
Definition type_name (value : Json.t) : string :=
  match value with
  | Json.JNull => "NoneType"
  | Json.JBool _ => "bool"
  | Json.JNum lit =>
      if str_contains "." lit || str_contains "e" lit || str_contains "E" lit
         || str_contains "N" lit || str_contains "I" lit
      then "float" else "int"
  | Json.JStr _ => "str"
  | Json.JArr _ => "list"
  | Json.JObj _ => "dict"
  end.

Definition is_str (x : string) (j : Json.t) : bool :=
  match j with
  | Json.JStr s => bool_decide (s = x)
  | _ => false
  end.

(** [x in value] for a decoded value: key of a dict, element of a list,
    substring of a string; anything else is not iterable. *)
Definition py_in (x : string) (value : Json.t) : result bool :=
  match value with
  | Json.JObj m => Ok (PyDict.mem x m)
  | Json.JArr l => Ok (existsb (is_str x) l)
  | Json.JStr s => Ok (str_contains x s)
  | _ =>
      Raise (TypeError ("argument of type '" +:+ type_name value
                          +:+ "' is not iterable"))
  end.

(** [value[k]] for a string key. *)
Definition py_getitem (k : string) (value : Json.t) : result Json.t :=
  match value with
  | Json.JObj m =>
      match PyDict.get k m with
      | Some v => Ok v
      | None => Raise (KeyError k)
      end
  | Json.JArr _ => Raise (TypeError "list indices must be integers or slices, not str")
  | Json.JStr _ => Raise (TypeError "string indices must be integers")
  | _ =>
      Raise (TypeError ("'" +:+ type_name value
                          +:+ "' object is not subscriptable"))
  end.

(** [value.get(k)]; only dictionaries have the method. *)
Definition py_get (k : string) (value : Json.t) : result (option Json.t) :=
  match value with
  | Json.JObj m => Ok (PyDict.get k m)
  | _ =>
      Raise (AttributeError ("'" +:+ type_name value
                               +:+ "' object has no attribute 'get'"))
  end.

(** The items a [for] loop draws from a value.  Iterating a string gives
    its characters, taken here byte by byte. *)
Definition py_iter (value : Json.t) : result (list Json.t) :=
  match value with
  | Json.JArr l => Ok l
  | Json.JObj m => Ok (map Json.JStr (PyDict.keys m))
  | Json.JStr s =>
      Ok (map (fun c => Json.JStr (String c EmptyString)) (list_ascii_of_string s))
  | _ => Raise (TypeError ("'" +:+ type_name value +:+ "' object is not iterable"))
  end.

(** ["type" in parsed and parsed["type"] == tag] *)
Definition has_type (tag : string) (parsed : Json.t) : result bool :=
  match py_in "type" parsed with
  | Raise e => Raise e
  | Ok false => Ok false
  | Ok true =>
      match py_getitem "type" parsed with
      | Raise e => Raise e
      | Ok v => Ok (is_str tag v)
      end
  end.

(** The [for content_item in ...] loop (lines 286-288). *)
Fixpoint collect_text (items : list Json.t) (content : string) : result string :=
  match items with
  | [] => Ok content
  | content_item :: rest =>
      match py_get "type" content_item with
      | Raise e => Raise e
      | Ok (Some (Json.JStr "text")) =>
          match py_get "text" content_item with
          | Raise e => Raise e
          | Ok None => collect_text rest content
          | Ok (Some (Json.JStr s)) => collect_text rest (content +:+ s)
          | Ok (Some v) =>
              Raise (TypeError ("can only concatenate str (not " +:+ dquote
                                  +:+ type_name v +:+ dquote +:+ ") to str"))
          end
      | Ok _ => collect_text rest content
      end
  end.

(** Lines 284-288: the text of an assistant message. *)
Definition assistant_content (parsed : Json.t) : result string :=
  match py_in "message" parsed with
  | Raise e => Raise e
  | Ok false => Ok ""
  | Ok true =>
      match py_getitem "message" parsed with
      | Raise e => Raise e
      | Ok message =>
          match py_in "content" message with
          | Raise e => Raise e
          | Ok false => Ok ""
          | Ok true =>
              match py_getitem "content" message with
              | Raise e => Raise e
              | Ok blocks =>
                  match py_iter blocks with
                  | Raise e => Raise e
                  | Ok items => collect_text items ""
                  end
              end
          end
      end
  end.

Definition text_event (output timestamp : string) : Event :=
  [("type", VStr "text"); ("content", VStr output);
   ("timestamp", VStr timestamp)].

Definition assistant_event (content : string) (parsed : Json.t)
    (timestamp : string) : Event :=
  [("type", VStr "assistant_response"); ("content", VStr content);
   ("raw", VJson parsed); ("timestamp", VStr timestamp)].

(** [parse_output] (lines 277-315).  [py_str] is the builtin [str] on a
    decoded value.  Only [JSONDecodeError] is caught. *)
Definition parse_output (py_str : Json.t -> string) (timestamp output : string)
  : result Event :=
  match Json.loads output with
  | Raise JSONDecodeError => Ok (text_event output timestamp)
  | Raise e => Raise e
  | Ok parsed =>
      match has_type "assistant" parsed with
      | Raise e => Raise e
      | Ok true =>
          match assistant_content parsed with
          | Raise e => Raise e
          | Ok content => Ok (assistant_event content parsed timestamp)
          end
      | Ok false =>
          match has_type "result" parsed with
          | Raise e => Raise e
          | Ok true =>
              Ok [("type", VStr "result");
                  ("content",
                   match py_get "result" parsed with
                   | Ok (Some v) => of_json v
                   | _ => VStr ""
                   end);
                  ("raw", VJson parsed); ("timestamp", VStr timestamp)]
          | Ok false =>
              Ok [("type", VStr "raw_json"); ("content", VStr (py_str parsed));
                  ("raw", VJson parsed); ("timestamp", VStr timestamp)]
          end
      end
  end.

Definition hooks (cfg : AgentConfig.t) (py_str : Json.t -> string)
  : BaseAgent.Hooks :=
  {| BaseAgent.prepare_command := prepare_command cfg;
     BaseAgent.parse_output := parse_output py_str;
     BaseAgent.create_process := Some create_process_env |}.

End ClaudeCodeAgent.

(** ** GeminiCLIAgent and CustomAgent: the inherited spawn path *)

Module CustomAgent.

(** [_default_parser] (lines 361-367). *)
Definition _default_parser (timestamp output : string) : result Event :=
  Ok [("type", VStr "text"); ("content", VStr output);
      ("timestamp", VStr timestamp)].

(** Neither class defines [create_process]: the child is started by the
    call of lines 108-113, which passes no [env].  [split_command] stands
    for [command_template.format(...).split()]. *)
Definition hooks (split_command : string -> list string) : BaseAgent.Hooks :=
  {| BaseAgent.prepare_command := fun message _ => Ok (split_command message);
     BaseAgent.parse_output := _default_parser;
     BaseAgent.create_process := None |}.

End CustomAgent.

(** ** GeminiCLIAgent ([agent_system.py], lines 317-338) *)

Module GeminiCLIAgent.

Definition prepare_command (cfg : AgentConfig.t) (message : string)
    (session : Session.t) : result (list string) :=
  Ok ([AgentConfig.executable_path cfg; "--prompt"; message; "--stream"]
        ++ AgentConfig.default_args cfg).

(** [parse_output] (lines 328-338) returns whatever [json.loads] gives.
    The caller assigns two keys to the result at once (lines 148-149),
    which raises [TypeError] for anything but a dictionary; that exception
    is raised here, inside the same [try] of the caller. *)
Definition parse_output (timestamp output : string) : result Event :=
  match Json.loads output with
  | Raise JSONDecodeError =>
      Ok [("type", VStr "text"); ("content", VStr output);
          ("timestamp", VStr timestamp)]
  | Raise e => Raise e
  | Ok (Json.JObj members) => Ok (map (fun kv => (kv.1, of_json kv.2)) members)
  | Ok (Json.JArr _) =>
      Raise (TypeError "list indices must be integers or slices, not str")
  | Ok value =>
      Raise (TypeError ("'" +:+ ClaudeCodeAgent.type_name value
                          +:+ "' object does not support item assignment"))
  end.

Definition hooks (cfg : AgentConfig.t) : BaseAgent.Hooks :=
  {| BaseAgent.prepare_command := prepare_command cfg;
     BaseAgent.parse_output := parse_output;
     BaseAgent.create_process := None |}.

End GeminiCLIAgent.

(** ** PersistentClaudeAgent: life cycle ([persistent_claude_agent.py]) *)

Module PersistentClaudeAgent.

Record t := mk {
  base : BaseAgent.t;
  claude_processes : gmap string Process;
  executing_sessions : gset string
}.

Definition init (cfg : AgentConfig.t) : t := mk (BaseAgent.init cfg) ∅ ∅.

Definition set_base (b : BaseAgent.t) (a : t) : t :=
  mk b (claude_processes a) (executing_sessions a).
Definition set_claude_processes (m : gmap string Process) (a : t) : t :=
  mk (base a) m (executing_sessions a).
Definition set_executing_sessions (s : gset string) (a : t) : t :=
  mk (base a) (claude_processes a) s.

(** [_get_environment] (lines 60-65); [home] is [os.path.expanduser('~')]. *)
Definition _get_environment (environ : gmap string string) (home : string)
  : gmap string string :=
  <["HOME" := home]> environ.

Record TermEnv := {
  super_term : BaseAgent.TermOracle;
  stdin_close_raises : bool;
  proc_terminate_raises : bool;
  proc_alive_after : bool;
  proc_kill_raises : bool
}.

(** [terminate_session] (lines 200-217).  An exception anywhere in the
    [try] block is logged and leaves the entry of [claude_processes]. *)
Definition terminate_session (o : TermEnv) (session_id : string) (a : t)
  : bool * list OsEffect * t :=
  let '(success, fx, b') :=
    BaseAgent.terminate_session (super_term o) session_id (base a) in
  let a1 := set_base b' a in
  match claude_processes a !! session_id with
  | None => (success, fx, a1)
  | Some process =>
      if stdin_close_raises o then (success, fx, a1)
      else if proc_terminate_raises o then
        (success, fx ++ [StdinClose process], a1)
      else if proc_alive_after o then
        (if proc_kill_raises o then
           (success, fx ++ [StdinClose process; Terminate process], a1)
         else
           (success,
            fx ++ [StdinClose process; Terminate process; Kill process],
            set_claude_processes (delete session_id (claude_processes a)) a1))
      else
        (success, fx ++ [StdinClose process; Terminate process],
         set_claude_processes (delete session_id (claude_processes a)) a1)
  end.

#[global] Instance Persistent_Self : BaseAgent.Self t := {|
  BaseAgent.TermEnv := TermEnv;
  BaseAgent.base := base;
  BaseAgent.with_base := set_base;
  BaseAgent.self_terminate_session := terminate_session
|}.

(** Outcome of the handshake read,
    [wait_for(process.stdout.readline(), timeout=10.0)]. *)
Inductive InitRead :=
| InitLine (valid_utf8 : bool)   (* a non-empty line arrived *)
| InitEof                        (* readline returned b'' *)
| InitTimeout.                   (* nothing within 10 seconds *)

(** [_read_initial_output] (lines 67-81). *)
Definition _read_initial_output (r : InitRead) : result bool :=
  match r with
  | InitLine true => Ok true
  | InitLine false => Raise UnicodeDecodeError
  | InitEof => Ok false
  | InitTimeout => Ok false
  end.

Record CreateEnv := {
  super_create : BaseAgent.CreateEnv TermEnv;
  environ : gmap string string;
  home : string;
  spawn : result Process;          (* create_subprocess_exec *)
  init_read : InitRead;
  init_terminate_raises : bool     (* process.terminate() on failure *)
}.

(** The [except] clause of [create_session] (lines 52-56). *)
Definition abort_create (session_id : string) (a : t) : t :=
  if PyDict.mem session_id (BaseAgent.sessions (base a))
  then set_base (BaseAgent.set_sessions
                   (PyDict.del session_id (BaseAgent.sessions (base a)))
                   (base a)) a
  else a.

(** [create_session] (lines 17-58). *)
Definition create_session (e : CreateEnv) (user : string)
    (working_directory : option string) (a : t)
  : result string * list OsEffect * t :=
  match BaseAgent.create_session (super_create e) user working_directory a with
  | (Raise ex, fx, a0) => (Raise ex, fx, a0)
  | (Ok session_id, fx, a0) =>
      match spawn e with
      | Raise ex => (Raise ex, fx, abort_create session_id a0)
      | Ok process =>
          let argv :=
            [AgentConfig.executable_path (BaseAgent.config (base a0));
             "--print"; "--output-format=stream-json"; "--verbose"] in
          let cwd := BaseAgent.str_or working_directory "." in
          let fx1 :=
            fx ++ [Spawn process argv cwd
                     (Some (_get_environment (environ e) (home e)))] in
          let a1 :=
            set_claude_processes
              (<[session_id := process]> (claude_processes a0)) a0 in
          match _read_initial_output (init_read e) with
          | Raise ex => (Raise ex, fx1, abort_create session_id a1)
          | Ok true => (Ok session_id, fx1, a1)
          | Ok false =>
              if init_terminate_raises e then
                (Raise ProcessLookupError, fx1, abort_create session_id a1)
              else
                (Raise (Exception
                   "Claude initialization failed - no system init message received"),
                 fx1 ++ [Terminate process], abort_create session_id a1)
          end
      end
  end.

(** *** [execute_command] and [_stream_output] (lines 84-198) *)

Definition newline : string := String "010"%char EmptyString.

(** One [wait_for(process.stdout.readline(), timeout=2.0)], with the
    decoding and stripping of the line. *)
Inductive StreamRead :=
| SLine (output : result string)
| SEof (exited : bool)        (* b''; [exited]: returncode is not None *)
| STimeout
| SError (e : Exn).

(** The body of [if output:] (lines 160-198): the event for one line and
    whether the loop ends after it.  Only [JSONDecodeError] is caught. *)
Definition classify_line (output : string) : result (Event * bool) :=
  match Json.loads output with
  | Raise JSONDecodeError =>
      Ok ([("type", VStr "text"); ("content", VStr output)], false)
  | Raise e => Raise e
  | Ok parsed =>
      match ClaudeCodeAgent.py_get "type" parsed with
      | Raise e => Raise e
      | Ok (Some (Json.JStr "result")) =>
          Ok ([("type", VStr "result");
               ("content",
                match ClaudeCodeAgent.py_get "result" parsed with
                | Ok (Some v) => of_json v
                | _ => VStr ""
                end);
               ("is_error",
                match ClaudeCodeAgent.py_get "is_error" parsed with
                | Ok (Some v) => of_json v
                | _ => VBool false
                end);
               ("raw", VJson parsed)], true)
      | Ok (Some (Json.JStr "assistant")) =>
          match ClaudeCodeAgent.assistant_content parsed with
          | Raise e => Raise e
          | Ok content =>
              Ok ([("type", VStr "assistant_response");
                   ("content", VStr content); ("raw", VJson parsed)], false)
          end
      | Ok _ =>
          Ok ([("type", VStr "raw_json"); ("content", VStr output);
               ("raw", VJson parsed)], false)
      end
  end.

(** [_stream_output] from its [k]-th read on: the events yielded and the
    exception that ends the generator, if any.  [None]: still reading
    after [fuel] reads. *)
Fixpoint _stream_output (reads : nat -> StreamRead)
    (fuel k consecutive_timeouts : nat) : option (list Event * option Exn) :=
  match fuel with
  | O => None
  | S fuel' =>
      match reads k with
      | SError e => Some ([], Some e)
      | STimeout =>
          if (3 <=? S consecutive_timeouts)%nat then Some ([], None)
          else _stream_output reads fuel' (S k) (S consecutive_timeouts)
      | SEof exited =>
          if exited then Some ([], None)
          else _stream_output reads fuel' (S k) 0
      | SLine (Raise e) => Some ([], Some e)
      | SLine (Ok output) =>
          if bool_decide (output = "") then _stream_output reads fuel' (S k) 0
          else
            match classify_line output with
            | Raise e => Some ([], Some e)
            | Ok (ev, true) => Some ([ev], None)
            | Ok (ev, false) =>
                match _stream_output reads fuel' (S k) 0 with
                | None => None
                | Some (evs, ex) => Some (ev :: evs, ex)
                end
            end
      end
  end.

Definition error_event (error session_id : string) : Event :=
  [("error", VStr error); ("session_id", VStr session_id)].

(** Outcome of the checks a submission passes before anything is awaited. *)
Inductive Admission :=
| Rejected (ev : Event)
| Accepted (process : Process).

(** Lines 86-101: the three guards and the entry into the in-flight set.
    No suspension point lies between the test and the [add]. *)
Definition enter (session_id : string) (a : t) : Admission * t :=
  if negb (PyDict.mem session_id (BaseAgent.sessions (base a))) then
    (Rejected (error_event "Session not found" session_id), a)
  else
    match claude_processes a !! session_id with
    | None => (Rejected (error_event "Claude process not found" session_id), a)
    | Some process =>
        if bool_decide (session_id ∈ executing_sessions a) then
          (Rejected (error_event "Session is already executing a command"
                       session_id), a)
        else
          (Accepted process,
           set_executing_sessions ({[session_id]} ∪ executing_sessions a) a)
    end.

(** The [finally] clause (line 127). *)
Definition release (session_id : string) (a : t) : t :=
  set_executing_sessions (executing_sessions a ∖ {[session_id]}) a.

Record TurnWorld := {
  stdin_raises : option Exn;          (* stdin.write / drain *)
  stream_reads : nat -> StreamRead
}.

Definition tag (session_id : string) (a : t) (output : Event) : Event :=
  PyDict.set "agent_type"
    (VStr (AgentTypeValue.value (AgentConfig.agent_type (BaseAgent.config (base a)))))
    (PyDict.set "session_id" (VStr session_id) output).

Definition exception_event (session_id : string) (a : t) (e : Exn) : Event :=
  [("error", VStr (exn_str e)); ("session_id", VStr session_id);
   ("agent_type",
    VStr (AgentTypeValue.value (AgentConfig.agent_type (BaseAgent.config (base a)))))].

(** Lines 104-127 for an accepted submission: the events of the turn, the
    OS calls, and the agent once the [finally] clause has run. *)
Definition run_turn (w : TurnWorld) (fuel : nat) (session_id message : string)
    (process : Process) (a : t) : option (list Event * list OsEffect * t) :=
  match stdin_raises w with
  | Some e => Some ([exception_event session_id a e], [], release session_id a)
  | None =>
      match _stream_output (stream_reads w) fuel 0 0 with
      | None => None
      | Some (evs, ex) =>
          Some (map (tag session_id a) evs
                  ++ match ex with
                     | Some e => [exception_event session_id a e]
                     | None => []
                     end,
                [StdinWrite process (message +:+ newline)],
                release session_id a)
      end
  end.

(** [execute_command] run without interruption. *)
Definition execute_command (w : TurnWorld) (fuel : nat)
    (session_id message : string) (a : t)
  : option (list Event * list OsEffect * t) :=
  match enter session_id a with
  | (Rejected ev, a') => Some ([ev], [], a')
  | (Accepted process, a') => run_turn w fuel session_id message process a'
  end.

End PersistentClaudeAgent.

(** ** PTYClaudeAgent: life cycle ([pty_claude_agent.py]) *)

Module PTYClaudeAgent.

(** The value stored per session in [pty_sessions]. *)
Record PtyInfo := {
  master_fd : Z;
  pty_pid : nat;
  buffer : string;
  pty_working_directory : string
}.

Record t := mk {
  base : BaseAgent.t;
  pty_sessions : gmap string PtyInfo
}.

Definition init (cfg : AgentConfig.t) : t := mk (BaseAgent.init cfg) ∅.

Definition set_base (b : BaseAgent.t) (a : t) : t := mk b (pty_sessions a).
Definition set_pty_sessions (m : gmap string PtyInfo) (a : t) : t :=
  mk (base a) m.

Inductive KillOutcome :=
| Delivered
| NoSuchProcess               (* ProcessLookupError *)
| KillError (errno : Z).      (* any other exception *)

Record TermEnv := {
  super_term : BaseAgent.TermOracle;
  kill_term : KillOutcome;      (* os.kill(pid, 15) *)
  kill_kill : KillOutcome;      (* os.kill(pid, 9) *)
  close_raises : bool           (* os.close(master_fd) *)
}.

(** Lines 216-221: the inner [try]; the flag is [false] when an exception
    other than [ProcessLookupError] escapes to the outer handler. *)
Definition signal_child (o : TermEnv) (pid : nat) : list OsEffect * bool :=
  match kill_term o with
  | NoSuchProcess => ([], true)
  | KillError _ => ([], false)
  | Delivered =>
      match kill_kill o with
      | Delivered => ([OsKill pid 15; OsKill pid 9], true)
      | NoSuchProcess => ([OsKill pid 15], true)
      | KillError _ => ([OsKill pid 15], false)
      end
  end.

(** [terminate_session] (lines 205-232). *)
Definition terminate_session (o : TermEnv) (session_id : string) (a : t)
  : bool * list OsEffect * t :=
  let '(success, fx, b') :=
    BaseAgent.terminate_session (super_term o) session_id (base a) in
  let a1 := set_base b' a in
  match pty_sessions a !! session_id with
  | None => (success, fx, a1)
  | Some pty_info =>
      let '(sfx, continue) := signal_child o (pty_pid pty_info) in
      if continue then
        if close_raises o then (success, fx ++ sfx, a1)
        else (success, fx ++ sfx ++ [OsClose (master_fd pty_info)],
              set_pty_sessions (delete session_id (pty_sessions a)) a1)
      else (success, fx ++ sfx, a1)
  end.


#[global] Instance PTY_Self : BaseAgent.Self t := {|
  BaseAgent.TermEnv := TermEnv;
  BaseAgent.base := base;
  BaseAgent.with_base := set_base;
  BaseAgent.self_terminate_session := terminate_session
|}.

(** One pass of the polling loop: [select] on the master descriptor with
    a 0.1 s timeout, then [os.read]. *)
Inductive PtyProbe :=
| ProbeData (data : string)   (* readable, os.read returned bytes *)
| ProbeEmpty                  (* readable, os.read returned b'' *)
| ProbeIdle                   (* select timed out *)
| ProbeOSError (errno : Z).   (* select or os.read raised *)

Record InitOracle := {
  init_clock : nat -> Z;        (* loop.time() - start_time at the k-th
                                   check, in milliseconds *)
  init_probe : nat -> PtyProbe;
  decode_ignore : string -> string   (* bytes.decode('utf-8', 'ignore') *)
}.

(** [_wait_for_initialization] (lines 82-113), [timeout = 10.0].
    [None]: the fuel ran out.  [Some None]: the loop left at the timeout
    check, nothing stored.  [Some (Some b)]: the start-up text was seen and
    [pty_info['buffer']] is set to [b]. *)
Fixpoint _wait_for_initialization (fuel k : nat) (o : InitOracle)
    (buf : string) : option (option string) :=
  match fuel with
  | O => None
  | S fuel' =>
      if (10000 <? init_clock o k)%Z then Some None
      else
        match init_probe o k with
        | ProbeData data =>
            let buf' := buf +:+ data in
            let text := decode_ignore o buf' in
            if str_contains ">" text || str_contains "Claude" text
               || (100 <? String.length buf')%nat
            then Some (Some buf')
            else _wait_for_initialization fuel' (S k) o buf'
        | ProbeEmpty => _wait_for_initialization fuel' (S k) o buf
        | ProbeIdle => _wait_for_initialization fuel' (S k) o buf
        | ProbeOSError _ => _wait_for_initialization fuel' (S k) o buf
        end
  end.

(** A pass of the loop that reads no bytes. *)
Definition silent (p : PtyProbe) : bool :=
  match p with ProbeData _ => false | _ => true end.

Record CreateEnv := {
  super_create : BaseAgent.CreateEnv TermEnv;
  openpty : result (Z * Z);     (* pty.openpty(): (master_fd, slave_fd) *)
  fork : result nat;            (* os.fork(), as seen by the parent *)
  init_oracle : InitOracle
}.

(** The [except] clause of [create_session] (lines 74-78). *)
Definition abort_create (session_id : string) (a : t) : t :=
  if PyDict.mem session_id (BaseAgent.sessions (base a))
  then set_base (BaseAgent.set_sessions
                   (PyDict.del session_id (BaseAgent.sessions (base a)))
                   (base a)) a
  else a.

(** [create_session] (lines 20-80), parent side of the fork.  [None] when
    the initialization loop does not finish within [fuel] passes. *)
Definition create_session (fuel : nat) (e : CreateEnv) (user : string)
    (working_directory : option string) (a : t)
  : option (result string * list OsEffect * t) :=
  match BaseAgent.create_session (super_create e) user working_directory a with
  | (Raise ex, fx, a0) => Some (Raise ex, fx, a0)
  | (Ok session_id, fx, a0) =>
      match openpty e with
      | Raise ex => Some (Raise ex, fx, abort_create session_id a0)
      | Ok (master, slave) =>
          match fork e with
          | Raise ex => Some (Raise ex, fx, abort_create session_id a0)
          | Ok pid =>
              let info :=
                {| master_fd := master; pty_pid := pid; buffer := "";
                   pty_working_directory :=
                     BaseAgent.str_or working_directory
                       (BaseAgent.getcwd (super_create e)) |} in
              let a1 :=
                set_pty_sessions (<[session_id := info]> (pty_sessions a0)) a0 in
              match _wait_for_initialization fuel 0 (init_oracle e) "" with
              | None => None
              | Some None => Some (Ok session_id, fx ++ [OsClose slave], a1)
              | Some (Some b) =>
                  let info' :=
                    {| master_fd := master; pty_pid := pid; buffer := b;
                       pty_working_directory := pty_working_directory info |} in
                  Some (Ok session_id, fx ++ [OsClose slave],
                        set_pty_sessions
                          (<[session_id := info']> (pty_sessions a0)) a0)
              end
          end
      end
  end.

(** The environment of the child (lines 44-46). *)
Definition child_env (environ : gmap string string) (home : string)
  : gmap string string :=
  <["TERM" := "xterm-256color"]> (<["HOME" := home]> environ).

(** Lines 117-128 of [execute_command]: the only guard, then the write of
    the command to the master descriptor ([write_raises]: [os.write]
    fails).  The class keeps no record of running commands. *)
Inductive Admission :=
| Rejected (ev : Event)
| Accepted (fx : list OsEffect)
| WriteFailed (ev : Event).

Definition begin_execute (write_raises : option Exn)
    (session_id message : string) (a : t) : Admission :=
  if negb (PyDict.mem session_id (BaseAgent.sessions (base a))) then
    Rejected [("error", VStr "Session not found"); ("session_id", VStr session_id)]
  else
    match pty_sessions a !! session_id with
    | None =>
        Rejected [("error", VStr "Session not found");
                  ("session_id", VStr session_id)]
    | Some pty_info =>
        match write_raises with
        | Some e =>
            WriteFailed
              [("error", VStr (exn_str e)); ("session_id", VStr session_id);
               ("agent_type",
                VStr (AgentTypeValue.value
                        (AgentConfig.agent_type (BaseAgent.config (base a)))))]
        | None =>
            Accepted [OsWrite (master_fd pty_info)
                              (message +:+ String "010"%char EmptyString)]
        end
    end.

(** *** [_stream_pty_output] and [execute_command] (lines 115-203) *)

Record StreamOracle := {
  stream_probe : nat -> PtyProbe;   (* select and os.read of the k-th pass *)
  stream_clock : nat -> nat -> Z;   (* loop.time() when the i-th line of the
                                       k-th pass is yielded *)
  text_of : string -> string        (* bytes.decode('utf-8', 'ignore').strip() *)
}.

(** The [while b'\n' in buffer] loop (lines 166-167): the complete lines of
    the buffer and what is left after the last newline. *)
Fixpoint split_lines (buf : string) : list string * string :=
  match buf with
  | EmptyString => ([], EmptyString)
  | String c rest =>
      let '(lines, tail) := split_lines rest in
      if Ascii.eqb c "010" then (EmptyString :: lines, tail)
      else match lines with
           | [] => ([], String c tail)
           | l :: lines' => (String c l :: lines', tail)
           end
  end.

Definition text_event (o : StreamOracle) (ts : Z) (raw : string) : list Event :=
  let text := text_of o raw in
  if bool_decide (text = "") then []
  else [[("type", VStr "text"); ("content", VStr text); ("timestamp", VInt ts)]].

Definition line_events (o : StreamOracle) (k : nat) (lines : list string)
  : list Event :=
  concat (imap (fun i line => text_event o (stream_clock o k i) line) lines).

(** The [while consecutive_empty_reads < max_empty_reads] loop (lines
    154-189) from its [k]-th pass on: the events, the buffer left and the
    number of the pass at which it ended.  [None]: still running after
    [fuel] passes. *)
Fixpoint stream_loop (o : StreamOracle) (fuel k consecutive_empty_reads : nat)
    (buf : string) : option (list Event * string * nat) :=
  if (50 <=? consecutive_empty_reads)%nat then Some ([], buf, k)
  else
    match fuel with
    | O => None
    | S fuel' =>
        match stream_probe o k with
        | ProbeOSError _ => Some ([], buf, k)
        | ProbeIdle => stream_loop o fuel' (S k) (S consecutive_empty_reads) buf
        | ProbeEmpty => stream_loop o fuel' (S k) (S consecutive_empty_reads) buf
        | ProbeData data =>
            if bool_decide (data = "") then
              stream_loop o fuel' (S k) (S consecutive_empty_reads) buf
            else
              let '(lines, rest) := split_lines (buf +:+ data) in
              match stream_loop o fuel' (S k) 0 rest with
              | None => None
              | Some (evs, final, k') =>
                  Some (line_events o k lines ++ evs, final, k')
              end
        end
    end.

(** [_stream_pty_output] (lines 144-203).  Nothing inside the outer [try]
    raises anything but the [OSError] handled in the loop, so the handler
    of lines 201-203 has no counterpart. *)
Definition _stream_pty_output (o : StreamOracle) (fuel : nat)
  : option (list Event) :=
  match stream_loop o fuel 0 0 "" with
  | None => None
  | Some (evs, final, k) =>
      Some (evs ++ if bool_decide (final = "") then []
                   else text_event o (stream_clock o k 0) final)
  end.

Definition tag (session_id : string) (a : t) (output : Event) : Event :=
  PyDict.set "agent_type"
    (VStr (AgentTypeValue.value (AgentConfig.agent_type (BaseAgent.config (base a)))))
    (PyDict.set "session_id" (VStr session_id) output).

(** [execute_command] (lines 115-142). *)
Definition execute_command (write_raises : option Exn) (o : StreamOracle)
    (fuel : nat) (session_id message : string) (a : t)
  : option (list Event * list OsEffect) :=
  match begin_execute write_raises session_id message a with
  | Rejected ev => Some ([ev], [])
  | WriteFailed ev => Some ([ev], [])
  | Accepted fx =>
      match _stream_pty_output o fuel with
      | None => None
      | Some evs => Some (map (tag session_id a) evs, fx)
      end
  end.

End PTYClaudeAgent.

(** ** ClaudeCodeCLIAgent ([claude_cli_agent.py]) *)

Module ClaudeCodeCLIAgent.

Record ClaudeCLISession := {
  session_id : string;
  claude_session_id : option string;
  working_directory : string;
  conversation_turns : Z;
  last_command : option string
}.

Record t := mk {
  base : BaseAgent.t;
  cli_sessions : gmap string ClaudeCLISession;
  claude_path : string             (* found by [_find_claude_executable] *)
}.

Definition set_base (b : BaseAgent.t) (a : t) : t :=
  mk b (cli_sessions a) (claude_path a).
Definition set_cli_sessions (m : gmap string ClaudeCLISession) (a : t) : t :=
  mk (base a) m (claude_path a).

(** [terminate_session] (lines 327-336). *)
Definition terminate_session (o : BaseAgent.TermOracle) (sid : string) (a : t)
  : bool * list OsEffect * t :=
  let a1 := set_cli_sessions (delete sid (cli_sessions a)) a in
  let '(success, fx, b') := BaseAgent.terminate_session o sid (base a1) in
  (success, fx, set_base b' a1).

#[global] Instance CLI_Self : BaseAgent.Self t := {|
  BaseAgent.TermEnv := BaseAgent.TermOracle;
  BaseAgent.base := base;
  BaseAgent.with_base := set_base;
  BaseAgent.self_terminate_session := terminate_session
|}.

(** [create_session] (lines 74-85). *)
Definition create_session (e : BaseAgent.CreateEnv BaseAgent.TermOracle)
    (user : string) (wd : option string) (a : t)
  : result string * list OsEffect * t :=
  match BaseAgent.create_session e user wd a with
  | (Raise ex, fx, a0) => (Raise ex, fx, a0)
  | (Ok sid, fx, a0) =>
      (Ok sid, fx,
       set_cli_sessions
         (<[sid := {| session_id := sid; claude_session_id := None;
                      working_directory :=
                        BaseAgent.str_or wd (BaseAgent.getcwd e);
                      conversation_turns := 0; last_command := None |}]>
            (cli_sessions a0)) a0)
  end.

(** The truth value of [cli_session.claude_session_id]. *)
Definition truthy (x : option string) : bool :=
  match x with
  | Some s => negb (bool_decide (s = ""))
  | None => false
  end.

(** Lines 141-147: the arguments that carry the conversation over. *)
Definition continuation_args (cs : ClaudeCLISession) : list string :=
  if (0 <? conversation_turns cs)%Z then
    match claude_session_id cs with
    | Some token => if truthy (Some token) then ["--resume"; token]
                    else ["--continue"]
    | None => ["--continue"]
    end
  else [].

(** [_build_claude_command] (lines 129-156); [getcwd] is [os.getcwd()]. *)
Definition _build_claude_command (a : t) (getcwd : string)
    (cli_session : ClaudeCLISession) (message : string) : list string :=
  let cmd := [claude_path a] in
  let cmd := cmd ++ ["-p"] in
  let cmd :=
    if bool_decide (AgentConfig.stream_format (BaseAgent.config (base a)) = "json")
    then cmd ++ ["--output-format"; "json"] else cmd in
  let cmd := cmd ++ continuation_args cli_session in
  let cmd :=
    if bool_decide (working_directory cli_session = getcwd) then cmd
    else cmd ++ ["--cwd"; working_directory cli_session] in
  cmd ++ [message].

(** ASCII lower case, which decides the two substring tests of line 245
    the way [str.lower] does. *)
Definition lower_char (c : ascii) : ascii :=
  let n := nat_of_ascii c in
  if (65 <=? n)%nat && (n <=? 90)%nat then ascii_of_nat (n + 32) else c.

Fixpoint lower (s : string) : string :=
  match s with
  | EmptyString => EmptyString
  | String c s' => String (lower_char c) (lower s')
  end.

Definition is_hex (c : ascii) : bool :=
  match Json.hex_val c with Some _ => true | None => false end.

(** Whether [s] starts with [n] hexadecimal digits; the rest after them. *)
Fixpoint hex_run (n : nat) (s : string) : option string :=
  match n with
  | O => Some s
  | S n' =>
      match s with
      | String c s' => if is_hex c then hex_run n' s' else None
      | EmptyString => None
      end
  end.

Definition dash (s : option string) : option string :=
  match s with
  | Some (String "-"%char s') => Some s'
  | _ => None
  end.

(** A match of the UUID pattern at the start of [s]. *)
Definition uuid_at (s : string) : bool :=
  match
    match dash (match dash (match dash (match dash (hex_run 8 s) with
                                        | Some r => hex_run 4 r
                                        | None => None
                                        end) with
                            | Some r => hex_run 4 r
                            | None => None
                            end) with
                | Some r => hex_run 4 r
                | None => None
                end) with
    | Some r => hex_run 12 r
    | None => None
    end
  with
  | Some _ => true
  | None => false
  end.

(** [_extract_claude_session_id] (lines 294-305): the leftmost match. *)
Fixpoint _extract_claude_session_id (text : string) : option string :=
  if uuid_at text then Some (String.substring 0 36 text)
  else match text with
       | EmptyString => None
       | String _ text' => _extract_claude_session_id text'
       end.

(** How a [while True] read loop of [_stream_realtime] ends. *)
Inductive StreamEnd :=
| EndEof                 (* readline returned b'' *)
| EndTimeout             (* nothing within 0.1 s *)
| EndError (e : Exn).

(** What the child does in one [_execute_claude_cli] call.  The lines are
    the texts after decoding and stripping. *)
Record World := {
  environ : gmap string string;
  home : string;
  getcwd : string;
  spawn : result Process;
  stdout_lines : list string;
  stdout_end : StreamEnd;
  stderr_lines : list string;
  stderr_end : StreamEnd;
  wait : option Z;
  stamp : string
}.

Definition path_join (a b : string) : string :=
  if bool_decide (a = "") then b
  else if String.eqb (String.substring (String.length a - 1) 1 a) "/"
       then a +:+ b else a +:+ "/" +:+ b.

Definition placeholders : list string :=
  ["your_anthropic_api_key_here"; "your_key_here"; ""].

(** The environment handed to the child (lines 162-174). *)
Definition child_env (environ : gmap string string) (home : string)
  : gmap string string :=
  let env := <["HOME" := home]> environ in
  let env :=
    match env !! "ANTHROPIC_API_KEY" with
    | Some v =>
        if bool_decide (v ∈ placeholders) then delete "ANTHROPIC_API_KEY" env
        else env
    | None => env
    end in
  let env :=
    match env !! "XDG_CONFIG_HOME" with
    | Some _ => env
    | None => <["XDG_CONFIG_HOME" := path_join home ".config"]> env
    end in
  match env !! "XDG_CACHE_HOME" with
  | Some _ => env
  | None => <["XDG_CACHE_HOME" := path_join home ".cache"]> env
  end.

(** The stdout loop of [_stream_realtime] (lines 236-255): the events and
    the continuation token after the lines read. *)
Fixpoint stream_stdout (ts : string) (lines : list string)
    (token : option string) : list Event * option string :=
  match lines with
  | [] => ([], token)
  | text :: rest =>
      if bool_decide (text = "") then stream_stdout ts rest token
      else
        let token' :=
          if str_contains "session_id" (lower text)
             || str_contains "session:" (lower text)
          then match _extract_claude_session_id text with
               | Some sid => if truthy (Some sid) then Some sid else token
               | None => token
               end
          else token in
        let '(evs, final) := stream_stdout ts rest token' in
        ([("type", VStr "text"); ("stream_type", VStr "stdout");
          ("content", VStr text); ("timestamp", VStr ts)] :: evs, final)
  end.

Definition stream_error_event (ts label : string) (e : Exn) : Event :=
  [("type", VStr "error"); ("content", VStr (label +:+ exn_str e));
   ("timestamp", VStr ts)].

Definition end_events (ts label : string) (e : StreamEnd) : list Event :=
  match e with
  | EndError ex => [stream_error_event ts label ex]
  | _ => []
  end.

Definition stderr_events (ts : string) (lines : list string) : list Event :=
  map (fun text =>
         [("type", VStr "error"); ("stream_type", VStr "stderr");
          ("content", VStr text); ("timestamp", VStr ts)])
      (List.filter (fun text => negb (bool_decide (text = ""))) lines).

(** [_stream_realtime] (lines 231-291). *)
Definition _stream_realtime (w : World) (token : option string)
  : list Event * option string :=
  let '(out, token') := stream_stdout (stamp w) (stdout_lines w) token in
  (out ++ end_events (stamp w) "스트림 읽기 오류: " (stdout_end w)
       ++ stderr_events (stamp w) (stderr_lines w)
       ++ end_events (stamp w) "stderr 읽기 오류: " (stderr_end w),
   token').

Inductive Status := Finished | Blocked.

(** The last event of [_execute_claude_cli] (lines 197-221). *)
Definition exit_event (ts : string) (return_code : Z) : Event :=
  if (return_code =? 1)%Z then
    [("error", VStr "Claude CLI 실행 실패. API 키를 확인해주세요.");
     ("error_type", VStr "api_key_error");
     ("return_code", VInt return_code);
     ("help", VStr "해결방법: claude auth set-key YOUR_ANTHROPIC_API_KEY");
     ("timestamp", VStr ts)]
  else if negb (return_code =? 0)%Z then
    [("error",
      VStr ("Claude CLI가 에러로 종료되었습니다 (exit code: "
              +:+ pretty return_code +:+ ")"));
     ("error_type", VStr "cli_exit_error");
     ("return_code", VInt return_code); ("timestamp", VStr ts)]
  else
    [("type", VStr "completion");
     ("content",
      VStr ("Claude CLI 실행 완료 (exit code: " +:+ pretty return_code +:+ ")"));
     ("return_code", VInt return_code); ("timestamp", VStr ts)].

(** [_execute_claude_cli] (lines 158-229): events, OS calls, the token
    after the output was scanned, and whether the call came back. *)
Definition _execute_claude_cli (w : World) (cmd : list string)
    (cli_session : ClaudeCLISession)
  : list Event * list OsEffect * option string * Status :=
  match spawn w with
  | Raise e =>
      ([[("error", VStr ("CLI 프로세스 오류: " +:+ exn_str e));
         ("error_type", VStr "process_error");
         ("timestamp", VStr (stamp w))]],
       [], claude_session_id cli_session, Finished)
  | Ok process =>
      let fx := [Spawn process cmd (working_directory cli_session)
                       (Some (child_env (environ w) (home w)))] in
      let '(evs, token) := _stream_realtime w (claude_session_id cli_session) in
      match wait w with
      | None => (evs, fx, token, Blocked)
      | Some return_code =>
          (evs ++ [exit_event (stamp w) return_code], fx, token, Finished)
      end
  end.

Record Run := {
  events : list Event;
  effects : list OsEffect;
  command : list string;          (* the command built for this turn *)
  status : Status;
  after : t
}.

Definition tag (sid : string) (ev : Event) : Event :=
  PyDict.set "agent_type" (VStr "claude_cli")
    (PyDict.set "session_id" (VStr sid) ev).

(** [' '.join(words)] *)
Fixpoint join_words (words : list string) : string :=
  match words with
  | [] => ""
  | [x] => x
  | x :: rest => x +:+ " " +:+ join_words rest
  end.

(** [execute_command] (lines 87-127).  Nothing inside the [try] raises
    ([_execute_claude_cli] catches every exception itself), so the handler
    of lines 119-127 has no counterpart here. *)
Definition execute_command (w : World) (sid message : string) (a : t) : Run :=
  match PyDict.mem sid (BaseAgent.sessions (base a)), cli_sessions a !! sid with
  | true, Some cli_session =>
      let cmd := _build_claude_command a (getcwd w) cli_session message in
      let started : Event :=
        [("type", VStr "status");
         ("content",
          VStr ("Claude CLI 실행 중... (명령: " +:+ join_words (firstn 3 cmd)
                  +:+ "...)"));
         ("session_id", VStr sid); ("agent_type", VStr "claude_cli");
         ("timestamp", VStr (stamp w))] in
      let '(evs, fx, token, st) := _execute_claude_cli w cmd cli_session in
      let scanned :=
        {| session_id := session_id cli_session;
           claude_session_id := token;
           working_directory := working_directory cli_session;
           conversation_turns := conversation_turns cli_session;
           last_command := last_command cli_session |} in
      match st with
      | Blocked =>
          {| events := started :: map (tag sid) evs; effects := fx;
             command := cmd; status := Blocked;
             after := set_cli_sessions (<[sid := scanned]> (cli_sessions a)) a |}
      | Finished =>
          let updated :=
            {| session_id := session_id cli_session;
               claude_session_id := token;
               working_directory := working_directory cli_session;
               conversation_turns := (conversation_turns cli_session + 1)%Z;
               last_command := Some message |} in
          {| events := started :: map (tag sid) evs; effects := fx;
             command := cmd; status := Finished;
             after := set_cli_sessions (<[sid := updated]> (cli_sessions a)) a |}
      end
  | _, _ =>
      {| events := [[("error", VStr "Session not found");
                     ("session_id", VStr sid)]];
         effects := []; command := []; status := Finished; after := a |}
  end.

(** The continuation arguments a stored token stands for. *)
Definition stored_args (cs : ClaudeCLISession) : list string :=
  match claude_session_id cs with
  | Some token => ["--resume"; token]
  | None => ["--continue"]
  end.

(** A caller that runs one turn after the other on the same session,
    reading each event stream to its end. *)
Fixpoint run_turns (turns : list (World * string)) (sid : string) (a : t)
  : list Run :=
  match turns with
  | [] => []
  | (w, message) :: rest =>
      let r := execute_command w sid message a in
      r :: run_turns rest sid (after r)
  end.

(** The parts of a built command before and after the place of the
    continuation arguments. *)
Definition command_head (a : t) : list string :=
  claude_path a :: "-p" ::
  (if bool_decide (AgentConfig.stream_format (BaseAgent.config (base a)) = "json")
   then ["--output-format"; "json"] else []).

Definition command_tail (cs : ClaudeCLISession) (getcwd message : string)
  : list string :=
  (if bool_decide (working_directory cs = getcwd) then []
   else ["--cwd"; working_directory cs]) ++ [message].

(** *** A caller that leaves the event stream early

    [execute_command] is an async generator: its body runs only while the
    caller asks for the next event, and a caller that leaves its
    [async for] keeps the generator suspended at the [yield] of the last
    event it took.  Closing the generator later raises [GeneratorExit] at
    that [yield], which the handlers of lines 119 and 223 ([except
    Exception]) do not catch, and there is no [finally]: nothing after that
    [yield] ever runs. *)

(** The events a caller takes when it leaves at the first event that
    satisfies [stop]; [None]: it never leaves and reads the stream to its
    end. *)
Fixpoint taken_until (stop : Event -> bool) (evs : list Event)
  : option (list Event) :=
  match evs with
  | [] => None
  | ev :: rest =>
      if stop ev then Some [ev]
      else match taken_until stop rest with
           | Some evs' => Some (ev :: evs')
           | None => None
           end
  end.

(** Lines 245-248 for one non-empty line of stdout. *)
Definition scan_line (text : string) (token : option string) : option string :=
  if str_contains "session_id" (lower text) || str_contains "session:" (lower text)
  then match _extract_claude_session_id text with
       | Some sid => if truthy (Some sid) then Some sid else token
       | None => token
       end
  else token.

(** The token stored when the stdout loop has yielded [n] events: the
    assignment of line 248 precedes the [yield] of its line. *)
Fixpoint token_after (lines : list string) (token : option string) (n : nat)
  : option string :=
  match lines with
  | [] => token
  | text :: rest =>
      match n with
      | O => token
      | S n' =>
          if bool_decide (text = "") then token_after rest token n
          else token_after rest (scan_line text token) n'
      end
  end.

Record Partial := {
  taken : list Event;               (* the events the caller received *)
  partial_effects : list OsEffect;
  exhausted : bool;                 (* the generator ran to its end *)
  partial_after : t
}.

(** One turn whose caller leaves at the first event satisfying [stop].
    The first event (the status line) is yielded before the child is
    started; the counter and the last message are written only after the
    last event (lines 116-117). *)
Definition execute_command_until (stop : Event -> bool) (w : World)
    (sid message : string) (a : t) : Partial :=
  let r := execute_command w sid message a in
  match taken_until stop (events r) with
  | None =>
      {| taken := events r; partial_effects := effects r;
         exhausted := match status r with Finished => true | Blocked => false end;
         partial_after := after r |}
  | Some evs =>
      match PyDict.mem sid (BaseAgent.sessions (base a)), cli_sessions a !! sid with
      | true, Some cli_session =>
          if (1 <? length evs)%nat then
            {| taken := evs; partial_effects := effects r; exhausted := false;
               partial_after :=
                 match spawn w with
                 | Raise _ => a
                 | Ok _ =>
                     set_cli_sessions
                       (<[sid := {| session_id := session_id cli_session;
                                    claude_session_id :=
                                      token_after (stdout_lines w)
                                        (claude_session_id cli_session)
                                        (length evs - 1);
                                    working_directory := working_directory cli_session;
                                    conversation_turns := conversation_turns cli_session;
                                    last_command := last_command cli_session |}]>
                          (cli_sessions a)) a
                 end |}
          else
            {| taken := evs; partial_effects := []; exhausted := false;
               partial_after := a |}
      | _, _ =>
          {| taken := evs; partial_effects := []; exhausted := false;
             partial_after := a |}
      end
  end.

(** *** [get_session_info] (lines 338-351) *)

Record CliFields := {
  info_claude_session_id : option string;
  info_conversation_turns : Z;
  info_last_command : option string;
  info_claude_executable : string
}.

Definition get_session_info (returncode_is_None : bool) (sid : string) (a : t)
  : option (BaseAgent.SessionInfo * option CliFields) :=
  match BaseAgent.get_session_info returncode_is_None sid (base a) with
  | None => None
  | Some info =>
      Some (info,
            match cli_sessions a !! sid with
            | Some cli_session =>
                Some {| info_claude_session_id := claude_session_id cli_session;
                        info_conversation_turns := conversation_turns cli_session;
                        info_last_command := last_command cli_session;
                        info_claude_executable := claude_path a |}
            | None => None
            end)
  end.

End ClaudeCodeCLIAgent.

(** ** Submissions that overlap in time *)

Module Interleaving.

(** The event loop advances the generators of several [execute_command]
    calls in any order.  A submission runs at once up to its first
    suspension point, which is where it is accepted or rejected; an accepted
    execution ends some time later. *)
Inductive Action :=
| Submit (session_id message : string)
| Finish (session_id : string).

Record Sys (A : Type) := {
  agent : A;
  running : list string;              (* session of every execution between
                                         its admission and its end *)
  answers : list (string * Event)     (* rejections handed out so far *)
}.
Arguments agent {A} _.
Arguments running {A} _.
Arguments answers {A} _.

(** Removes one occurrence. *)
Fixpoint remove_one (x : string) (l : list string) : list string :=
  match l with
  | [] => []
  | y :: l' => if bool_decide (x = y) then l' else y :: remove_one x l'
  end.

Definition persistent_step (act : Action) (s : Sys PersistentClaudeAgent.t)
  : Sys PersistentClaudeAgent.t :=
  match act with
  | Submit sid message =>
      match PersistentClaudeAgent.enter sid (agent s) with
      | (PersistentClaudeAgent.Rejected ev, a') =>
          {| agent := a'; running := running s;
             answers := answers s ++ [(sid, ev)] |}
      | (PersistentClaudeAgent.Accepted _, a') =>
          {| agent := a'; running := sid :: running s; answers := answers s |}
      end
  | Finish sid =>
      if bool_decide (sid ∈ running s) then
        {| agent := PersistentClaudeAgent.release sid (agent s);
           running := remove_one sid (running s); answers := answers s |}
      else s
  end.

Definition pty_step (act : Action) (s : Sys PTYClaudeAgent.t)
  : Sys PTYClaudeAgent.t :=
  match act with
  | Submit sid message =>
      match PTYClaudeAgent.begin_execute None sid message (agent s) with
      | PTYClaudeAgent.Rejected ev | PTYClaudeAgent.WriteFailed ev =>
          {| agent := agent s; running := running s;
             answers := answers s ++ [(sid, ev)] |}
      | PTYClaudeAgent.Accepted _ =>
          {| agent := agent s; running := sid :: running s;
             answers := answers s |}
      end
  | Finish sid =>
      if bool_decide (sid ∈ running s) then
        {| agent := agent s; running := remove_one sid (running s);
           answers := answers s |}
      else s
  end.

(** The one-shot agents: [BaseAgent.execute_command] tests only that the
    session exists (lines 94-96) before it prepares and spawns. *)
Definition one_shot_step (act : Action) (s : Sys BaseAgent.t) : Sys BaseAgent.t :=
  match act with
  | Submit sid message =>
      if PyDict.mem sid (BaseAgent.sessions (agent s)) then
        {| agent := agent s; running := sid :: running s; answers := answers s |}
      else
        {| agent := agent s; running := running s;
           answers := answers s ++ [(sid, BaseAgent.not_found_event sid)] |}
  | Finish sid =>
      if bool_decide (sid ∈ running s) then
        {| agent := BaseAgent.set_session_process sid None (agent s);
           running := remove_one sid (running s); answers := answers s |}
      else s
  end.

Definition run {A} (step : Action -> Sys A -> Sys A) (acts : list Action)
    (s : Sys A) : Sys A :=
  fold_left (fun s act => step act s) acts s.

(** The in-flight set accounts for every running execution, and no session
    has two. *)
Definition persistent_inv (s : Sys PersistentClaudeAgent.t) : Prop :=
  List.NoDup (running s) /\
  forall sid, In sid (running s) <->
              sid ∈ PersistentClaudeAgent.executing_sessions (agent s).

End Interleaving.

(** ** AgentManager ([agent_system.py], lines 369-450) *)

Module AgentManager.

(** The part of the [BaseAgent] interface the manager calls.  Creation may
    run a polling loop, hence the [option] (no answer within the fuel). *)
Class AgentOps (A : Type) := {
  CreateOracle : Type;
  TerminateOracle : Type;
  agent_create_session :
    CreateOracle -> string -> option string -> A ->
    option (result string * list OsEffect * A);
  agent_terminate_session :
    TerminateOracle -> string -> A -> bool * list OsEffect * A;
  agent_sessions : A -> list (string * Session.t)
}.

#[global] Instance BaseAgent_Ops : AgentOps BaseAgent.t := {|
  CreateOracle := BaseAgent.CreateEnv BaseAgent.TermOracle;
  TerminateOracle := BaseAgent.TermOracle;
  agent_create_session :=
    fun o u wd (a : BaseAgent.t) =>
      Some (BaseAgent.create_session (A := BaseAgent.t) o u wd a);
  agent_terminate_session := BaseAgent.terminate_session;
  agent_sessions := BaseAgent.sessions
|}.

#[global] Instance Persistent_Ops : AgentOps PersistentClaudeAgent.t := {|
  CreateOracle := PersistentClaudeAgent.CreateEnv;
  TerminateOracle := PersistentClaudeAgent.TermEnv;
  agent_create_session :=
    fun o u wd a => Some (PersistentClaudeAgent.create_session o u wd a);
  agent_terminate_session := PersistentClaudeAgent.terminate_session;
  agent_sessions := fun a => BaseAgent.sessions (PersistentClaudeAgent.base a)
|}.

#[global] Instance PTY_Ops : AgentOps PTYClaudeAgent.t := {|
  CreateOracle := (nat * PTYClaudeAgent.CreateEnv)%type;
  TerminateOracle := PTYClaudeAgent.TermEnv;
  agent_create_session :=
    fun o u wd a => PTYClaudeAgent.create_session o.1 o.2 u wd a;
  agent_terminate_session := PTYClaudeAgent.terminate_session;
  agent_sessions := fun a => BaseAgent.sessions (PTYClaudeAgent.base a)
|}.

Section Manager.
Context {A : Type} {Ops : AgentOps A}.

Record t := mk {
  agents : list (AgentType * A);
  session_to_agent : gmap string AgentType
}.

Definition init : t := mk [] ∅.

Definition register_agent (agent_type : AgentType) (agent : A) (m : t) : t :=
  mk (PyDict.set agent_type agent (agents m)) (session_to_agent m).

(** [create_session] (lines 385-397).  The agent object is shared with the
    manager, so its mutation is written back under the same key. *)
Definition create_session (o : CreateOracle) (agent_type : AgentType)
    (user : string) (working_directory : option string) (m : t)
  : option (result (option string) * list OsEffect * t) :=
  match PyDict.get agent_type (agents m) with
  | None => Some (Ok None, [], m)
  | Some agent =>
      match agent_create_session o user working_directory agent with
      | None => None
      | Some (r, fx, agent') =>
          let m1 :=
            mk (PyDict.set agent_type agent' (agents m)) (session_to_agent m) in
          match r with
          | Raise ex => Some (Raise ex, fx, m1)
          | Ok session_id =>
              Some (Ok (Some session_id), fx,
                    if bool_decide (session_id = "") then m1
                    else mk (agents m1)
                            (<[session_id := agent_type]> (session_to_agent m1)))
          end
      end
  end.

(** [terminate_session] (lines 411-424). *)
Definition terminate_session (o : TerminateOracle) (session_id : string)
    (m : t) : result bool * list OsEffect * t :=
  match session_to_agent m !! session_id with
  | None => (Ok false, [], m)
  | Some agent_type =>
      match PyDict.get agent_type (agents m) with
      | None => (Raise (KeyError (AgentTypeValue.value agent_type)), [], m)
      | Some agent =>
          let '(success, fx, agent') :=
            agent_terminate_session o session_id agent in
          let m1 :=
            mk (PyDict.set agent_type agent' (agents m)) (session_to_agent m) in
          (Ok success, fx,
           if success then
             mk (agents m1) (delete session_id (session_to_agent m1))
           else m1)
      end
  end.

(** A session is live while some registered agent holds it in its
    session map. *)
Definition live (session_id : string) (m : t) : bool :=
  existsb (fun ta => PyDict.mem session_id (agent_sessions ta.2)) (agents m).

End Manager.
Arguments t A : clear implicits.

(** *** [execute_command] and [get_session_info] (lines 399-434) *)

Section Dispatch.
Context {A I : Type}.

(** What the owning agent's [execute_command] yields and does, and its
    [get_session_info]. *)
Variable agent_execute : string -> string -> A -> list Event * list OsEffect * A.
Variable agent_info : string -> A -> option I.

Definition execute_command (session_id message : string) (m : t A)
  : result (list Event) * list OsEffect * t A :=
  match session_to_agent m !! session_id with
  | None =>
      (Ok [[("error", VStr "Session not found");
            ("session_id", VStr session_id)]], [], m)
  | Some agent_type =>
      match PyDict.get agent_type (agents m) with
      | None => (Raise (KeyError (AgentTypeValue.value agent_type)), [], m)
      | Some agent =>
          let '(evs, fx, agent') := agent_execute session_id message agent in
          (Ok evs, fx,
           mk (PyDict.set agent_type agent' (agents m)) (session_to_agent m))
      end
  end.

Definition get_session_info (session_id : string) (m : t A)
  : result (option I) :=
  match session_to_agent m !! session_id with
  | None => Ok None
  | Some agent_type =>
      match PyDict.get agent_type (agents m) with
      | None => Raise (KeyError (AgentTypeValue.value agent_type))
      | Some agent => Ok (agent_info session_id agent)
      end
  end.

End Dispatch.

(** [get_available_agents] (lines 381-383). *)
Definition get_available_agents {A} (m : t A) : list string :=
  map AgentTypeValue.value (PyDict.keys (agents m)).

(** [list_all_sessions] (lines 436-450) over agents that inherit
    [list_sessions]: the sessions, the total and the available agents. *)
Definition list_all_sessions (returncode_is_None : string -> bool)
    (user_id : option string) (m : t BaseAgent.t)
  : list BaseAgent.SessionInfo * nat * list string :=
  let per_agent :=
    map (fun ta => BaseAgent.list_sessions returncode_is_None user_id ta.2)
        (agents m) in
  (concat (map BaseAgent.listed per_agent),
   list_sum (map BaseAgent.total per_agent),
   get_available_agents m).

End AgentManager.


(** A content block of type text with a string text. *)
Definition text_block (s : string) : Json.t :=
  Json.JObj [("type", Json.JStr "text"); ("text", Json.JStr s)].

(** ** Invariants and laws used by the properties *)

(** The session map is keyed by the session's own id, without repetition. *)
Definition wf_sessions (d : list (string * Session.t)) : Prop :=
  List.NoDup (PyDict.keys d) /\ Forall (fun kv => Session.id kv.2 = kv.1) d.

(** What every override of [terminate_session] does to the inherited part
    of the agent: it removes the session and nothing else. *)
Class LawfulSelf (A : Type) `{BaseAgent.Self A} : Prop := {
  base_with_base :
    forall b (a : A), BaseAgent.base (BaseAgent.with_base b a) = b;
  terminate_sessions :
    forall o sid (a : A),
      BaseAgent.sessions
        (BaseAgent.base (BaseAgent.self_terminate_session o sid a).2)
      = PyDict.del sid (BaseAgent.sessions (BaseAgent.base a));
  terminate_config :
    forall o sid (a : A),
      BaseAgent.config
        (BaseAgent.base (BaseAgent.self_terminate_session o sid a).2)
      = BaseAgent.config (BaseAgent.base a)
}.

(** The bytes read from the pty during the passes [k .. k+n-1] of the
    streaming loop, and the texts of the non-blank ones among some raw
    lines. *)
Fixpoint pty_bytes_read (o : PTYClaudeAgent.StreamOracle) (k n : nat) : string :=
  match n with
  | O => ""
  | S n' =>
      match PTYClaudeAgent.stream_probe o k with
      | PTYClaudeAgent.ProbeData data => data
      | _ => ""
      end +:+ pty_bytes_read o (S k) n'
  end.

Definition pty_texts (o : PTYClaudeAgent.StreamOracle) (raw : list string)
  : list string :=
  List.filter (fun text => negb (bool_decide (text = "")))
              (map (PTYClaudeAgent.text_of o) raw).

(** The manager's registry answers for every session an agent holds, and
    every agent's session map is well formed. *)
Definition registry_inv (m : AgentManager.t BaseAgent.t) : Prop :=
  List.NoDup (PyDict.keys (AgentManager.agents m)) /\
  forall agent_type agent,
    PyDict.get agent_type (AgentManager.agents m) = Some agent ->
    wf_sessions (BaseAgent.sessions agent) /\
    forall sid, PyDict.mem sid (BaseAgent.sessions agent) = true ->
                AgentManager.session_to_agent m !! sid = Some agent_type.

(** A pass of the pty streaming loop that brings no bytes and does not
    fail, and the passes at which the loop is left: before a pass that
    follows 50 such passes in a row, or at a pass whose probe fails. *)
Definition pty_quiet (p : PTYClaudeAgent.PtyProbe) : bool :=
  match p with
  | PTYClaudeAgent.ProbeData data => bool_decide (data = "")
  | PTYClaudeAgent.ProbeEmpty => true
  | PTYClaudeAgent.ProbeIdle => true
  | PTYClaudeAgent.ProbeOSError _ => false
  end.

Definition pty_leaves_at (o : PTYClaudeAgent.StreamOracle) (n : nat) : bool :=
  ((50 <=? n)%nat
   && forallb (fun j => pty_quiet (PTYClaudeAgent.stream_probe o j)) (seq (n - 50) 50))
  || match PTYClaudeAgent.stream_probe o n with
     | PTYClaudeAgent.ProbeOSError _ => true
     | _ => false
     end.

(** One execution by a one-shot agent, as the manager's dispatcher sees
    it: the events, the OS calls and the agent afterwards. *)
Definition one_shot_execute (h : BaseAgent.Hooks) (w : BaseAgent.World)
    (fuel : nat) (sid message : string) (a : BaseAgent.t)
  : list Event * list OsEffect * BaseAgent.t :=
  let r := BaseAgent.execute_command h w fuel sid message a in
  (BaseAgent.events r, BaseAgent.effects r, BaseAgent.after r).

(** ** Concrete inputs used by the examples *)

Module Sample.

Definition cfg (cap : Z) : AgentConfig.t :=
  AgentConfig.mk CLAUDE_CODE "claude" [] None 3600 cap "stream-json".

(** No process to tear down. *)
Definition quiet : BaseAgent.TermOracle :=
  {| BaseAgent.alive_before := false; BaseAgent.terminate_raises := false;
     BaseAgent.alive_after := false; BaseAgent.kill_raises := false |}.

Definition env (sid : string) (t : Z) : BaseAgent.CreateEnv BaseAgent.TermOracle :=
  {| BaseAgent.uuid4 := sid; BaseAgent.now := t;
     BaseAgent.getcwd := "/srv"; BaseAgent.evict := quiet |}.

Definition session (sid user : string) (t : Z) : Session.t :=
  Session.mk sid user CLAUDE_CODE None t "/srv" (cfg 5).

(** Teardown of a pty child that takes both signals. *)
Definition pty_term : PTYClaudeAgent.TermEnv :=
  {| PTYClaudeAgent.super_term := quiet;
     PTYClaudeAgent.kill_term := PTYClaudeAgent.Delivered;
     PTYClaudeAgent.kill_kill := PTYClaudeAgent.Delivered;
     PTYClaudeAgent.close_raises := false |}.

Definition pty_agent : PTYClaudeAgent.t :=
  PTYClaudeAgent.mk
    (BaseAgent.mk (cfg 5) [("s1", session "s1" "u" 10)])
    {[ "s1" := {| PTYClaudeAgent.master_fd := 7;
                  PTYClaudeAgent.pty_pid := 4242;
                  PTYClaudeAgent.buffer := "";
                  PTYClaudeAgent.pty_working_directory := "/srv" |} ]}.

(** A pty child that never writes; the loop clock advances 200 ms per
    pass (0.1 s in [select], 0.1 s asleep). *)
Definition pty_silent : PTYClaudeAgent.CreateEnv :=
  {| PTYClaudeAgent.super_create :=
       {| BaseAgent.uuid4 := "s1"; BaseAgent.now := 10;
          BaseAgent.getcwd := "/srv"; BaseAgent.evict := pty_term |};
     PTYClaudeAgent.openpty := Ok (7, 8)%Z;
     PTYClaudeAgent.fork := Ok 4242;
     PTYClaudeAgent.init_oracle :=
       {| PTYClaudeAgent.init_clock := fun k => (200 * Z.of_nat k)%Z;
          PTYClaudeAgent.init_probe := fun _ => PTYClaudeAgent.ProbeIdle;
          PTYClaudeAgent.decode_ignore := fun s => s |} |}.

Definition persistent_term : PersistentClaudeAgent.TermEnv :=
  {| PersistentClaudeAgent.super_term := quiet;
     PersistentClaudeAgent.stdin_close_raises := false;
     PersistentClaudeAgent.proc_terminate_raises := false;
     PersistentClaudeAgent.proc_alive_after := false;
     PersistentClaudeAgent.proc_kill_raises := false |}.

(** A child that starts but prints nothing for 10 seconds. *)
Definition persistent_silent : PersistentClaudeAgent.CreateEnv :=
  {| PersistentClaudeAgent.super_create :=
       {| BaseAgent.uuid4 := "s1"; BaseAgent.now := 10;
          BaseAgent.getcwd := "/srv"; BaseAgent.evict := persistent_term |};
     PersistentClaudeAgent.environ := ∅;
     PersistentClaudeAgent.home := "/home/bot";
     PersistentClaudeAgent.spawn := Ok {| pid := 4242 |};
     PersistentClaudeAgent.init_read := PersistentClaudeAgent.InitTimeout;
     PersistentClaudeAgent.init_terminate_raises := false |}.

Definition one_shot_agent : BaseAgent.t :=
  BaseAgent.mk (cfg 5) [("s1", session "s1" "u" 10)].

(** [str] on decoded values is not needed by the samples. *)
Definition no_str (j : Json.t) : string := "".

(** A child that prints nothing and does not exit; every pass of the loop
    takes the 0.1 s of the read timeout; SIGTERM ends the child, which
    reports -15. *)
Definition silent_world : BaseAgent.World :=
  {| BaseAgent.environ := ∅; BaseAgent.home := "/home/bot";
     BaseAgent.spawn := Ok {| pid := 4242 |};
     BaseAgent.clock := fun k => (100 * Z.of_nat k)%Z;
     BaseAgent.reads := fun _ => BaseAgent.RTimeout false;
     BaseAgent.stamp := fun _ => "t";
     BaseAgent.timeout_terminate_raises := false;
     BaseAgent.wait := Some (-15)%Z;
     BaseAgent.stderr_read := Ok "" |}.

Definition quote : string := String "034"%char EmptyString.

(** The assistant line of the design document's example. *)
Definition assistant_line : string :=
  "{" +:+ quote +:+ "type" +:+ quote +:+ ":" +:+ quote +:+ "assistant" +:+ quote
  +:+ "," +:+ quote +:+ "message" +:+ quote +:+ ":{" +:+ quote +:+ "content"
  +:+ quote +:+ ":[{" +:+ quote +:+ "type" +:+ quote +:+ ":" +:+ quote +:+ "text"
  +:+ quote +:+ "," +:+ quote +:+ "text" +:+ quote +:+ ":" +:+ quote +:+ "hi"
  +:+ quote +:+ "}]}}".

(** A child that prints the given lines, closes its output and exits with
    status 0. *)
Definition printing_world (lines : list string) : BaseAgent.World :=
  {| BaseAgent.environ := ∅; BaseAgent.home := "/home/bot";
     BaseAgent.spawn := Ok {| pid := 4242 |};
     BaseAgent.clock := fun k => (100 * Z.of_nat k)%Z;
     BaseAgent.reads := fun k =>
       match nth_error lines k with
       | Some l => BaseAgent.RLine (Ok l)
       | None => BaseAgent.REof
       end;
     BaseAgent.stamp := fun _ => "t";
     BaseAgent.timeout_terminate_raises := false;
     BaseAgent.wait := Some 0%Z;
     BaseAgent.stderr_read := Ok "" |}.

Definition persistent_agent : PersistentClaudeAgent.t :=
  PersistentClaudeAgent.mk
    (BaseAgent.mk (cfg 5) [("s1", session "s1" "u" 10)])
    {[ "s1" := {| pid := 4242 |} ]} ∅.

(** The persistent child answers with the given lines and then goes quiet. *)
Definition answering (lines : list string) : PersistentClaudeAgent.TurnWorld :=
  {| PersistentClaudeAgent.stdin_raises := None;
     PersistentClaudeAgent.stream_reads := fun k =>
       match nth_error lines k with
       | Some l => PersistentClaudeAgent.SLine (Ok l)
       | None => PersistentClaudeAgent.STimeout
       end |}.

Definition cli_agent : ClaudeCodeCLIAgent.t :=
  ClaudeCodeCLIAgent.mk
    (BaseAgent.mk (cfg 5) [("s1", session "s1" "u" 10)])
    {[ "s1" := {| ClaudeCodeCLIAgent.session_id := "s1";
                  ClaudeCodeCLIAgent.claude_session_id := None;
                  ClaudeCodeCLIAgent.working_directory := "/srv";
                  ClaudeCodeCLIAgent.conversation_turns := 0;
                  ClaudeCodeCLIAgent.last_command := None |} ]}
    "claude".

(** A CLI child that prints the given lines and exits with status 0; the
    parent was started with the given environment. *)
Definition cli_world (environ : gmap string string) (lines : list string)
  : ClaudeCodeCLIAgent.World :=
  {| ClaudeCodeCLIAgent.environ := environ;
     ClaudeCodeCLIAgent.home := "/home/bot";
     ClaudeCodeCLIAgent.getcwd := "/srv";
     ClaudeCodeCLIAgent.spawn := Ok {| pid := 4242 |};
     ClaudeCodeCLIAgent.stdout_lines := lines;
     ClaudeCodeCLIAgent.stdout_end := ClaudeCodeCLIAgent.EndEof;
     ClaudeCodeCLIAgent.stderr_lines := [];
     ClaudeCodeCLIAgent.stderr_end := ClaudeCodeCLIAgent.EndEof;
     ClaudeCodeCLIAgent.wait := Some 0%Z;
     ClaudeCodeCLIAgent.stamp := "t" |}.

Definition uuid_line : string :=
  "Session_ID: 123e4567-e89b-12d3-a456-426614174000".


(** The caller of the repository's continuity test
    ([test_claude_cli_agent.py], lines 152-162): it leaves its loop at the
    "completion" event, or at an event with an "error" key. *)
Definition continuity_test_stop (ev : Event) : bool :=
  match PyDict.get "type" ev with
  | Some (VStr "completion") => true
  | _ => PyDict.mem "error" ev
  end.


(** The result line that closes a turn of the persistent child. *)
Definition result_line : string :=
  "{" +:+ quote +:+ "type" +:+ quote +:+ ":" +:+ quote +:+ "result" +:+ quote
  +:+ "," +:+ quote +:+ "result" +:+ quote +:+ ":" +:+ quote +:+ "done" +:+ quote
  +:+ "}".

(** A pty that delivers the given chunks in consecutive passes and then
    stays idle; texts are taken as they are. *)
Definition pty_chunks (chunks : list string) : PTYClaudeAgent.StreamOracle :=
  {| PTYClaudeAgent.stream_probe := fun k =>
       match nth_error chunks k with
       | Some c => PTYClaudeAgent.ProbeData c
       | None => PTYClaudeAgent.ProbeIdle
       end;
     PTYClaudeAgent.stream_clock := fun k i => (100 * Z.of_nat k + Z.of_nat i)%Z;
     PTYClaudeAgent.text_of := fun s => s |}.

End Sample.

(** * Properties *)

(** ** Facts about ordered dictionaries *)

Section PyDictFacts.
Context {K : Type} `{EqDecision K} {V : Type}.
Implicit Types (d : list (K * V)) (k : K) (v : V).

Lemma get_None_keys k d : PyDict.get k d = None <-> ~ In k (PyDict.keys d).
Proof.
  induction d as [|[k' v'] d IH]; simpl; [tauto|].
  destruct (decide (k = k')) as [->|Hne].
  - split; [discriminate | intros Hn; exfalso; apply Hn; now left].
  - rewrite IH. split; [intros Hn [Heq|Hin]; [congruence | tauto] | tauto].
Qed.

Lemma get_Some_In k d v : PyDict.get k d = Some v -> In (k, v) d.
Proof.
  induction d as [|[k' v'] d IH]; simpl; [discriminate|].
  destruct (decide (k = k')) as [->|Hne]; intros Hg.
  - left. congruence.
  - right. auto.
Qed.

Lemma In_get k v d : List.NoDup (PyDict.keys d) -> In (k, v) d -> PyDict.get k d = Some v.
Proof.
  induction d as [|[k' v'] d IH]; simpl; [tauto|].
  intros Hnd [Heq|Hin].
  - inversion Heq; subst. destruct (decide (k = k)); congruence.
  - apply NoDup_cons_iff in Hnd as [Hnotin Hnd].
    destruct (decide (k = k')) as [->|Hne]; [|auto].
    exfalso. apply Hnotin. change k' with (fst (k', v)). now apply in_map.
Qed.

Lemma set_fresh k v d : PyDict.get k d = None -> PyDict.set k v d = d ++ [(k, v)].
Proof.
  induction d as [|[k' v'] d IH]; simpl; [reflexivity|].
  destruct (decide (k = k')); [discriminate|]. intros Hg. now rewrite IH.
Qed.

Lemma get_set_eq k v d : PyDict.get k (PyDict.set k v d) = Some v.
Proof.
  induction d as [|[k' v'] d IH]; simpl.
  - destruct (decide (k = k)); congruence.
  - destruct (decide (k = k')) as [->|Hne]; simpl.
    + destruct (decide (k' = k')); congruence.
    + destruct (decide (k = k')); congruence.
Qed.

Lemma get_set_ne k k' v d :
  k <> k' -> PyDict.get k' (PyDict.set k v d) = PyDict.get k' d.
Proof.
  intros Hne. induction d as [|[k0 v0] d IH]; simpl.
  - destruct (decide (k' = k)); congruence.
  - destruct (decide (k = k0)) as [->|Hne0]; simpl.
    + destruct (decide (k' = k0)); congruence.
    + destruct (decide (k' = k0)); congruence.
Qed.

Lemma get_del_ne k k' d :
  k <> k' -> PyDict.get k' (PyDict.del k d) = PyDict.get k' d.
Proof.
  intros Hne. induction d as [|[k0 v0] d IH]; simpl; [reflexivity|].
  destruct (decide (k = k0)) as [->|Hne0]; simpl.
  - destruct (decide (k' = k0)); congruence.
  - destruct (decide (k' = k0)); congruence.
Qed.

(** Deleting a present key cuts exactly its entry out of the list. *)
Lemma del_split k v d :
  PyDict.get k d = Some v ->
  exists d1 d2, d = d1 ++ (k, v) :: d2 /\ ~ In k (PyDict.keys d1) /\
                PyDict.del k d = d1 ++ d2.
Proof.
  induction d as [|[k' v'] d IH]; simpl; [discriminate|].
  destruct (decide (k = k')) as [->|Hne]; intros Hg.
  - inversion Hg; subst. exists [], d. simpl. tauto.
  - destruct (IH Hg) as (d1 & d2 & -> & Hnotin & Hdel).
    exists ((k', v') :: d1), d2. simpl. rewrite Hdel.
    split; [reflexivity|]. split; [|reflexivity].
    intros [Heq|Hin]; [congruence | tauto].
Qed.

Lemma del_absent k d : PyDict.get k d = None -> PyDict.del k d = d.
Proof.
  induction d as [|[k' v'] d IH]; simpl; [reflexivity|].
  destruct (decide (k = k')); [discriminate|]. intros Hg. now rewrite IH.
Qed.

Lemma keys_del_incl k k' d : In k' (PyDict.keys (PyDict.del k d)) -> In k' (PyDict.keys d).
Proof.
  induction d as [|[k0 v0] d IH]; simpl; [tauto|].
  destruct (decide (k = k0)); simpl; tauto.
Qed.

Lemma NoDup_keys_del k d : List.NoDup (PyDict.keys d) -> List.NoDup (PyDict.keys (PyDict.del k d)).
Proof.
  induction d as [|[k0 v0] d IH]; simpl; [auto|].
  intros Hnd. apply NoDup_cons_iff in Hnd as [Hnotin Hnd].
  destruct (decide (k = k0)); simpl; [assumption|].
  apply NoDup_cons_iff. split; [|auto].
  intros Hin. apply Hnotin. eapply keys_del_incl; eassumption.
Qed.

Lemma get_del_eq k d : List.NoDup (PyDict.keys d) -> PyDict.get k (PyDict.del k d) = None.
Proof.
  induction d as [|[k0 v0] d IH]; simpl; [reflexivity|].
  intros Hnd. apply NoDup_cons_iff in Hnd as [Hnotin Hnd].
  destruct (decide (k = k0)) as [->|Hne]; simpl.
  - now apply get_None_keys.
  - destruct (decide (k = k0)); [congruence | auto].
Qed.

Lemma get_app k d1 d2 :
  PyDict.get k (d1 ++ d2)
  = match PyDict.get k d1 with Some v => Some v | None => PyDict.get k d2 end.
Proof.
  induction d1 as [|[k0 v0] d1 IH]; simpl; [reflexivity|].
  destruct (decide (k = k0)); [reflexivity | exact IH].
Qed.

Lemma mem_true_iff k d : PyDict.mem k d = true <-> PyDict.get k d <> None.
Proof. unfold PyDict.mem. destruct (PyDict.get k d); split; congruence. Qed.

Lemma mem_false_iff k d : PyDict.mem k d = false <-> PyDict.get k d = None.
Proof. unfold PyDict.mem. destruct (PyDict.get k d); split; congruence. Qed.

End PyDictFacts.

(** ** Facts about [BaseAgent.create_session] *)

Lemma min_from_spec best l :
  let m := BaseAgent.min_from best l in
  (m = best \/ In m l) /\
  (Session.created_at m <= Session.created_at best)%Z /\
  (forall s, In s l -> (Session.created_at m <= Session.created_at s)%Z).
Proof.
  revert best. induction l as [|x l IH]; intros best; simpl.
  - split; [now left|]. split; [lia | tauto].
  - destruct (Z.ltb_spec (Session.created_at x) (Session.created_at best)) as [Hlt|Hge].
    + destruct (IH x) as (Hin & Hle & Hall). split; [|split].
      * destruct Hin as [->|Hin]; [right; now left | right; now right].
      * lia.
      * intros s [<-|Hs]; auto.
    + destruct (IH best) as (Hin & Hle & Hall). split; [|split].
      * destruct Hin as [->|Hin]; [now left | right; now right].
      * lia.
      * intros s [<-|Hs]; [lia | auto].
Qed.

Lemma py_min_spec l m :
  BaseAgent.py_min l = Some m ->
  In m l /\ forall s, In s l -> (Session.created_at m <= Session.created_at s)%Z.
Proof.
  destruct l as [|x l]; simpl; [discriminate|]. intros Hm. inversion Hm; subst.
  destruct (min_from_spec x l) as (Hin & Hle & Hall). split.
  - destruct Hin as [->|Hin]; [now left | now right].
  - intros s [<-|Hs]; auto.
Qed.

Lemma py_min_nonempty l : l <> [] -> exists m, BaseAgent.py_min l = Some m.
Proof. destruct l; [congruence | simpl; eauto]. Qed.

Lemma NoDup_snoc {X} (x : X) (l : list X) :
  List.NoDup l -> ~ In x l -> List.NoDup (l ++ [x]).
Proof.
  induction l as [|y l IH]; simpl; intros Hnd Hx.
  - constructor; [tauto | constructor].
  - apply List.NoDup_cons_iff in Hnd as [Hy Hnd].
    apply List.NoDup_cons_iff. split.
    + rewrite in_app_iff. simpl. intros [Hin|[Heq|[]]]; [tauto|].
      apply Hx. now left.
    + apply IH; [assumption | tauto].
Qed.

Lemma wf_sessions_get d s :
  wf_sessions d -> In s (PyDict.values d) -> PyDict.get (Session.id s) d = Some s.
Proof.
  intros [Hnd Hid] Hin. apply in_map_iff in Hin as ([k s'] & Heq & Hin).
  simpl in Heq; subst s'. rewrite List.Forall_forall in Hid.
  specialize (Hid _ Hin). simpl in Hid. subst k. now apply In_get.
Qed.

Lemma wf_sessions_del k d : wf_sessions d -> wf_sessions (PyDict.del k d).
Proof.
  intros [Hnd Hid]. split; [now apply NoDup_keys_del|].
  destruct (PyDict.get k d) as [v|] eqn:Hg.
  - destruct (del_split _ _ _ Hg) as (d1 & d2 & -> & _ & ->).
    rewrite Forall_app in Hid |- *. destruct Hid as [H1 H2].
    inversion H2; subst. now split.
  - now rewrite del_absent.
Qed.

Lemma wf_sessions_snoc k s d :
  wf_sessions d -> PyDict.get k d = None -> Session.id s = k ->
  wf_sessions (d ++ [(k, s)]).
Proof.
  intros [Hnd Hid] Hg Hk. split.
  - unfold PyDict.keys. rewrite map_app. simpl.
    apply NoDup_snoc; [assumption | now apply get_None_keys].
  - rewrite Forall_app. split; [assumption|]. constructor; [assumption | constructor].
Qed.

Section Cap.
Context {A : Type} `{LawfulSelf A}.
Implicit Types (a : A) (d : list (string * Session.t)).

Lemma filter_values_snoc user d k s :
  Session.user_id s = user ->
  List.filter (fun s => bool_decide (Session.user_id s = user))
              (PyDict.values (d ++ [(k, s)]))
  = List.filter (fun s => bool_decide (Session.user_id s = user)) (PyDict.values d)
    ++ [s].
Proof.
  intros Hu. unfold PyDict.values.
  rewrite List.map_app, List.filter_app. simpl.
  now rewrite bool_decide_eq_true_2.
Qed.

Lemma filter_values_del user d k v :
  PyDict.get k d = Some v -> Session.user_id v = user ->
  S (length (List.filter (fun s => bool_decide (Session.user_id s = user))
                         (PyDict.values (PyDict.del k d))))
  = length (List.filter (fun s => bool_decide (Session.user_id s = user))
                        (PyDict.values d)).
Proof.
  intros Hg Hu. destruct (del_split _ _ _ Hg) as (d1 & d2 & -> & _ & ->).
  unfold PyDict.values. rewrite !List.map_app, !List.filter_app. simpl.
  rewrite bool_decide_eq_true_2 by assumption.
  rewrite !List.length_app. simpl. lia.
Qed.

Lemma values_del_keep d k v s :
  PyDict.get k d = Some v -> In s (PyDict.values d) -> s <> v ->
  In s (PyDict.values (PyDict.del k d)).
Proof.
  intros Hg Hin Hne. destruct (del_split _ _ _ Hg) as (d1 & d2 & -> & _ & ->).
  unfold PyDict.values in *. rewrite List.map_app in *. simpl in Hin.
  rewrite List.in_app_iff in *. simpl in Hin. intuition congruence.
Qed.

(** The three ways one [create_session] call can go. *)
Lemma create_session_cases e user wd a :
  let d := BaseAgent.sessions (BaseAgent.base a) in
  let us := BaseAgent.user_sessions user (BaseAgent.base a) in
  let cap := AgentConfig.max_sessions (BaseAgent.config (BaseAgent.base a)) in
  let out := BaseAgent.create_session e user wd a in
  wf_sessions d -> PyDict.get (BaseAgent.uuid4 e) d = None ->
  BaseAgent.config (BaseAgent.base out.2) = BaseAgent.config (BaseAgent.base a) /\
  (((Z.of_nat (length us) < cap)%Z /\ out.1.1 = Ok (BaseAgent.uuid4 e) /\
    exists s, BaseAgent.sessions (BaseAgent.base out.2) = d ++ [(BaseAgent.uuid4 e, s)] /\
              Session.id s = BaseAgent.uuid4 e /\ Session.user_id s = user /\
              Session.created_at s = BaseAgent.now e)
   \/ ((cap <= Z.of_nat (length us))%Z /\ us = [] /\ is_Ok out.1.1 = false /\ out.2 = a)
   \/ ((cap <= Z.of_nat (length us))%Z /\ out.1.1 = Ok (BaseAgent.uuid4 e) /\
       exists oldest s,
         BaseAgent.py_min us = Some oldest /\
         BaseAgent.sessions (BaseAgent.base out.2)
         = PyDict.del (Session.id oldest) d ++ [(BaseAgent.uuid4 e, s)] /\
         Session.id s = BaseAgent.uuid4 e /\ Session.user_id s = user /\
         Session.created_at s = BaseAgent.now e)).
Proof.
  intros d us cap out Hwf Hfresh. subst out. unfold BaseAgent.create_session.
  fold us. fold cap.
  destruct (Z.leb_spec cap (Z.of_nat (length us))) as [Hle|Hlt].
  - destruct (BaseAgent.py_min us) as [oldest|] eqn:Hmin.
    + pose proof (terminate_sessions (BaseAgent.evict e) (Session.id oldest) a) as Hs.
      pose proof (terminate_config (BaseAgent.evict e) (Session.id oldest) a) as Hc.
      destruct (BaseAgent.self_terminate_session (BaseAgent.evict e)
                  (Session.id oldest) a) as [[ok fx] a1].
      simpl in Hs, Hc. simpl. rewrite base_with_base. simpl.
      split; [assumption|]. right; right. split; [assumption|].
      split; [reflexivity|]. eexists oldest, _. split; [reflexivity|].
      rewrite Hs. fold d. split.
      { apply set_fresh. apply get_None_keys. intros Hin.
        apply keys_del_incl in Hin. now apply get_None_keys in Hfresh. }
      repeat split; reflexivity.
    + simpl. split; [reflexivity|]. right; left.
      destruct us; [auto | discriminate].
  - simpl. rewrite base_with_base. simpl. split; [reflexivity|]. left.
    split; [assumption|]. split; [reflexivity|].
    eexists. split; [apply set_fresh; exact Hfresh | repeat split; reflexivity].
Qed.

(** Effect of one call on the invariant, on the set of keys and on the
    number of sessions of the user. *)
Lemma create_session_count e user wd a (N : nat) :
  let d := BaseAgent.sessions (BaseAgent.base a) in
  let c := length (BaseAgent.user_sessions user (BaseAgent.base a)) in
  let a' := (BaseAgent.create_session e user wd a).2 in
  AgentConfig.max_sessions (BaseAgent.config (BaseAgent.base a)) = Z.of_nat N ->
  wf_sessions d -> PyDict.get (BaseAgent.uuid4 e) d = None -> c <= N ->
  wf_sessions (BaseAgent.sessions (BaseAgent.base a')) /\
  BaseAgent.config (BaseAgent.base a') = BaseAgent.config (BaseAgent.base a) /\
  (forall k, In k (PyDict.keys (BaseAgent.sessions (BaseAgent.base a'))) ->
             k = BaseAgent.uuid4 e \/ In k (PyDict.keys d)) /\
  length (BaseAgent.user_sessions user (BaseAgent.base a')) = Nat.min N (S c).
Proof.
  intros d c a' HN Hwf Hfresh Hc.
  destruct (create_session_cases e user wd a Hwf Hfresh) as (Hcfg & Hcases).
  fold a' in Hcfg, Hcases. fold d in Hcases. rewrite HN in Hcases.
  unfold BaseAgent.user_sessions in *. fold d in c, Hcases.
  split; [|split; [assumption|]].
  - destruct Hcases as [(_ & _ & s & Hd & Hid & _)|[(_ & _ & _ & Ha)|(_ & _ & o & s & _ & Hd & Hid & _)]].
    + rewrite Hd. now apply wf_sessions_snoc.
    + now rewrite Ha.
    + rewrite Hd. apply wf_sessions_snoc; [now apply wf_sessions_del| |assumption].
      apply get_None_keys. intros Hin. apply keys_del_incl in Hin.
      now apply get_None_keys in Hfresh.
  - destruct Hcases as [(Hlt & _ & s & Hd & Hid & Hu & _)|[(Hle & Hnil & _ & Ha)|(Hle & _ & o & s & Hmin & Hd & Hid & Hu & _)]].
    + split.
      * intros k. rewrite Hd. unfold PyDict.keys. rewrite List.map_app, List.in_app_iff.
        simpl. intuition congruence.
      * rewrite Hd, (filter_values_snoc user d _ s Hu), List.length_app. simpl.
        fold c in Hlt |- *. lia.
    + rewrite Ha. split; [tauto|]. fold d. fold c.
      assert (c = 0) by (subst c; now rewrite Hnil). lia.
    + apply py_min_spec in Hmin as [Hin _].
      apply List.filter_In in Hin as [Hin Hu'].
      apply bool_decide_eq_true_1 in Hu'.
      pose proof (wf_sessions_get _ _ Hwf Hin) as Hget. split.
      * intros k. rewrite Hd. unfold PyDict.keys. rewrite List.map_app, List.in_app_iff.
        simpl. intros [Hk|[Hk|[]]]; [|left; congruence].
        right. eapply keys_del_incl. exact Hk.
      * rewrite Hd, (filter_values_snoc user _ _ s Hu), List.length_app. simpl.
        pose proof (filter_values_del user _ _ _ Hget Hu') as Hlen.
        fold c in Hlen, Hle. lia.
Qed.

Lemma create_sessions_count (N : nat) user calls : forall a,
  AgentConfig.max_sessions (BaseAgent.config (BaseAgent.base a)) = Z.of_nat N ->
  wf_sessions (BaseAgent.sessions (BaseAgent.base a)) ->
  List.NoDup (map (fun c => BaseAgent.uuid4 c.1) calls) ->
  (forall c, In c calls ->
     PyDict.get (BaseAgent.uuid4 c.1) (BaseAgent.sessions (BaseAgent.base a)) = None) ->
  length (BaseAgent.user_sessions user (BaseAgent.base a)) <= N ->
  let a' := BaseAgent.create_sessions calls user a in
  wf_sessions (BaseAgent.sessions (BaseAgent.base a')) /\
  BaseAgent.config (BaseAgent.base a') = BaseAgent.config (BaseAgent.base a) /\
  (forall k, In k (PyDict.keys (BaseAgent.sessions (BaseAgent.base a'))) ->
     In k (map (fun c => BaseAgent.uuid4 c.1) calls) \/
     In k (PyDict.keys (BaseAgent.sessions (BaseAgent.base a)))) /\
  length (BaseAgent.user_sessions user (BaseAgent.base a'))
  = Nat.min N (length (BaseAgent.user_sessions user (BaseAgent.base a)) + length calls).
Proof.
  induction calls as [|[e wd] calls IH]; intros a HN Hwf Hnd Hfresh Hc; simpl.
  - split; [assumption|]. split; [reflexivity|]. split; [tauto|]. lia.
  - simpl in Hnd. apply List.NoDup_cons_iff in Hnd as [Hnotin Hnd].
    assert (Hfe : PyDict.get (BaseAgent.uuid4 e)
                    (BaseAgent.sessions (BaseAgent.base a)) = None)
      by (apply (Hfresh (e, wd)); now left).
    destruct (create_session_count e user wd a N HN Hwf Hfe Hc)
      as (Hwf1 & Hcfg1 & Hkeys1 & Hcnt1).
    set (a1 := (BaseAgent.create_session e user wd a).2) in *.
    destruct (IH a1) as (Hwf2 & Hcfg2 & Hkeys2 & Hcnt2).
    + now rewrite Hcfg1.
    + assumption.
    + assumption.
    + intros c Hin. apply get_None_keys. intros Hk.
      destruct (Hkeys1 _ Hk) as [Heq|Hold].
      * apply Hnotin. rewrite <- Heq. now apply (in_map (fun c => BaseAgent.uuid4 c.1)).
      * assert (Hn := Hfresh c (or_intror Hin)).
        now apply get_None_keys in Hn.
    + rewrite Hcnt1. lia.
    + split; [assumption|]. split; [congruence|]. split.
      * intros k Hk. destruct (Hkeys2 _ Hk) as [Hin|Hin]; [left; now right|].
        destruct (Hkeys1 _ Hin) as [->|Hold]; [left; now left | now right].
      * rewrite Hcnt2, Hcnt1. lia.
Qed.

End Cap.

Lemma create_sessions_app {A} `{BaseAgent.Self A} calls1 calls2 user (a : A) :
  BaseAgent.create_sessions (calls1 ++ calls2) user a
  = BaseAgent.create_sessions calls2 user (BaseAgent.create_sessions calls1 user a).
Proof.
  revert a. induction calls1 as [|[e wd] calls1 IH]; intros a; simpl; auto.
Qed.

#[global] Instance BaseAgent_Lawful : LawfulSelf BaseAgent.t.
Proof.
  split.
  - reflexivity.
  - intros o sid a. simpl. unfold BaseAgent.terminate_session.
    destruct (PyDict.get sid (BaseAgent.sessions a)) eqn:Hg; simpl;
      [reflexivity | now rewrite del_absent].
  - intros o sid a. simpl. unfold BaseAgent.terminate_session.
    destruct (PyDict.get sid (BaseAgent.sessions a)); reflexivity.
Qed.

#[global] Instance Persistent_Lawful : LawfulSelf PersistentClaudeAgent.t.
Proof.
  split.
  - reflexivity.
  - intros o sid a. simpl. unfold PersistentClaudeAgent.terminate_session.
    pose proof (terminate_sessions (A := BaseAgent.t)
                  (PersistentClaudeAgent.super_term o) sid
                  (PersistentClaudeAgent.base a)) as Hs. simpl in Hs.
    destruct (BaseAgent.terminate_session _ sid _) as [[ok fx] b']. simpl in Hs.
    destruct (_ !! _); [|exact Hs].
    destruct (PersistentClaudeAgent.stdin_close_raises o); [exact Hs|].
    destruct (PersistentClaudeAgent.proc_terminate_raises o); [exact Hs|].
    destruct (PersistentClaudeAgent.proc_alive_after o); [|exact Hs].
    destruct (PersistentClaudeAgent.proc_kill_raises o); exact Hs.
  - intros o sid a. simpl. unfold PersistentClaudeAgent.terminate_session.
    pose proof (terminate_config (A := BaseAgent.t)
                  (PersistentClaudeAgent.super_term o) sid
                  (PersistentClaudeAgent.base a)) as Hs. simpl in Hs.
    destruct (BaseAgent.terminate_session _ sid _) as [[ok fx] b']. simpl in Hs.
    destruct (_ !! _); [|exact Hs].
    destruct (PersistentClaudeAgent.stdin_close_raises o); [exact Hs|].
    destruct (PersistentClaudeAgent.proc_terminate_raises o); [exact Hs|].
    destruct (PersistentClaudeAgent.proc_alive_after o); [|exact Hs].
    destruct (PersistentClaudeAgent.proc_kill_raises o); exact Hs.
Qed.

#[global] Instance PTY_Lawful : LawfulSelf PTYClaudeAgent.t.
Proof.
  split.
  - reflexivity.
  - intros o sid a. simpl. unfold PTYClaudeAgent.terminate_session.
    pose proof (terminate_sessions (A := BaseAgent.t)
                  (PTYClaudeAgent.super_term o) sid
                  (PTYClaudeAgent.base a)) as Hs. simpl in Hs.
    destruct (BaseAgent.terminate_session _ sid _) as [[ok fx] b']. simpl in Hs.
    destruct (_ !! _); [|exact Hs].
    destruct (PTYClaudeAgent.signal_child _ _) as [sfx [|]];
      [destruct (PTYClaudeAgent.close_raises o)|]; exact Hs.
  - intros o sid a. simpl. unfold PTYClaudeAgent.terminate_session.
    pose proof (terminate_config (A := BaseAgent.t)
                  (PTYClaudeAgent.super_term o) sid
                  (PTYClaudeAgent.base a)) as Hs. simpl in Hs.
    destruct (BaseAgent.terminate_session _ sid _) as [[ok fx] b']. simpl in Hs.
    destruct (_ !! _); [|exact Hs].
    destruct (PTYClaudeAgent.signal_child _ _) as [sfx [|]];
      [destruct (PTYClaudeAgent.close_raises o)|]; exact Hs.
Qed.

(** ** Per-user session cap *)

(** C5.  An agent whose per-user cap is [N] is asked for [N+1] sessions by
    a user who had none (the calls draw distinct, unused uuids).  After the
    first [N] calls the user owns [N] sessions, after the last one still [N];
    when [N >= 1] the last call succeeds and removes exactly one session, one
    whose creation timestamp is least among the user's sessions, and keeps
    every other session.  This holds for [BaseAgent] and for every subclass
    whose [terminate_session] removes the session from the session map. *)
Theorem create_beyond_cap_evicts_oldest
    {A : Type} `{LawfulSelf A} (N : nat) (user : string)
    (calls : list (BaseAgent.CreateEnv BaseAgent.TermEnv * option string))
    (e : BaseAgent.CreateEnv BaseAgent.TermEnv) (wd : option string) (a : A) :
  AgentConfig.max_sessions (BaseAgent.config (BaseAgent.base a)) = Z.of_nat N ->
  wf_sessions (BaseAgent.sessions (BaseAgent.base a)) ->
  BaseAgent.user_sessions user (BaseAgent.base a) = [] ->
  length calls = N ->
  List.NoDup (map (fun c => BaseAgent.uuid4 c.1) (calls ++ [(e, wd)])) ->
  (forall c, In c (calls ++ [(e, wd)]) ->
     PyDict.get (BaseAgent.uuid4 c.1) (BaseAgent.sessions (BaseAgent.base a)) = None) ->
  let aN := BaseAgent.create_sessions calls user a in
  let out := BaseAgent.create_session e user wd aN in
  out.2 = BaseAgent.create_sessions (calls ++ [(e, wd)]) user a /\
  length (BaseAgent.user_sessions user (BaseAgent.base aN)) = N /\
  length (BaseAgent.user_sessions user (BaseAgent.base out.2)) = N /\
  (1 <= N ->
   out.1.1 = Ok (BaseAgent.uuid4 e) /\
   PyDict.mem (BaseAgent.uuid4 e) (BaseAgent.sessions (BaseAgent.base out.2)) = true /\
   exists oldest,
     In oldest (BaseAgent.user_sessions user (BaseAgent.base aN)) /\
     (forall s, In s (BaseAgent.user_sessions user (BaseAgent.base aN)) ->
                (Session.created_at oldest <= Session.created_at s)%Z) /\
     PyDict.get (Session.id oldest) (BaseAgent.sessions (BaseAgent.base out.2)) = None /\
     (forall s, In s (PyDict.values (BaseAgent.sessions (BaseAgent.base aN))) ->
                s <> oldest ->
                In s (PyDict.values (BaseAgent.sessions (BaseAgent.base out.2))))).
Proof.
  intros HN Hwf Hnone Hlen Hnd Hfresh aN out.
  rewrite List.map_app in Hnd. simpl in Hnd.
  assert (Hnd1 : List.NoDup (map (fun c => BaseAgent.uuid4 c.1) calls))
    by (eapply NoDup_app_remove_r; exact Hnd).
  assert (He_calls : ~ In (BaseAgent.uuid4 e) (map (fun c => BaseAgent.uuid4 c.1) calls)).
  { intros Hin. apply NoDup_remove_2 in Hnd. rewrite app_nil_r in Hnd. tauto. }
  destruct (create_sessions_count N user calls a HN Hwf Hnd1) as (HwfN & HcfgN & HkeysN & HcntN).
  { intros c Hin. apply Hfresh. apply List.in_app_iff. now left. }
  { rewrite Hnone. simpl. lia. }
  fold aN in HwfN, HcfgN, HkeysN, HcntN.
  rewrite Hnone in HcntN. simpl in HcntN. rewrite Hlen, Nat.min_id in HcntN.
  assert (HfreshN : PyDict.get (BaseAgent.uuid4 e)
                      (BaseAgent.sessions (BaseAgent.base aN)) = None).
  { apply get_None_keys. intros Hk. destruct (HkeysN _ Hk) as [Hin|Hin]; [tauto|].
    assert (Hn : PyDict.get (BaseAgent.uuid4 (e, wd).1)
                   (BaseAgent.sessions (BaseAgent.base a)) = None)
      by (apply Hfresh; apply List.in_app_iff; right; now left).
    simpl in Hn. now apply get_None_keys in Hn. }
  assert (HNN : AgentConfig.max_sessions (BaseAgent.config (BaseAgent.base aN)) = Z.of_nat N)
    by (now rewrite HcfgN).
  split; [|split; [exact HcntN|split]].
  - subst out aN. now rewrite create_sessions_app.
  - destruct (create_session_count e user wd aN N HNN HwfN HfreshN) as (_ & _ & _ & Hc);
      [lia|]. fold out in Hc. rewrite Hc, HcntN. lia.
  - intros Hpos.
    destruct (create_session_cases e user wd aN HwfN HfreshN) as (_ & Hcases).
    fold out in Hcases. rewrite HNN, HcntN in Hcases.
    destruct Hcases as [(Hlt & _)|[(_ & Hnil & _)|(_ & Hok & oldest & s & Hmin & Hd & Hid & Hu & _)]].
    + lia.
    + rewrite Hnil in HcntN. simpl in HcntN. lia.
    + apply py_min_spec in Hmin as [Hin Hleast].
      pose proof Hin as Hin'. apply List.filter_In in Hin' as [Hval _].
      pose proof (wf_sessions_get _ _ HwfN Hval) as Hget.
      assert (Hne : Session.id oldest <> BaseAgent.uuid4 e) by congruence.
      split; [exact Hok|]. split.
      * apply mem_true_iff. rewrite Hd, get_app.
        destruct (PyDict.get _ (PyDict.del _ _)); [discriminate|]. simpl.
        destruct (decide (BaseAgent.uuid4 e = BaseAgent.uuid4 e)); congruence.
      * exists oldest. split; [exact Hin|]. split; [exact Hleast|]. split.
        -- rewrite Hd, get_app, get_del_eq by apply HwfN. simpl.
           destruct (decide (Session.id oldest = BaseAgent.uuid4 e)); congruence.
        -- intros s' Hs' Hneq. rewrite Hd. unfold PyDict.values.
           rewrite List.map_app, List.in_app_iff. left.
           eapply values_del_keep; eauto.
Qed.

Lemma create_beyond_cap_evicts_oldest_witness :
  length (BaseAgent.user_sessions "u"
            (BaseAgent.create_sessions (A := BaseAgent.t)
               ([(Sample.env "s1" 10, None); (Sample.env "s2" 5, None)]
                  ++ [(Sample.env "s3" 20, None)])
               "u" (BaseAgent.init (Sample.cfg 2)))) = 2.
Proof.
  destruct (@create_beyond_cap_evicts_oldest BaseAgent.t
              BaseAgent.BaseAgent_Self BaseAgent_Lawful 2 "u"
              [(Sample.env "s1" 10, None); (Sample.env "s2" 5, None)]
              (Sample.env "s3" 20) None (BaseAgent.init (Sample.cfg 2)))
    as (Heq & _ & Hc & _).
  - reflexivity.
  - split; constructor.
  - reflexivity.
  - reflexivity.
  - repeat (constructor; [simpl; intuition discriminate|]). constructor.
  - intros c _. reflexivity.
  - rewrite Heq in Hc. exact Hc.
Defined.

(** The session dropped in the sample run is the one stamped 5. *)
Example create_beyond_cap_sample :
  PyDict.keys (BaseAgent.sessions
     (BaseAgent.create_sessions (A := BaseAgent.t)
        [(Sample.env "s1" 10, None); (Sample.env "s2" 5, None);
         (Sample.env "s3" 20, None)]
        "u" (BaseAgent.init (Sample.cfg 2)))) = ["s1"; "s3"].
Proof. reflexivity. Qed.

(** ** The manager's registry mapping *)

Lemma manager_terminate_removes_entry {A} `{AgentManager.AgentOps A}
    o sid (m : AgentManager.t A) :
  (AgentManager.terminate_session o sid m).1.1 = Ok true ->
  AgentManager.session_to_agent (AgentManager.terminate_session o sid m).2 !! sid = None.
Proof.
  unfold AgentManager.terminate_session.
  destruct (AgentManager.session_to_agent m !! sid) as [ty|]; [|discriminate].
  destruct (PyDict.get ty (AgentManager.agents m)) as [ag|]; [|discriminate].
  destruct (AgentManager.agent_terminate_session o sid ag) as [[ok fx] ag'].
  simpl. intros Hok. inversion Hok; subst. simpl. apply lookup_delete_eq.
Qed.

(** An entry leaves the mapping only through [terminate_session], and only
    when the owning agent reported that it removed the session. *)
Lemma manager_terminate_keeps_entry {A} `{AgentManager.AgentOps A}
    o sid sid' (m : AgentManager.t A) :
  AgentManager.session_to_agent m !! sid' <> None ->
  AgentManager.session_to_agent (AgentManager.terminate_session o sid m).2 !! sid' = None ->
  sid' = sid /\ (AgentManager.terminate_session o sid m).1.1 = Ok true.
Proof.
  unfold AgentManager.terminate_session.
  destruct (AgentManager.session_to_agent m !! sid) as [ty|] eqn:Hty; [|simpl; tauto].
  destruct (PyDict.get ty (AgentManager.agents m)) as [ag|]; [|simpl; tauto].
  destruct (AgentManager.agent_terminate_session o sid ag) as [[[|] fx] ag'];
    simpl; [|tauto].
  intros Hin Hout. destruct (decide (sid = sid')) as [->|Hne]; [tauto|].
  rewrite lookup_delete_ne in Hout by assumption. tauto.
Qed.

(** C3, at the failing input.  A manager with one agent of cap 1 creates two
    sessions for the same user.  The second call evicts ["s1"] inside the
    agent, yet the manager's mapping still routes ["s1"] to the agent, and a
    later [terminate_session "s1"] answers [False] and leaves the entry. *)
Theorem manager_keeps_evicted_entry :
  let m0 := AgentManager.register_agent CLAUDE_CODE
              (BaseAgent.init (Sample.cfg 1)) AgentManager.init in
  let r1 := AgentManager.create_session (Ops := AgentManager.BaseAgent_Ops)
              (Sample.env "s1" 10) CLAUDE_CODE "u" None m0 in
  let m1 := match r1 with Some (_, _, m) => m | None => m0 end in
  let r2 := AgentManager.create_session (Ops := AgentManager.BaseAgent_Ops)
              (Sample.env "s2" 20) CLAUDE_CODE "u" None m1 in
  let m2 := match r2 with Some (_, _, m) => m | None => m1 end in
  let r3 := AgentManager.terminate_session (Ops := AgentManager.BaseAgent_Ops)
              Sample.quiet "s1" m2 in
  (exists fx, r1 = Some (Ok (Some "s1"), fx, m1)) /\
  (exists fx, r2 = Some (Ok (Some "s2"), fx, m2)) /\
  AgentManager.live "s1" m2 = false /\
  AgentManager.live "s2" m2 = true /\
  AgentManager.session_to_agent m2 !! "s1" = Some CLAUDE_CODE /\
  r3.1.1 = Ok false /\
  AgentManager.session_to_agent r3.2 !! "s1" = Some CLAUDE_CODE.
Proof.
  vm_compute. repeat split; eauto.
Qed.

(** ** Terminating a session twice *)











(** In the sample teardown every OS call is made once, in the first call. *)
Example terminate_twice_sample :
  (PTYClaudeAgent.terminate_session Sample.pty_term "s1" Sample.pty_agent).1
  = (true, [OsKill 4242 15; OsKill 4242 9; OsClose 7]) /\
  (PTYClaudeAgent.terminate_session Sample.pty_term "s1"
     (PTYClaudeAgent.terminate_session Sample.pty_term "s1" Sample.pty_agent).2).1
  = (false, []).
Proof. vm_compute. split; reflexivity. Qed.

(** ** Handshake failure at session creation *)

Lemma del_snoc_fresh {V} (k : string) (v : V) d :
  PyDict.get k d = None -> PyDict.del k (d ++ [(k, v)]) = d.
Proof.
  induction d as [|[k0 v0] d IH]; simpl.
  - intros _. destruct (decide (k = k)); congruence.
  - destruct (decide (k = k0)); [discriminate|]. intros Hg. now rewrite IH.
Qed.

(** While nothing is read, the initialization loop runs up to the first
    clock reading beyond 10 seconds and then gives up without an error. *)
Lemma wait_for_initialization_silent o n : forall k buf,
  (forall j, k <= j < k + n ->
     (PTYClaudeAgent.init_clock o j <= 10000)%Z /\
     PTYClaudeAgent.silent (PTYClaudeAgent.init_probe o j) = true) ->
  (10000 < PTYClaudeAgent.init_clock o (k + n))%Z ->
  PTYClaudeAgent._wait_for_initialization (S n) k o buf = Some None.
Proof.
  induction n as [|n IH]; intros k buf Hquiet Hend.
  - simpl. rewrite Nat.add_0_r in Hend.
    now destruct (Z.ltb_spec 10000 (PTYClaudeAgent.init_clock o k)); [|lia].
  - destruct (Hquiet k) as [Hclk Hsil]; [lia|].
    change (PTYClaudeAgent._wait_for_initialization (S (S n)) k o buf)
      with (if (10000 <? PTYClaudeAgent.init_clock o k)%Z then Some None
            else match PTYClaudeAgent.init_probe o k with
                 | PTYClaudeAgent.ProbeData data =>
                     let buf' := buf +:+ data in
                     let text := PTYClaudeAgent.decode_ignore o buf' in
                     if str_contains ">" text || str_contains "Claude" text
                        || (100 <? String.length buf')%nat
                     then Some (Some buf')
                     else PTYClaudeAgent._wait_for_initialization (S n) (S k) o buf'
                 | _ => PTYClaudeAgent._wait_for_initialization (S n) (S k) o buf
                 end).
    destruct (Z.ltb_spec 10000 (PTYClaudeAgent.init_clock o k)); [lia|].
    assert (Hrec : PTYClaudeAgent._wait_for_initialization (S n) (S k) o buf = Some None).
    { apply IH.
      - intros j Hj. apply Hquiet. lia.
      - now replace (S k + n) with (k + S n) by lia. }
    destruct (PTYClaudeAgent.init_probe o k); [discriminate | | |]; exact Hrec.
Qed.

(** A call below or at the cap succeeds whenever the cap is positive. *)
Lemma create_session_ok {A} `{LawfulSelf A} e user wd (a : A) :
  (1 <= AgentConfig.max_sessions (BaseAgent.config (BaseAgent.base a)))%Z ->
  wf_sessions (BaseAgent.sessions (BaseAgent.base a)) ->
  PyDict.get (BaseAgent.uuid4 e) (BaseAgent.sessions (BaseAgent.base a)) = None ->
  exists fx a0 d0 s,
    BaseAgent.create_session e user wd a = (Ok (BaseAgent.uuid4 e), fx, a0) /\
    BaseAgent.sessions (BaseAgent.base a0) = d0 ++ [(BaseAgent.uuid4 e, s)] /\
    PyDict.get (BaseAgent.uuid4 e) d0 = None.
Proof.
  intros Hcap Hwf Hfresh.
  destruct (create_session_cases e user wd a Hwf Hfresh) as (_ & Hcases).
  destruct (BaseAgent.create_session e user wd a) as [[r fx] a0]. simpl in Hcases.
  destruct Hcases as [(_ & -> & s & Hd & _)|[(Hle & Hnil & _)|(_ & -> & o & s & _ & Hd & _)]].
  - eexists fx, a0, _, s. split; [reflexivity|]. split; [exact Hd | exact Hfresh].
  - rewrite Hnil in Hle. simpl in Hle. lia.
  - eexists fx, a0, _, s. split; [reflexivity|]. split; [exact Hd|].
    apply get_None_keys. intros Hin. apply keys_del_incl in Hin.
    now apply get_None_keys in Hfresh.
Qed.

(** C4, as the code has it.  Persistent variant: when the handshake read
    ends in a timeout or in end-of-file, [create_session] raises, the new
    session is not in the session map, and (when [terminate] itself does not
    raise) the child was sent [terminate] and the exception is the
    initialization failure.  Pty variant: when no byte is read until the
    loop clock passes 10 seconds, [create_session] does not abort; it
    returns the session id and both the session and its pty entry remain. *)
Theorem init_timeout_outcome :
  (forall e user wd (a : PersistentClaudeAgent.t) p,
     wf_sessions (BaseAgent.sessions (PersistentClaudeAgent.base a)) ->
     PyDict.get (BaseAgent.uuid4 (PersistentClaudeAgent.super_create e))
                (BaseAgent.sessions (PersistentClaudeAgent.base a)) = None ->
     (1 <= AgentConfig.max_sessions
             (BaseAgent.config (PersistentClaudeAgent.base a)))%Z ->
     PersistentClaudeAgent.spawn e = Ok p ->
     PersistentClaudeAgent.init_read e = PersistentClaudeAgent.InitTimeout \/
     PersistentClaudeAgent.init_read e = PersistentClaudeAgent.InitEof ->
     let out := PersistentClaudeAgent.create_session e user wd a in
     is_Ok out.1.1 = false /\
     PyDict.mem (BaseAgent.uuid4 (PersistentClaudeAgent.super_create e))
                (BaseAgent.sessions (PersistentClaudeAgent.base out.2)) = false /\
     (PersistentClaudeAgent.init_terminate_raises e = false ->
      In (Terminate p) out.1.2 /\
      out.1.1 = Raise (Exception
        "Claude initialization failed - no system init message received")))
  /\
  (forall e user wd (a : PTYClaudeAgent.t) master slave child n,
     wf_sessions (BaseAgent.sessions (PTYClaudeAgent.base a)) ->
     PyDict.get (BaseAgent.uuid4 (PTYClaudeAgent.super_create e))
                (BaseAgent.sessions (PTYClaudeAgent.base a)) = None ->
     (1 <= AgentConfig.max_sessions (BaseAgent.config (PTYClaudeAgent.base a)))%Z ->
     PTYClaudeAgent.openpty e = Ok (master, slave) ->
     PTYClaudeAgent.fork e = Ok child ->
     (forall j, j < n ->
        (PTYClaudeAgent.init_clock (PTYClaudeAgent.init_oracle e) j <= 10000)%Z /\
        PTYClaudeAgent.silent
          (PTYClaudeAgent.init_probe (PTYClaudeAgent.init_oracle e) j) = true) ->
     (10000 < PTYClaudeAgent.init_clock (PTYClaudeAgent.init_oracle e) n)%Z ->
     exists fx a',
       PTYClaudeAgent.create_session (S n) e user wd a
       = Some (Ok (BaseAgent.uuid4 (PTYClaudeAgent.super_create e)), fx, a') /\
       PyDict.mem (BaseAgent.uuid4 (PTYClaudeAgent.super_create e))
                  (BaseAgent.sessions (PTYClaudeAgent.base a')) = true /\
       exists info,
         PTYClaudeAgent.pty_sessions a'
           !! BaseAgent.uuid4 (PTYClaudeAgent.super_create e) = Some info /\
         PTYClaudeAgent.master_fd info = master /\
         PTYClaudeAgent.pty_pid info = child).
Proof.
  split.
  - intros e user wd a p Hwf Hfresh Hcap Hspawn Hinit out. subst out.
    unfold PersistentClaudeAgent.create_session.
    destruct (@create_session_ok PersistentClaudeAgent.t
                PersistentClaudeAgent.Persistent_Self Persistent_Lawful
                (PersistentClaudeAgent.super_create e) user wd a Hcap Hwf Hfresh)
      as (fx & a0 & d0 & s & -> & Hd & Hd0).
    cbn in Hd, Hd0. rewrite Hspawn.
    assert (Hgone : PyDict.mem (BaseAgent.uuid4 (PersistentClaudeAgent.super_create e))
              (BaseAgent.sessions (PersistentClaudeAgent.base
                 (PersistentClaudeAgent.abort_create
                    (BaseAgent.uuid4 (PersistentClaudeAgent.super_create e))
                    (PersistentClaudeAgent.set_claude_processes
                       (<[BaseAgent.uuid4 (PersistentClaudeAgent.super_create e) := p]>
                          (PersistentClaudeAgent.claude_processes a0)) a0)))) = false).
    { unfold PersistentClaudeAgent.abort_create. simpl. rewrite Hd.
      assert (Hin : PyDict.mem (BaseAgent.uuid4 (PersistentClaudeAgent.super_create e))
                (d0 ++ [(BaseAgent.uuid4 (PersistentClaudeAgent.super_create e), s)]) = true).
      { apply mem_true_iff. rewrite get_app, Hd0. simpl.
        destruct (decide (_ = _)); congruence. }
      rewrite Hin. simpl. rewrite del_snoc_fresh by assumption.
      now apply mem_false_iff. }
    assert (Hread : PersistentClaudeAgent._read_initial_output
                      (PersistentClaudeAgent.init_read e) = Ok false)
      by (destruct Hinit as [-> | ->]; reflexivity).
    rewrite Hread.
    destruct (PersistentClaudeAgent.init_terminate_raises e); simpl.
    + split; [reflexivity|]. split; [exact Hgone | discriminate].
    + split; [reflexivity|]. split; [exact Hgone|]. intros _. split; [|reflexivity].
      rewrite !List.in_app_iff. right. now left.
  - intros e user wd a master slave child n Hwf Hfresh Hcap Hpty Hfork Hquiet Hend.
    unfold PTYClaudeAgent.create_session.
    destruct (@create_session_ok PTYClaudeAgent.t
                PTYClaudeAgent.PTY_Self PTY_Lawful
                (PTYClaudeAgent.super_create e) user wd a Hcap Hwf Hfresh)
      as (fx & a0 & d0 & s & -> & Hd & Hd0).
    cbn in Hd, Hd0. rewrite Hpty, Hfork.
    rewrite (wait_for_initialization_silent _ n 0 "").
    + eexists _, _. split; [reflexivity|]. simpl. split.
      * apply mem_true_iff. rewrite Hd, get_app, Hd0. simpl.
        destruct (decide (_ = _)); congruence.
      * eexists. rewrite lookup_insert_eq. repeat split; reflexivity.
    + intros j Hj. apply Hquiet. lia.
    + exact Hend.
Qed.

Lemma init_timeout_outcome_witness :
  is_Ok (PersistentClaudeAgent.create_session Sample.persistent_silent "u" None
           (PersistentClaudeAgent.init (Sample.cfg 5))).1.1 = false.
Proof.
  destruct (proj1 init_timeout_outcome Sample.persistent_silent "u" None
              (PersistentClaudeAgent.init (Sample.cfg 5)) {| pid := 4242 |})
    as (Hraise & _).
  - split; constructor.
  - reflexivity.
  - simpl. lia.
  - reflexivity.
  - left. reflexivity.
  - exact Hraise.
Defined.

(** C4 as stated fails.  A pty child that stays silent past the 10 second
    limit still gets its session: the call returns the id, and the session
    and the pty entry (descriptor 7, child 4242) stay.  A persistent child
    that stays silent makes the call raise, but the entry of
    [claude_processes] for the new id is left behind. *)
Lemma init_timeout_leaves_state :
  (exists fx a',
     PTYClaudeAgent.create_session 100 Sample.pty_silent "u" None
       (PTYClaudeAgent.init (Sample.cfg 5)) = Some (Ok "s1", fx, a') /\
     PyDict.mem "s1" (BaseAgent.sessions (PTYClaudeAgent.base a')) = true /\
     PTYClaudeAgent.pty_sessions a' !! "s1"
     = Some {| PTYClaudeAgent.master_fd := 7; PTYClaudeAgent.pty_pid := 4242;
               PTYClaudeAgent.buffer := "";
               PTYClaudeAgent.pty_working_directory := "/srv" |} /\
     ~ In (OsClose 7) fx) /\
  (let out := PersistentClaudeAgent.create_session Sample.persistent_silent "u" None
                (PersistentClaudeAgent.init (Sample.cfg 5)) in
   is_Ok out.1.1 = false /\
   PersistentClaudeAgent.claude_processes out.2 !! "s1" = Some {| pid := 4242 |}).
Proof.
  split.
  - eexists _, _. split; [vm_compute; reflexivity|].
    split; [reflexivity|]. split; [reflexivity|].
    simpl. intros [H|[]]. discriminate.
  - vm_compute. split; reflexivity.
Qed.

(** ** The execution loop of [BaseAgent] *)

(** The first index at which a decidable property holds. *)
Lemma first_index (P : nat -> bool) : forall K,
  P K = true ->
  exists n, n <= K /\ P n = true /\ forall j, j < n -> P j = false.
Proof.
  induction K as [K IH] using lt_wf_ind. intros HK.
  destruct (List.existsb P (seq 0 K)) eqn:Hex.
  - apply List.existsb_exists in Hex as (j & Hj & HPj).
    apply in_seq in Hj. destruct (IH j) as (n & Hn & HP & Hmin); [lia|assumption|].
    exists n. split; [lia | tauto].
  - exists K. split; [lia|]. split; [assumption|].
    intros j Hj. destruct (P j) eqn:HPj; [|reflexivity].
    assert (List.existsb P (seq 0 K) = true); [|congruence].
    apply List.existsb_exists. exists j. split; [apply in_seq; lia | assumption].
Qed.

(** A clock that advances between two passes gets past the limit, and
    there is a first pass at which it has. *)
Lemma clock_crosses (clock : nat -> Z) (limit : Z) :
  (forall k, (clock k < clock (S k))%Z) ->
  exists n, (limit < clock n)%Z /\ forall j, j < n -> (clock j <= limit)%Z.
Proof.
  intros Hadv.
  assert (Hlin : forall k : nat, (clock O + Z.of_nat k <= clock k)%Z).
  { induction k as [|k IH]; [lia|]. specialize (Hadv k). lia. }
  destruct (first_index (fun k => (limit <? clock k)%Z)
              (Z.to_nat (limit + 1 - clock O))) as (n & _ & Hn & Hmin).
  - apply Z.ltb_lt. specialize (Hlin (Z.to_nat (limit + 1 - clock O))). lia.
  - exists n. split; [now apply Z.ltb_lt|].
    intros j Hj. specialize (Hmin j Hj). now apply Z.ltb_ge.
Qed.

(** While the child is silent and alive the loop only waits; it stops at
    the first pass whose clock reading exceeds 300 seconds. *)
Lemma output_loop_S h w p sid s fuel k :
  BaseAgent.output_loop h w p sid s (S fuel) k
  = BaseAgent.loop_pass h w p sid s k (BaseAgent.output_loop h w p sid s fuel (S k)).
Proof. reflexivity. Qed.

(** More fuel does not change a finished loop. *)
Lemma output_loop_mono h w p sid s : forall fuel k r,
  BaseAgent.output_loop h w p sid s fuel k = Some r ->
  BaseAgent.output_loop h w p sid s (S fuel) k = Some r.
Proof.
  induction fuel as [|fuel IH]; intros k r Hr; [discriminate|].
  rewrite output_loop_S in Hr. rewrite output_loop_S.
  unfold BaseAgent.loop_pass in *.
  destruct (BaseAgent.timeout_ms <? BaseAgent.clock w k)%Z; [exact Hr|].
  destruct (BaseAgent.reads w k) as [[output|e]|  |[|]|e]; try exact Hr.
  - destruct (bool_decide (output = "")); [now apply IH|].
    destruct (BaseAgent.parse_output h (BaseAgent.stamp w k) output) as [ev|[]];
      try exact Hr; try (now apply IH).
    destruct (BaseAgent.output_loop h w p sid s fuel (S k)) as [[evs fx]|] eqn:Hc;
      [|discriminate].
    now rewrite (IH _ _ Hc).
  - now apply IH.
  - now apply IH.
Qed.

Lemma output_loop_more h w p sid s fuel k r m :
  BaseAgent.output_loop h w p sid s fuel k = Some r ->
  BaseAgent.output_loop h w p sid s (fuel + m) k = Some r.
Proof.
  intros Hr. induction m as [|m IH].
  - now rewrite Nat.add_0_r.
  - rewrite Nat.add_succ_r. now apply output_loop_mono.
Qed.

(** While the child is silent and alive the loop only waits; it stops at
    the first pass whose clock reading exceeds 300 seconds. *)
Lemma output_loop_silent h w p sid s n : forall k,
  (forall j, BaseAgent.reads w j = BaseAgent.RTimeout false) ->
  BaseAgent.timeout_terminate_raises w = false ->
  (forall j, k <= j < k + n -> (BaseAgent.clock w j <= BaseAgent.timeout_ms)%Z) ->
  (BaseAgent.timeout_ms < BaseAgent.clock w (k + n))%Z ->
  BaseAgent.output_loop h w p sid s n k = None /\
  BaseAgent.output_loop h w p sid s (S n) k
  = Some ([BaseAgent.timeout_event sid s], [Terminate p]).
Proof.
  intros k Hsilent Hterm. revert k.
  induction n as [|n IH]; intros k Hbelow Hover.
  - rewrite Nat.add_0_r in Hover. split; [reflexivity|].
    rewrite output_loop_S. unfold BaseAgent.loop_pass.
    apply Z.ltb_lt in Hover. now rewrite Hover, Hterm.
  - assert (Hk : (BaseAgent.timeout_ms <? BaseAgent.clock w k)%Z = false)
      by (apply Z.ltb_ge, Hbelow; lia).
    destruct (IH (S k)) as [Hrun Hstop].
    + intros j Hj. apply Hbelow. lia.
    + now replace (S k + n) with (k + S n) by lia.
    + split.
      * rewrite output_loop_S. unfold BaseAgent.loop_pass.
        rewrite Hk, Hsilent. exact Hrun.
      * rewrite output_loop_S. unfold BaseAgent.loop_pass.
        rewrite Hk, Hsilent. exact Hstop.
Qed.

(** C1, as the code has it.  A child that never prints and never exits is
    sent [terminate] at the first pass of the loop whose clock reading
    exceeds 300 seconds, a constant of [execute_command] that does not depend
    on the agent's configuration; the loop had not ended before that pass.
    Exactly one timeout event is yielded.  When [process.wait()] then reports
    status 0 the timeout event is the last event; when it reports another
    status one more error event follows; when it never returns the stream
    stays open after the timeout event. *)
Theorem silent_process_times_out
    (h : BaseAgent.Hooks) (w : BaseAgent.World) (sid message : string)
    (a : BaseAgent.t) (session : Session.t) (cmd : list string) (p : Process) :
  PyDict.get sid (BaseAgent.sessions a) = Some session ->
  BaseAgent.prepare_command h message session = Ok cmd ->
  BaseAgent.spawn w = Ok p ->
  (forall k, BaseAgent.reads w k = BaseAgent.RTimeout false) ->
  BaseAgent.timeout_terminate_raises w = false ->
  (forall k, (BaseAgent.clock w k < BaseAgent.clock w (S k))%Z) ->
  exists n,
    (300000 < BaseAgent.clock w n)%Z /\
    (forall j, j < n -> (BaseAgent.clock w j <= 300000)%Z) /\
    BaseAgent.output_loop h w p sid session n 0 = None /\
    forall fuel, n < fuel ->
      let r := BaseAgent.execute_command h w fuel sid message a in
      (exists env,
         BaseAgent.effects r
         = [Spawn p cmd (Session.working_directory session) env; Terminate p]) /\
      length (List.filter BaseAgent.is_timeout_event (BaseAgent.events r)) = 1 /\
      match BaseAgent.wait w with
      | None =>
          BaseAgent.status r = BaseAgent.Blocked /\
          BaseAgent.events r = [BaseAgent.timeout_event sid session]
      | Some rc =>
          BaseAgent.status r = BaseAgent.Finished /\
          BaseAgent.events r
          = BaseAgent.timeout_event sid session ::
            (if (rc =? 0)%Z then []
             else [match BaseAgent.stderr_read w with
                   | Ok msg => BaseAgent.failed_event sid session msg rc
                   | Raise e => BaseAgent.exception_event sid session e
                   end])
      end.
Proof.
  intros Hs Hcmd Hspawn Hsilent Hterm Hadv.
  destruct (clock_crosses (BaseAgent.clock w) BaseAgent.timeout_ms Hadv)
    as (n & Hover & Hbelow).
  exists n. split; [exact Hover|]. split; [exact Hbelow|].
  destruct (output_loop_silent h w p sid session n 0 Hsilent Hterm) as [Hrun Hstop].
  { intros j Hj. apply Hbelow. lia. }
  { exact Hover. }
  split; [exact Hrun|]. intros fuel Hfuel r. subst r.
  unfold BaseAgent.execute_command. rewrite Hs, Hcmd, Hspawn.
  replace fuel with (S n + (fuel - S n)) by lia.
  rewrite (output_loop_more _ _ _ _ _ _ _ _ _ Hstop).
  destruct (BaseAgent.wait w) as [rc|]; simpl.
  - destruct (rc =? 0)%Z; simpl.
    + split; [eauto|]. split; reflexivity || (split; reflexivity).
    + destruct (BaseAgent.stderr_read w); simpl;
        (split; [eauto|]); (split; [reflexivity|]); split; reflexivity.
  - split; [eauto|]. split; [reflexivity|]. split; reflexivity.
Qed.

Lemma silent_process_times_out_witness :
  exists n,
    (300000 < BaseAgent.clock Sample.silent_world n)%Z /\
    BaseAgent.output_loop (ClaudeCodeAgent.hooks (Sample.cfg 5) Sample.no_str)
      Sample.silent_world {| pid := 4242 |} "s1" (Sample.session "s1" "u" 10) n 0
    = None.
Proof.
  destruct (silent_process_times_out
              (ClaudeCodeAgent.hooks (Sample.cfg 5) Sample.no_str)
              Sample.silent_world "s1" "hello" Sample.one_shot_agent
              (Sample.session "s1" "u" 10)
              ["claude"; "--print"; "--output-format=stream-json"; "--verbose"; "hello"]
              {| pid := 4242 |})
    as (n & Hover & _ & Hrun & _).
  - reflexivity.
  - reflexivity.
  - reflexivity.
  - intros k. reflexivity.
  - reflexivity.
  - intros k. simpl. lia.
  - exists n. split; [exact Hover | exact Hrun].
Defined.

(** C1 as stated fails.  The agent is configured with [timeout = 3600], the
    child is silent and each pass takes 0.1 s.  The run is over within 3002
    passes: [terminate] is sent at pass 3001, 300.1 s after the start and
    long before 3600 s, and the timeout event is followed by a second error
    event carrying return code -15, so it is not the final event. *)
Lemma silent_process_not_final_event :
  let r := BaseAgent.execute_command
             (ClaudeCodeAgent.hooks (Sample.cfg 5) Sample.no_str)
             Sample.silent_world 3002 "s1" "hello" Sample.one_shot_agent in
  AgentConfig.timeout (BaseAgent.config Sample.one_shot_agent) = 3600%Z /\
  BaseAgent.clock Sample.silent_world 3001 = 300100%Z /\
  BaseAgent.status r = BaseAgent.Finished /\
  In (Terminate {| pid := 4242 |}) (BaseAgent.effects r) /\
  BaseAgent.events r
  = [BaseAgent.timeout_event "s1" (Sample.session "s1" "u" 10);
     BaseAgent.failed_event "s1" (Sample.session "s1" "u" 10) "" (-15)] /\
  List.last (BaseAgent.events r) []
  <> BaseAgent.timeout_event "s1" (Sample.session "s1" "u" 10).
Proof.
  vm_compute. repeat split; try reflexivity.
  - right. left. reflexivity.
  - discriminate.
Qed.

(** ** Errors inside one execution *)

Lemma keys_set_present {K V} `{EqDecision K} (k : K) (v v' : V) d :
  PyDict.get k d = Some v -> PyDict.keys (PyDict.set k v' d) = PyDict.keys d.
Proof.
  induction d as [|[k0 v0] d IH]; simpl; [discriminate|].
  destruct (decide (k = k0)); simpl; [reflexivity|].
  intros Hg. now rewrite IH.
Qed.






(** ** Parsing of output lines *)

Lemma loads_raises s e : Json.loads s = Raise e -> e = JSONDecodeError.
Proof.
  unfold Json.loads.
  destruct (Json.scan_value _ _) as [[v rest]|]; [|congruence].
  destruct (Json.skip_ws rest); congruence.
Qed.

(** A line that is not JSON becomes a text event that carries the line. *)
Lemma parse_output_not_json py_str ts output :
  (forall v, Json.loads output <> Ok v) ->
  ClaudeCodeAgent.parse_output py_str ts output
  = Ok (ClaudeCodeAgent.text_event output ts).
Proof.
  intros Hbad. unfold ClaudeCodeAgent.parse_output.
  destruct (Json.loads output) as [v|e] eqn:Hl; [now destruct (Hbad v)|].
  now rewrite (loads_raises _ _ Hl).
Qed.

Lemma classify_line_not_json output :
  (forall v, Json.loads output <> Ok v) ->
  PersistentClaudeAgent.classify_line output
  = Ok ([("type", VStr "text"); ("content", VStr output)], false).
Proof.
  intros Hbad. unfold PersistentClaudeAgent.classify_line.
  destruct (Json.loads output) as [v|e] eqn:Hl; [now destruct (Hbad v)|].
  now rewrite (loads_raises _ _ Hl).
Qed.

Lemma str_app_nil_r (s : string) : s +:+ "" = s.
Proof.
  induction s as [|c s IH]; [reflexivity|].
  change (String c (s +:+ "") = String c s). now rewrite IH.
Qed.

Lemma str_app_assoc (a b c : string) : (a +:+ b) +:+ c = a +:+ (b +:+ c).
Proof.
  induction a as [|x a IH]; [reflexivity|].
  change (String x ((a +:+ b) +:+ c) = String x (a +:+ (b +:+ c))).
  now rewrite IH.
Qed.

Lemma collect_text_blocks texts : forall content,
  ClaudeCodeAgent.collect_text (map text_block texts) content
  = Ok (content +:+ String.concat "" texts).
Proof.
  induction texts as [|s texts IH]; intros content.
  - simpl. now rewrite str_app_nil_r.
  - change (ClaudeCodeAgent.collect_text (map text_block (s :: texts)) content)
      with (ClaudeCodeAgent.collect_text (map text_block texts) (content +:+ s)).
    rewrite IH, str_app_assoc. f_equal. f_equal.
    destruct texts; simpl; [now rewrite str_app_nil_r | reflexivity].
Qed.

(** An object tagged assistant whose message holds text blocks becomes one
    assistant event with the texts joined in order. *)
Lemma parse_output_assistant py_str ts output texts rest_type rest_msg :
  Json.loads output
  = Ok (Json.JObj (("type", Json.JStr "assistant")
                   :: ("message",
                       Json.JObj (("content", Json.JArr (map text_block texts))
                                  :: rest_msg))
                   :: rest_type)) ->
  exists raw,
    ClaudeCodeAgent.parse_output py_str ts output
    = Ok (ClaudeCodeAgent.assistant_event (String.concat "" texts) raw ts).
Proof.
  intros Hl. unfold ClaudeCodeAgent.parse_output. rewrite Hl.
  match goal with |- context [ClaudeCodeAgent.has_type _ ?o] => set (obj := o) end.
  assert (H1 : ClaudeCodeAgent.has_type "assistant" obj = Ok true) by reflexivity.
  assert (H2 : ClaudeCodeAgent.assistant_content obj
               = ClaudeCodeAgent.collect_text (map text_block texts) "")
    by reflexivity.
  rewrite H1, H2, collect_text_blocks. exists obj. reflexivity.
Qed.

(** The example of the design document: both lines arrive as events. *)
Example assistant_then_text_stream :
  let r := BaseAgent.execute_command
             (ClaudeCodeAgent.hooks (Sample.cfg 5) Sample.no_str)
             (Sample.printing_world [Sample.assistant_line; "not json at all"])
             10 "s1" "hello" Sample.one_shot_agent in
  BaseAgent.status r = BaseAgent.Finished /\
  map (PyDict.get "type") (BaseAgent.events r)
  = [Some (VStr "assistant_response"); Some (VStr "text")] /\
  map (PyDict.get "content") (BaseAgent.events r)
  = [Some (VStr "hi"); Some (VStr "not json at all")].
Proof. vm_compute. repeat split; reflexivity. Qed.

Example assistant_then_text_persistent :
  exists fx a',
    PersistentClaudeAgent.execute_command
      (Sample.answering [Sample.assistant_line; "not json at all"])
      10 "s1" "hello" Sample.persistent_agent
    = Some ([[("type", VStr "assistant_response"); ("content", VStr "hi");
              ("raw", VJson (Json.JObj
                 [("type", Json.JStr "assistant");
                  ("message", Json.JObj
                     [("content", Json.JArr [text_block "hi"])])]));
              ("session_id", VStr "s1"); ("agent_type", VStr "claude_code")];
             [("type", VStr "text"); ("content", VStr "not json at all");
              ("session_id", VStr "s1"); ("agent_type", VStr "claude_code")]],
            fx, a').
Proof. eexists _, _. vm_compute. reflexivity. Qed.

(** C6, at the failing input.  The line [123] is valid JSON but not an
    object.  [ClaudeCodeAgent.parse_output] raises [TypeError] on it, the
    loop of [BaseAgent.execute_command] leaves at once, and the assistant
    line printed after it is never turned into an event.  In the persistent
    agent the same line ends the turn with an error event. *)
Theorem json_scalar_line_aborts_stream :
  Json.loads "123" = Ok (Json.JNum "123") /\
  ClaudeCodeAgent.parse_output Sample.no_str "t" "123"
  = Raise (TypeError "argument of type 'int' is not iterable") /\
  (let r := BaseAgent.execute_command
              (ClaudeCodeAgent.hooks (Sample.cfg 5) Sample.no_str)
              (Sample.printing_world ["123"; Sample.assistant_line])
              10 "s1" "hello" Sample.one_shot_agent in
   BaseAgent.status r = BaseAgent.Finished /\ BaseAgent.events r = []) /\
  PersistentClaudeAgent.classify_line "123"
  = Raise (AttributeError "'int' object has no attribute 'get'") /\
  (exists fx a',
     PersistentClaudeAgent.execute_command
       (Sample.answering ["123"; Sample.assistant_line])
       10 "s1" "hello" Sample.persistent_agent
     = Some ([[("error", VStr "'int' object has no attribute 'get'");
               ("session_id", VStr "s1"); ("agent_type", VStr "claude_code")]],
             fx, a')).
Proof.
  split; [vm_compute; reflexivity|]. split; [vm_compute; reflexivity|].
  split; [vm_compute; split; reflexivity|]. split; [vm_compute; reflexivity|].
  eexists _, _. vm_compute. reflexivity.
Qed.

(** ** One execution per session *)

Lemma remove_one_In x y l :
  List.NoDup l -> (In y (Interleaving.remove_one x l) <-> In y l /\ y <> x).
Proof.
  induction l as [|z l IH]; simpl; [tauto|].
  intros Hnd. apply List.NoDup_cons_iff in Hnd as [Hz Hnd].
  destruct (bool_decide_reflect (x = z)) as [->|Hne].
  - split; [intros Hy; split; [tauto | congruence] | intros [[<-|Hy] Hne]; tauto].
  - simpl. rewrite (IH Hnd). split; [intros [<-|[Hy Hn]]; intuition congruence | tauto].
Qed.

Lemma remove_one_NoDup x l : List.NoDup l -> List.NoDup (Interleaving.remove_one x l).
Proof.
  induction l as [|z l IH]; simpl; [auto|].
  intros Hnd. pose proof Hnd as Hnd'. apply List.NoDup_cons_iff in Hnd as [Hz Hnd].
  destruct (bool_decide (x = z)); [assumption|].
  apply List.NoDup_cons_iff. split; [|auto].
  intros Hin. apply (remove_one_In x z l Hnd) in Hin. tauto.
Qed.

Lemma persistent_step_inv act s :
  Interleaving.persistent_inv s ->
  Interleaving.persistent_inv (Interleaving.persistent_step act s).
Proof.
  intros [Hnd Hiff]. destruct act as [sid message|sid]; simpl.
  - unfold PersistentClaudeAgent.enter.
    destruct (negb _); [split; assumption|].
    destruct (_ !! sid) as [p|]; [|split; assumption].
    destruct (bool_decide_reflect
                (sid ∈ PersistentClaudeAgent.executing_sessions (Interleaving.agent s)))
      as [Hin|Hnot]; [split; assumption|].
    split; simpl.
    + apply List.NoDup_cons_iff. split; [|assumption]. now rewrite Hiff.
    + intros x. rewrite elem_of_union, elem_of_singleton, <- Hiff.
      split; [intros [->|Hx]; auto | intros [->|Hx]; auto].
  - destruct (bool_decide_reflect (sid ∈ Interleaving.running s)) as [Hin|Hnot];
      [|split; assumption].
    split; simpl.
    + now apply remove_one_NoDup.
    + intros x. rewrite (remove_one_In sid x _ Hnd), elem_of_difference,
        elem_of_singleton, Hiff. tauto.
Qed.

Lemma persistent_run_inv acts : forall s,
  Interleaving.persistent_inv s ->
  Interleaving.persistent_inv (Interleaving.run Interleaving.persistent_step acts s).
Proof.
  induction acts as [|act acts IH]; intros s Hinv; simpl; [assumption|].
  apply IH. now apply persistent_step_inv.
Qed.

(** C2, as the code has it.  In the persistent agent, whatever the order
    in which submissions arrive and executions end, no session has two
    executions running.  A submission on a session with a running execution
    is rejected and changes nothing else (it is not queued); when the
    session and its process are still registered the answer is the error
    "Session is already executing a command".  A submission on an idle
    session that has a process is accepted. *)
Theorem persistent_rejects_overlapping_submission
    (acts : list Interleaving.Action) (s0 : Interleaving.Sys PersistentClaudeAgent.t) :
  Interleaving.persistent_inv s0 ->
  let s := Interleaving.run Interleaving.persistent_step acts s0 in
  List.NoDup (Interleaving.running s) /\
  (forall sid message, In sid (Interleaving.running s) ->
     exists ev,
       Interleaving.persistent_step (Interleaving.Submit sid message) s
       = {| Interleaving.agent := Interleaving.agent s;
            Interleaving.running := Interleaving.running s;
            Interleaving.answers := Interleaving.answers s ++ [(sid, ev)] |} /\
       (PyDict.mem sid (BaseAgent.sessions
                          (PersistentClaudeAgent.base (Interleaving.agent s))) = true ->
        PersistentClaudeAgent.claude_processes (Interleaving.agent s) !! sid <> None ->
        ev = PersistentClaudeAgent.error_event
               "Session is already executing a command" sid)) /\
  (forall sid message p, ~ In sid (Interleaving.running s) ->
     PyDict.mem sid (BaseAgent.sessions
                       (PersistentClaudeAgent.base (Interleaving.agent s))) = true ->
     PersistentClaudeAgent.claude_processes (Interleaving.agent s) !! sid = Some p ->
     Interleaving.running
       (Interleaving.persistent_step (Interleaving.Submit sid message) s)
     = sid :: Interleaving.running s).
Proof.
  intros Hinv0 s. destruct (persistent_run_inv acts s0 Hinv0) as [Hnd Hiff].
  fold s in Hnd, Hiff. split; [exact Hnd|]. split.
  - intros sid message Hin. apply Hiff in Hin. simpl.
    unfold PersistentClaudeAgent.enter.
    destruct (PyDict.mem sid _); simpl.
    + destruct (_ !! sid) as [p|].
      * rewrite bool_decide_eq_true_2 by assumption.
        eexists. split; [reflexivity | auto].
      * eexists. split; [reflexivity|]. intros _ Hp. congruence.
    + eexists. split; [reflexivity|]. discriminate.
  - intros sid message p Hnot Hm Hp. simpl.
    unfold PersistentClaudeAgent.enter. rewrite Hm, Hp. simpl.
    rewrite bool_decide_eq_false_2; [reflexivity|]. now rewrite <- Hiff.
Qed.

Lemma persistent_rejects_overlapping_submission_witness :
  Interleaving.answers
    (Interleaving.run Interleaving.persistent_step
       [Interleaving.Submit "s1" "first"; Interleaving.Submit "s1" "second"]
       {| Interleaving.agent := Sample.persistent_agent;
          Interleaving.running := []; Interleaving.answers := [] |})
  = [("s1", PersistentClaudeAgent.error_event
              "Session is already executing a command" "s1")].
Proof.
  destruct (persistent_rejects_overlapping_submission
              [Interleaving.Submit "s1" "first"]
              {| Interleaving.agent := Sample.persistent_agent;
                 Interleaving.running := []; Interleaving.answers := [] |})
    as (_ & Hreject & _).
  - split; [constructor|]. intros sid. simpl. split; [tauto | set_solver].
  - destruct (Hreject "s1" "second") as (ev & Hstep & Hev).
    + vm_compute. left. reflexivity.
    + change (Interleaving.run Interleaving.persistent_step
                [Interleaving.Submit "s1" "first"; Interleaving.Submit "s1" "second"]
                {| Interleaving.agent := Sample.persistent_agent;
                   Interleaving.running := []; Interleaving.answers := [] |})
        with (Interleaving.persistent_step (Interleaving.Submit "s1" "second")
                (Interleaving.run Interleaving.persistent_step
                   [Interleaving.Submit "s1" "first"]
                   {| Interleaving.agent := Sample.persistent_agent;
                      Interleaving.running := []; Interleaving.answers := [] |})).
      rewrite Hstep. simpl. rewrite Hev; [reflexivity | reflexivity |].
      vm_compute. discriminate.
Defined.

(** C2 as stated fails for the pty and the one-shot variants: a second
    submission on a session whose first execution is still running is
    accepted as well, so the session has two running executions and nobody
    receives an error. *)
Lemma overlapping_submissions_both_run :
  (let s := Interleaving.run Interleaving.pty_step
              [Interleaving.Submit "s1" "first"; Interleaving.Submit "s1" "second"]
              {| Interleaving.agent := Sample.pty_agent;
                 Interleaving.running := []; Interleaving.answers := [] |} in
   Interleaving.running s = ["s1"; "s1"] /\ Interleaving.answers s = []) /\
  (let s := Interleaving.run Interleaving.one_shot_step
              [Interleaving.Submit "s1" "first"; Interleaving.Submit "s1" "second"]
              {| Interleaving.agent := Sample.one_shot_agent;
                 Interleaving.running := []; Interleaving.answers := [] |} in
   Interleaving.running s = ["s1"; "s1"] /\ Interleaving.answers s = []).
Proof. vm_compute. repeat split; reflexivity. Qed.

(** ** Continuation flags of the CLI agent *)

Lemma build_command_shape a g cs m :
  ClaudeCodeCLIAgent._build_claude_command a g cs m
  = ClaudeCodeCLIAgent.command_head a
    ++ ClaudeCodeCLIAgent.continuation_args cs
    ++ ClaudeCodeCLIAgent.command_tail cs g m.
Proof.
  unfold ClaudeCodeCLIAgent._build_claude_command, ClaudeCodeCLIAgent.command_head,
    ClaudeCodeCLIAgent.command_tail.
  destruct (bool_decide (AgentConfig.stream_format _ = "json"));
    destruct (bool_decide (ClaudeCodeCLIAgent.working_directory cs = g));
    simpl; rewrite <- ?List.app_assoc; simpl; try rewrite List.app_nil_r; reflexivity.
Qed.

(** The token after the stdout loop is the one before it or was found by
    the extraction in one of the lines read. *)
Lemma stream_stdout_token ts lines : forall token,
  (ClaudeCodeCLIAgent.stream_stdout ts lines token).2 = token \/
  exists line tok,
    In line lines /\
    ClaudeCodeCLIAgent._extract_claude_session_id line = Some tok /\
    tok <> "" /\
    (ClaudeCodeCLIAgent.stream_stdout ts lines token).2 = Some tok.
Proof.
  induction lines as [|text rest IH]; intros token; simpl; [now left|].
  destruct (bool_decide (text = "")).
  { destruct (IH token) as [Heq|(line & tok & Hin & Hx & Hne & Heq)];
      [now left | right; exists line, tok; auto]. }
  match goal with
  | |- context [ClaudeCodeCLIAgent.stream_stdout ts rest ?t'] => set (token' := t')
  end.
  assert (Htok : token' = token \/
                 exists tok, ClaudeCodeCLIAgent._extract_claude_session_id text = Some tok
                             /\ tok <> "" /\ token' = Some tok).
  { subst token'.
    destruct (_ || _); [|now left].
    destruct (ClaudeCodeCLIAgent._extract_claude_session_id text) as [tok|] eqn:Hx;
      [|now left].
    unfold ClaudeCodeCLIAgent.truthy.
    destruct (bool_decide_reflect (tok = "")); simpl; [now left|].
    right. exists tok. auto. }
  destruct (ClaudeCodeCLIAgent.stream_stdout ts rest token') as [evs final] eqn:Hrec.
  simpl. destruct (IH token') as [Heq|(line & tok & Hin & Hx & Hne & Heq)];
    rewrite Hrec in Heq; simpl in Heq.
  - destruct Htok as [->|(tok & Hx & Hne & ->)]; [now left|].
    right. exists text, tok. auto.
  - right. exists line, tok. auto.
Qed.

(** What one turn that ran to its end does to the agent. *)
Lemma cli_execute_finished w sid message a cs :
  PyDict.mem sid (BaseAgent.sessions (ClaudeCodeCLIAgent.base a)) = true ->
  ClaudeCodeCLIAgent.cli_sessions a !! sid = Some cs ->
  let r := ClaudeCodeCLIAgent.execute_command w sid message a in
  ClaudeCodeCLIAgent.command r
  = ClaudeCodeCLIAgent._build_claude_command a (ClaudeCodeCLIAgent.getcwd w) cs message /\
  ClaudeCodeCLIAgent.base (ClaudeCodeCLIAgent.after r) = ClaudeCodeCLIAgent.base a /\
  ClaudeCodeCLIAgent.claude_path (ClaudeCodeCLIAgent.after r)
  = ClaudeCodeCLIAgent.claude_path a /\
  (ClaudeCodeCLIAgent.status r = ClaudeCodeCLIAgent.Finished ->
   exists cs',
     ClaudeCodeCLIAgent.cli_sessions (ClaudeCodeCLIAgent.after r) !! sid = Some cs' /\
     ClaudeCodeCLIAgent.conversation_turns cs'
     = (ClaudeCodeCLIAgent.conversation_turns cs + 1)%Z /\
     ClaudeCodeCLIAgent.working_directory cs' = ClaudeCodeCLIAgent.working_directory cs /\
     (ClaudeCodeCLIAgent.claude_session_id cs' = ClaudeCodeCLIAgent.claude_session_id cs \/
      exists line tok,
        In line (ClaudeCodeCLIAgent.stdout_lines w) /\
        ClaudeCodeCLIAgent._extract_claude_session_id line = Some tok /\
        tok <> "" /\
        ClaudeCodeCLIAgent.claude_session_id cs' = Some tok)).
Proof.
  intros Hm Hcs r. subst r. unfold ClaudeCodeCLIAgent.execute_command.
  rewrite Hm, Hcs. unfold ClaudeCodeCLIAgent._execute_claude_cli.
  destruct (ClaudeCodeCLIAgent.spawn w) as [p|e].
  - unfold ClaudeCodeCLIAgent._stream_realtime.
    pose proof (stream_stdout_token (ClaudeCodeCLIAgent.stamp w)
                  (ClaudeCodeCLIAgent.stdout_lines w)
                  (ClaudeCodeCLIAgent.claude_session_id cs)) as Htok.
    destruct (ClaudeCodeCLIAgent.stream_stdout _ _ _) as [out token]. simpl in Htok.
    destruct (ClaudeCodeCLIAgent.wait w) as [rc|]; simpl.
    + repeat split. intros _. eexists. rewrite lookup_insert_eq.
      split; [reflexivity|]. simpl. repeat split. exact Htok.
    + repeat split. discriminate.
  - simpl. repeat split. intros _. eexists. rewrite lookup_insert_eq.
    split; [reflexivity|]. simpl. repeat split. now left.
Qed.

Lemma continuation_args_cases cs :
  ((ClaudeCodeCLIAgent.conversation_turns cs <= 0)%Z /\
   ClaudeCodeCLIAgent.continuation_args cs = []) \/
  ((0 < ClaudeCodeCLIAgent.conversation_turns cs)%Z /\
   (ClaudeCodeCLIAgent.continuation_args cs = ["--continue"] /\
    (ClaudeCodeCLIAgent.claude_session_id cs = None \/
     ClaudeCodeCLIAgent.claude_session_id cs = Some "") \/
    exists tok, ClaudeCodeCLIAgent.claude_session_id cs = Some tok /\ tok <> "" /\
                ClaudeCodeCLIAgent.continuation_args cs = ["--resume"; tok])).
Proof.
  unfold ClaudeCodeCLIAgent.continuation_args.
  destruct (Z.ltb_spec 0 (ClaudeCodeCLIAgent.conversation_turns cs)); [|left; auto].
  right. split; [assumption|].
  destruct (ClaudeCodeCLIAgent.claude_session_id cs) as [tok|]; [|left; auto].
  unfold ClaudeCodeCLIAgent.truthy.
  destruct (bool_decide_reflect (tok = "")) as [->|Hne]; simpl;
    [left; auto | right; eauto].
Qed.

(** The commands of consecutive turns, from any state of the session: [k]
    turns were completed before, and [Q] says where a token already stored
    came from. *)
Lemma run_turns_commands sid turns : forall (Q : string -> Prop) a cs (k : nat),
  PyDict.mem sid (BaseAgent.sessions (ClaudeCodeCLIAgent.base a)) = true ->
  ClaudeCodeCLIAgent.cli_sessions a !! sid = Some cs ->
  ClaudeCodeCLIAgent.conversation_turns cs = Z.of_nat k ->
  (forall tok, ClaudeCodeCLIAgent.claude_session_id cs = Some tok -> tok <> "" /\ Q tok) ->
  Forall (fun r => ClaudeCodeCLIAgent.status r = ClaudeCodeCLIAgent.Finished)
         (ClaudeCodeCLIAgent.run_turns turns sid a) ->
  forall i w message r,
    nth_error turns i = Some (w, message) ->
    nth_error (ClaudeCodeCLIAgent.run_turns turns sid a) i = Some r ->
    (k + i = 0 ->
     ClaudeCodeCLIAgent.command r
     = ClaudeCodeCLIAgent.command_head a
       ++ ClaudeCodeCLIAgent.command_tail cs (ClaudeCodeCLIAgent.getcwd w) message) /\
    (0 < k + i ->
     ClaudeCodeCLIAgent.command r
     = ClaudeCodeCLIAgent.command_head a ++ ["--continue"]
       ++ ClaudeCodeCLIAgent.command_tail cs (ClaudeCodeCLIAgent.getcwd w) message \/
     exists tok,
       (Q tok \/
        exists j wj mj line,
          j < i /\ nth_error turns j = Some (wj, mj) /\
          In line (ClaudeCodeCLIAgent.stdout_lines wj) /\
          ClaudeCodeCLIAgent._extract_claude_session_id line = Some tok) /\
       ClaudeCodeCLIAgent.command r
       = ClaudeCodeCLIAgent.command_head a ++ ["--resume"; tok]
         ++ ClaudeCodeCLIAgent.command_tail cs (ClaudeCodeCLIAgent.getcwd w) message) /\
    (i = 0 ->
     ClaudeCodeCLIAgent.command r
     = ClaudeCodeCLIAgent.command_head a ++ ClaudeCodeCLIAgent.continuation_args cs
       ++ ClaudeCodeCLIAgent.command_tail cs (ClaudeCodeCLIAgent.getcwd w) message) /\
    (forall i' r',
       i = S i' ->
       nth_error (ClaudeCodeCLIAgent.run_turns turns sid a) i' = Some r' ->
       exists cs',
         ClaudeCodeCLIAgent.cli_sessions (ClaudeCodeCLIAgent.after r') !! sid = Some cs' /\
         ClaudeCodeCLIAgent.command r
         = ClaudeCodeCLIAgent.command_head a ++ ClaudeCodeCLIAgent.stored_args cs'
           ++ ClaudeCodeCLIAgent.command_tail cs (ClaudeCodeCLIAgent.getcwd w) message).
Proof.
  induction turns as [|[w0 m0] rest IH]; intros Q a cs k Hm Hcs Hk HQ Hfin i w message r Hi Hr.
  { destruct i; discriminate. }
  simpl in Hr, Hfin. apply Forall_cons in Hfin as [Hfin0 Hfin].
  destruct (cli_execute_finished w0 sid m0 a cs Hm Hcs) as (Hcmd & Hbase & Hpath & Hafter).
  destruct i as [|i].
  - simpl in Hi, Hr. inversion Hi; subst w0 m0. inversion Hr; subst r.
    rewrite Hcmd, build_command_shape.
    split; [|split; [|split; [reflexivity | discriminate]]].
    + destruct (continuation_args_cases cs) as [[Hle ->]|[Hpos _]]; [reflexivity | lia].
    + destruct (continuation_args_cases cs)
        as [[Hle ->]|[Hpos [[-> _]|(tok & Htok & Hne & ->)]]].
      * lia.
      * now left.
      * intros _. right. exists tok. split; [|reflexivity]. left. now apply HQ.
  - simpl in Hi, Hr.
    destruct (Hafter Hfin0) as (cs' & Hcs' & Hturns & Hwd & Htok).
    set (r0 := ClaudeCodeCLIAgent.execute_command w0 sid m0 a) in *.
    set (a' := ClaudeCodeCLIAgent.after r0) in *.
    set (Q' := fun tok => Q tok \/
                 exists line, In line (ClaudeCodeCLIAgent.stdout_lines w0) /\
                   ClaudeCodeCLIAgent._extract_claude_session_id line = Some tok).
    assert (Hhead : ClaudeCodeCLIAgent.command_head a' = ClaudeCodeCLIAgent.command_head a).
    { unfold ClaudeCodeCLIAgent.command_head. now rewrite Hbase, Hpath. }
    assert (Htail : forall g m, ClaudeCodeCLIAgent.command_tail cs' g m
                                = ClaudeCodeCLIAgent.command_tail cs g m).
    { intros g m. unfold ClaudeCodeCLIAgent.command_tail. now rewrite Hwd. }
    assert (HQ' : forall tok, ClaudeCodeCLIAgent.claude_session_id cs' = Some tok ->
                              tok <> "" /\ Q' tok).
    { intros tok Hsome. destruct Htok as [Hsame|(line & tok' & Hin & Hx & Hne & Hnew)].
      - rewrite Hsame in Hsome. destruct (HQ tok Hsome). split; [assumption | now left].
      - rewrite Hnew in Hsome. inversion Hsome; subst tok'.
        split; [assumption|]. right. eauto. }
    destruct (IH Q' a' cs' (S k)) with (i := i) (w := w) (message := message) (r := r)
      as (_ & Hlater & Hexact & Hprev); try assumption.
    + now rewrite Hbase.
    + rewrite Hturns, Hk. lia.
    + rewrite Hhead in Hlater, Hexact, Hprev.
      split; [lia|]. split; [|split; [discriminate|]].
      * intros _. rewrite Htail in Hlater.
        destruct Hlater as [Hcont|(tok & Hfrom & Hres)]; [lia | now left |].
        right. exists tok. split; [|exact Hres].
        destruct Hfrom as [[HQt|(line & Hin & Hx)]|(j & wj & mj & line & Hj & Hnth & Hin & Hx)].
        -- now left.
        -- right. exists 0, w0, m0, line. repeat split; auto. lia.
        -- right. exists (S j), wj, mj, line. repeat split; auto. lia.
      * intros i' r' Heq Hr'. inversion Heq; subst i'. destruct i as [|i''].
        -- simpl in Hr'. inversion Hr'; subst r'. exists cs'. split; [exact Hcs'|].
           rewrite (Hexact eq_refl), Htail. f_equal. f_equal.
           destruct (continuation_args_cases cs')
             as [[Hle _]|[_ [[-> [Hn|He]]|(tok & Htk & _ & ->)]]].
           ++ lia.
           ++ unfold ClaudeCodeCLIAgent.stored_args. now rewrite Hn.
           ++ destruct (HQ' "" He) as [Hne _]. congruence.
           ++ unfold ClaudeCodeCLIAgent.stored_args. now rewrite Htk.
        -- simpl in Hr'. destruct (Hprev i'' r' eq_refl Hr') as (cs'' & Hl & Hc).
           exists cs''. split; [exact Hl|]. now rewrite Hc, Htail.
Qed.

(** Turns whose event streams are read to their end.  A session of the CLI
    agent is run turn after turn from the state [create_session] leaves it
    in (no turn counted, no token).  The command of the first turn is the
    executable, [-p], the optional output format, the optional [--cwd] pair
    and the message, with no continuation argument.  The command of every
    later turn has, at the same place, either [--continue] or [--resume]
    followed by a token that the extraction found in a stdout line of an
    earlier turn: [--resume] with the stored token when the turn before left
    one stored, [--continue] when it left none. *)
Theorem cli_continuation_flags
    (turns : list (ClaudeCodeCLIAgent.World * string)) (sid : string)
    (a : ClaudeCodeCLIAgent.t) (cs : ClaudeCodeCLIAgent.ClaudeCLISession) :
  PyDict.mem sid (BaseAgent.sessions (ClaudeCodeCLIAgent.base a)) = true ->
  ClaudeCodeCLIAgent.cli_sessions a !! sid = Some cs ->
  ClaudeCodeCLIAgent.conversation_turns cs = 0%Z ->
  ClaudeCodeCLIAgent.claude_session_id cs = None ->
  Forall (fun r => ClaudeCodeCLIAgent.status r = ClaudeCodeCLIAgent.Finished)
         (ClaudeCodeCLIAgent.run_turns turns sid a) ->
  forall i w message r,
    nth_error turns i = Some (w, message) ->
    nth_error (ClaudeCodeCLIAgent.run_turns turns sid a) i = Some r ->
    (i = 0 ->
     ClaudeCodeCLIAgent.command r
     = ClaudeCodeCLIAgent.command_head a
       ++ ClaudeCodeCLIAgent.command_tail cs (ClaudeCodeCLIAgent.getcwd w) message) /\
    (0 < i ->
     ClaudeCodeCLIAgent.command r
     = ClaudeCodeCLIAgent.command_head a ++ ["--continue"]
       ++ ClaudeCodeCLIAgent.command_tail cs (ClaudeCodeCLIAgent.getcwd w) message \/
     exists tok j wj mj line,
       j < i /\ nth_error turns j = Some (wj, mj) /\
       In line (ClaudeCodeCLIAgent.stdout_lines wj) /\
       ClaudeCodeCLIAgent._extract_claude_session_id line = Some tok /\
       ClaudeCodeCLIAgent.command r
       = ClaudeCodeCLIAgent.command_head a ++ ["--resume"; tok]
         ++ ClaudeCodeCLIAgent.command_tail cs (ClaudeCodeCLIAgent.getcwd w) message) /\
    (forall i' r',
       i = S i' ->
       nth_error (ClaudeCodeCLIAgent.run_turns turns sid a) i' = Some r' ->
       exists cs',
         ClaudeCodeCLIAgent.cli_sessions (ClaudeCodeCLIAgent.after r') !! sid = Some cs' /\
         ClaudeCodeCLIAgent.command r
         = ClaudeCodeCLIAgent.command_head a ++ ClaudeCodeCLIAgent.stored_args cs'
           ++ ClaudeCodeCLIAgent.command_tail cs (ClaudeCodeCLIAgent.getcwd w) message).
Proof.
  intros Hm Hcs Hk Hnone Hfin i w message r Hi Hr.
  destruct (run_turns_commands sid turns (fun _ => False) a cs 0 Hm Hcs Hk)
    with (i := i) (w := w) (message := message) (r := r)
    as (Hfirst & Hlater & _ & Hprev); try assumption.
  - intros tok Hsome. congruence.
  - split; [exact Hfirst|]. split; [|exact Hprev]. intros Hpos.
    destruct (Hlater Hpos) as [Hcont|(tok & [[]|(j & wj & mj & line & H1 & H2 & H3 & H4)] & Hres)];
      [now left|].
    right. exists tok, j, wj, mj, line. auto.
Qed.

Lemma cli_create_session_fresh e user wd a sid fx a' :
  ClaudeCodeCLIAgent.create_session e user wd a = (Ok sid, fx, a') ->
  exists cs,
    ClaudeCodeCLIAgent.cli_sessions a' !! sid = Some cs /\
    ClaudeCodeCLIAgent.conversation_turns cs = 0%Z /\
    ClaudeCodeCLIAgent.claude_session_id cs = None.
Proof.
  unfold ClaudeCodeCLIAgent.create_session.
  destruct (@BaseAgent.create_session ClaudeCodeCLIAgent.t
              ClaudeCodeCLIAgent.CLI_Self e user wd a)
    as [[[sid0|ex] fx0] a0];
    intros Heq; inversion Heq; subst.
  eexists. simpl. rewrite lookup_insert_eq. repeat split.
Qed.

Lemma cli_continuation_flags_witness :
  ClaudeCodeCLIAgent.command
    (ClaudeCodeCLIAgent.execute_command (Sample.cli_world ∅ []) "s1" "second"
       (ClaudeCodeCLIAgent.after
          (ClaudeCodeCLIAgent.execute_command
             (Sample.cli_world ∅ [Sample.uuid_line]) "s1" "first" Sample.cli_agent)))
  = ["claude"; "-p"; "--continue"; "second"] \/
  exists tok j wj mj line,
    j < 1 /\
    nth_error [(Sample.cli_world ∅ [Sample.uuid_line], "first");
               (Sample.cli_world ∅ [], "second")] j = Some (wj, mj) /\
    In line (ClaudeCodeCLIAgent.stdout_lines wj) /\
    ClaudeCodeCLIAgent._extract_claude_session_id line = Some tok /\
    ClaudeCodeCLIAgent.command
      (ClaudeCodeCLIAgent.execute_command (Sample.cli_world ∅ []) "s1" "second"
         (ClaudeCodeCLIAgent.after
            (ClaudeCodeCLIAgent.execute_command
               (Sample.cli_world ∅ [Sample.uuid_line]) "s1" "first" Sample.cli_agent)))
    = ["claude"; "-p"; "--resume"; tok; "second"].
Proof.
  refine (proj1 (proj2 (cli_continuation_flags
                   [(Sample.cli_world ∅ [Sample.uuid_line], "first");
                    (Sample.cli_world ∅ [], "second")]
                   "s1" Sample.cli_agent
                   {| ClaudeCodeCLIAgent.session_id := "s1";
                      ClaudeCodeCLIAgent.claude_session_id := None;
                      ClaudeCodeCLIAgent.working_directory := "/srv";
                      ClaudeCodeCLIAgent.conversation_turns := 0;
                      ClaudeCodeCLIAgent.last_command := None |}
                   _ _ _ _ _ 1 (Sample.cli_world ∅ []) "second" _ _ _)) _).
  - reflexivity.
  - reflexivity.
  - reflexivity.
  - reflexivity.
  - vm_compute. repeat constructor.
  - reflexivity.
  - reflexivity.
  - lia.
Defined.

(** Two turns of the sample session: without a token in the output the
    second command continues the latest conversation, with one it resumes
    that conversation. *)
Example cli_two_turns :
  map ClaudeCodeCLIAgent.command
    (ClaudeCodeCLIAgent.run_turns
       [(Sample.cli_world ∅ ["hello"], "first"); (Sample.cli_world ∅ [], "second")]
       "s1" Sample.cli_agent)
  = [["claude"; "-p"; "first"]; ["claude"; "-p"; "--continue"; "second"]] /\
  map ClaudeCodeCLIAgent.command
    (ClaudeCodeCLIAgent.run_turns
       [(Sample.cli_world ∅ [Sample.uuid_line], "first");
        (Sample.cli_world ∅ [], "second")]
       "s1" Sample.cli_agent)
  = [["claude"; "-p"; "first"];
     ["claude"; "-p"; "--resume"; "123e4567-e89b-12d3-a456-426614174000"; "second"]].
Proof. vm_compute. split; reflexivity. Qed.

Lemma token_after_all ts lines : forall token n,
  length lines <= n ->
  ClaudeCodeCLIAgent.token_after lines token n
  = (ClaudeCodeCLIAgent.stream_stdout ts lines token).2.
Proof.
  induction lines as [|text rest IH]; intros token n Hn; [reflexivity|].
  simpl in Hn. destruct n as [|n]; [lia|]. simpl.
  destruct (bool_decide (text = "")).
  - apply IH. lia.
  - rewrite (IH _ n) by lia. unfold ClaudeCodeCLIAgent.scan_line.
    destruct (ClaudeCodeCLIAgent.stream_stdout ts rest _) as [evs final].
    reflexivity.
Qed.

(** Whatever event the caller leaves at, a turn that did not run to its end
    is not counted and its message is not remembered. *)
Lemma left_turn_is_not_counted stop w sid message a cs :
  ClaudeCodeCLIAgent.cli_sessions a !! sid = Some cs ->
  let r := ClaudeCodeCLIAgent.execute_command_until stop w sid message a in
  ClaudeCodeCLIAgent.exhausted r = false ->
  exists cs',
    ClaudeCodeCLIAgent.cli_sessions (ClaudeCodeCLIAgent.partial_after r) !! sid
    = Some cs' /\
    ClaudeCodeCLIAgent.conversation_turns cs' = ClaudeCodeCLIAgent.conversation_turns cs /\
    ClaudeCodeCLIAgent.last_command cs' = ClaudeCodeCLIAgent.last_command cs.
Proof.
  intros Hcs r. subst r. unfold ClaudeCodeCLIAgent.execute_command_until.
  destruct (ClaudeCodeCLIAgent.taken_until stop _) as [evs|].
  - rewrite Hcs.
    destruct (PyDict.mem sid (BaseAgent.sessions (ClaudeCodeCLIAgent.base a)));
      [|intros _; exists cs; auto].
    destruct (1 <? length evs)%nat; simpl; [|intros _; exists cs; auto].
    destruct (ClaudeCodeCLIAgent.spawn w); intros _; [|exists cs; auto].
    eexists. simpl. rewrite lookup_insert_eq. auto.
  - unfold ClaudeCodeCLIAgent.execute_command. rewrite Hcs.
    destruct (PyDict.mem sid (BaseAgent.sessions (ClaudeCodeCLIAgent.base a)));
      [|simpl; discriminate].
    destruct (ClaudeCodeCLIAgent._execute_claude_cli _ _ _) as [[[evs fx] token] []];
      simpl; [discriminate|].
    intros _. eexists. rewrite lookup_insert_eq. auto.
Qed.

(** C7 fails where the caller leaves the event stream at the "completion"
    event, as the repository's continuity test does: it has then received
    every event of the turn, the child has exited with status 0, yet the
    turn is not counted, because lines 116-117 lie behind the last [yield].
    The command of the next turn carries neither [--continue] nor, when the
    output held a session id, [--resume]; had the stream been read to its
    end, it would carry [--continue]. *)
Theorem turn_left_at_completion_is_not_counted :
  let full := ClaudeCodeCLIAgent.execute_command
                (Sample.cli_world ∅ ["hello"]) "s1" "first" Sample.cli_agent in
  let first := ClaudeCodeCLIAgent.execute_command_until Sample.continuity_test_stop
                 (Sample.cli_world ∅ ["hello"]) "s1" "first" Sample.cli_agent in
  let first_with_id :=
    ClaudeCodeCLIAgent.execute_command_until Sample.continuity_test_stop
      (Sample.cli_world ∅ [Sample.uuid_line]) "s1" "first" Sample.cli_agent in
  ClaudeCodeCLIAgent.taken first = ClaudeCodeCLIAgent.events full /\
  ClaudeCodeCLIAgent.exhausted first = false /\
  PyDict.get "type" (List.last (ClaudeCodeCLIAgent.taken first) [])
  = Some (VStr "completion") /\
  PyDict.get "return_code" (List.last (ClaudeCodeCLIAgent.taken first) [])
  = Some (VInt 0) /\
  (exists cs,
     ClaudeCodeCLIAgent.cli_sessions (ClaudeCodeCLIAgent.partial_after first) !! "s1"
     = Some cs /\
     ClaudeCodeCLIAgent.conversation_turns cs = 0%Z /\
     ClaudeCodeCLIAgent.last_command cs = None) /\
  ClaudeCodeCLIAgent.command
    (ClaudeCodeCLIAgent.execute_command (Sample.cli_world ∅ []) "s1" "second"
       (ClaudeCodeCLIAgent.partial_after first))
  = ["claude"; "-p"; "second"] /\
  ClaudeCodeCLIAgent.command
    (ClaudeCodeCLIAgent.execute_command (Sample.cli_world ∅ []) "s1" "second"
       (ClaudeCodeCLIAgent.after full))
  = ["claude"; "-p"; "--continue"; "second"] /\
  (exists cs,
     ClaudeCodeCLIAgent.cli_sessions
       (ClaudeCodeCLIAgent.partial_after first_with_id) !! "s1" = Some cs /\
     ClaudeCodeCLIAgent.claude_session_id cs
     = Some "123e4567-e89b-12d3-a456-426614174000") /\
  ClaudeCodeCLIAgent.command
    (ClaudeCodeCLIAgent.execute_command (Sample.cli_world ∅ []) "s1" "second"
       (ClaudeCodeCLIAgent.partial_after first_with_id))
  = ["claude"; "-p"; "second"].
Proof.
  cbv zeta. split; [vm_compute; reflexivity|]. split; [vm_compute; reflexivity|].
  split; [vm_compute; reflexivity|]. split; [vm_compute; reflexivity|].
  split; [eexists; split; [vm_compute; reflexivity|split; reflexivity]|].
  split; [vm_compute; reflexivity|]. split; [vm_compute; reflexivity|].
  split; [eexists; split; [vm_compute; reflexivity|reflexivity]|].
  vm_compute. reflexivity.
Qed.

(** ** The environment of spawned children *)









(** ** Session bookkeeping: frame, invariants and round trips *)

Lemma get_del_Some {V} (k k' : string) (v : V) d :
  List.NoDup (PyDict.keys d) ->
  PyDict.get k (PyDict.del k' d) = Some v -> PyDict.get k d = Some v.
Proof.
  intros Hnd Hg. destruct (decide (k' = k)) as [->|Hne].
  - rewrite get_del_eq in Hg by done. discriminate.
  - rewrite get_del_ne in Hg by done. done.
Qed.

Lemma filter_values_del_le (p : Session.t -> bool) k (d : list (string * Session.t)) :
  length (List.filter p (PyDict.values (PyDict.del k d)))
  <= length (List.filter p (PyDict.values d)).
Proof.
  induction d as [|[x y] d IH]; simpl; [lia|].
  destruct (decide (k = x)); simpl; destruct (p y); simpl; lia.
Qed.

Lemma filter_values_snoc_ne user u (d : list (string * Session.t)) (k : string) s :
  Session.user_id s = user -> u <> user ->
  List.filter (fun s => bool_decide (Session.user_id s = u))
              (PyDict.values (d ++ [(k, s)]))
  = List.filter (fun s => bool_decide (Session.user_id s = u)) (PyDict.values d).
Proof.
  intros Hs Hu. unfold PyDict.values. rewrite List.map_app, List.filter_app. simpl.
  rewrite bool_decide_eq_false_2 by congruence. apply app_nil_r.
Qed.

(** X1: a created session is reported by [get_session_info] with the data
    of the call. *)
Theorem created_session_info {A : Type} `{LawfulSelf A}
    (e : BaseAgent.CreateEnv BaseAgent.TermEnv) (user : string)
    (wd : option string) (a : A) sid fx a' (alive : bool) :
  BaseAgent.create_session e user wd a = (Ok sid, fx, a') ->
  sid = BaseAgent.uuid4 e /\
  exists info,
    BaseAgent.get_session_info alive sid (BaseAgent.base a') = Some info /\
    BaseAgent.info_id info = sid /\
    BaseAgent.info_user_id info = user /\
    BaseAgent.info_agent_type info
    = AgentTypeValue.value (AgentConfig.agent_type (BaseAgent.config (BaseAgent.base a))) /\
    BaseAgent.info_created_at info = BaseAgent.now e /\
    BaseAgent.info_is_running info = false /\
    (forall d, wd = Some d -> BaseAgent.info_working_directory info = d) /\
    (forall c, wd = None ->
       AgentConfig.working_directory (BaseAgent.config (BaseAgent.base a)) = Some c ->
       c <> "" -> BaseAgent.info_working_directory info = c) /\
    (wd = None ->
     AgentConfig.working_directory (BaseAgent.config (BaseAgent.base a)) = None \/
     AgentConfig.working_directory (BaseAgent.config (BaseAgent.base a)) = Some "" ->
     BaseAgent.info_working_directory info = BaseAgent.getcwd e).
Proof.
  intros Hc. unfold BaseAgent.create_session in Hc.
  assert (Hshape : exists a0,
    BaseAgent.config (BaseAgent.base a0) = BaseAgent.config (BaseAgent.base a) /\
    sid = BaseAgent.uuid4 e /\
    a' = BaseAgent.with_base
           (BaseAgent.set_sessions
              (PyDict.set (BaseAgent.uuid4 e)
                 (Session.mk (BaseAgent.uuid4 e) user
                    (AgentConfig.agent_type (BaseAgent.config (BaseAgent.base a0)))
                    None (BaseAgent.now e)
                    match wd with
                    | Some d => d
                    | None => BaseAgent.str_or
                                (AgentConfig.working_directory
                                   (BaseAgent.config (BaseAgent.base a0)))
                                (BaseAgent.getcwd e)
                    end (BaseAgent.config (BaseAgent.base a0)))
                 (BaseAgent.sessions (BaseAgent.base a0)))
              (BaseAgent.base a0)) a0).
  { destruct (_ <=? _)%Z.
    - destruct (BaseAgent.py_min _) as [oldest|]; [|discriminate].
      destruct (BaseAgent.self_terminate_session _ _ a) as [[ok fx0] a0] eqn:Ht.
      exists a0. split.
      + pose proof (terminate_config (BaseAgent.evict e) (Session.id oldest) a) as Hcfg.
        rewrite Ht in Hcfg. exact Hcfg.
      + inversion Hc; subst. auto.
    - exists a. inversion Hc; subst. auto. }
  destruct Hshape as (a0 & Hcfg & -> & ->). split; [done|].
  unfold BaseAgent.get_session_info. rewrite base_with_base. simpl.
  rewrite get_set_eq. eexists. split; [reflexivity|]. simpl. rewrite Hcfg.
  repeat split; try done.
  - intros d ->. done.
  - intros c -> Hw Hne. rewrite Hw. simpl. rewrite bool_decide_eq_false_2 by done. done.
  - intros -> [Hw|Hw]; rewrite Hw; done.
Qed.

Lemma created_session_info_witness :
  exists info,
    BaseAgent.get_session_info true "s1"
      (@BaseAgent.create_session BaseAgent.t BaseAgent.BaseAgent_Self (Sample.env "s1" 10) "u" None
         (BaseAgent.init (Sample.cfg 5))).2 = Some info /\
    BaseAgent.info_working_directory info = "/srv" /\
    BaseAgent.info_is_running info = false.
Proof.
  destruct (@created_session_info BaseAgent.t BaseAgent.BaseAgent_Self BaseAgent_Lawful
              (Sample.env "s1" 10) "u" None (BaseAgent.init (Sample.cfg 5)) "s1" []
              (@BaseAgent.create_session BaseAgent.t BaseAgent.BaseAgent_Self (Sample.env "s1" 10) "u" None
                 (BaseAgent.init (Sample.cfg 5))).2 true eq_refl)
    as (_ & info & Hi & _ & _ & _ & _ & Hr & _ & _ & Hw).
  exists info. split; [exact Hi|]. split; [|exact Hr].
  apply Hw; [reflexivity|left; reflexivity].
Defined.

(** X2: creating a session leaves every session of another user, and every
    surviving session, exactly as it was. *)
Theorem create_session_frame {A : Type} `{LawfulSelf A}
    (e : BaseAgent.CreateEnv BaseAgent.TermEnv) (user : string)
    (wd : option string) (a : A) :
  wf_sessions (BaseAgent.sessions (BaseAgent.base a)) ->
  PyDict.get (BaseAgent.uuid4 e) (BaseAgent.sessions (BaseAgent.base a)) = None ->
  let a' := (BaseAgent.create_session e user wd a).2 in
  wf_sessions (BaseAgent.sessions (BaseAgent.base a')) /\
  (forall k s, PyDict.get k (BaseAgent.sessions (BaseAgent.base a)) = Some s ->
               Session.user_id s <> user ->
               PyDict.get k (BaseAgent.sessions (BaseAgent.base a')) = Some s) /\
  (forall k s, PyDict.get k (BaseAgent.sessions (BaseAgent.base a')) = Some s ->
               k <> BaseAgent.uuid4 e ->
               PyDict.get k (BaseAgent.sessions (BaseAgent.base a)) = Some s).
Proof.
  intros Hwf Hfresh a'.
  destruct (create_session_cases e user wd a Hwf Hfresh) as [_ Hcases].
  fold a' in Hcases.
  destruct Hcases as [(_ & _ & s & Hd & Hid & _)|[(_ & _ & _ & Ha)|
                      (_ & _ & oldest & s & Hmin & Hd & Hid & _)]].
  - rewrite Hd. split; [apply wf_sessions_snoc; done|]. split.
    + intros k s0 Hg _. rewrite get_app, Hg. done.
    + intros k s0 Hg Hk. rewrite get_app in Hg.
      destruct (PyDict.get k _); [done|]. simpl in Hg.
      destruct (decide (k = BaseAgent.uuid4 e)); [done|discriminate].
  - rewrite Ha. auto.
  - apply py_min_spec in Hmin as [Hin _].
    assert (Huo : Session.user_id oldest = user).
    { unfold BaseAgent.user_sessions in Hin. apply List.filter_In in Hin as [_ Hb].
      apply bool_decide_eq_true in Hb. done. }
    assert (Hgo : PyDict.get (Session.id oldest)
                    (BaseAgent.sessions (BaseAgent.base a)) = Some oldest).
    { apply wf_sessions_get; [done|].
      unfold BaseAgent.user_sessions in Hin. apply List.filter_In in Hin as [Hi _]. done. }
    rewrite Hd. split.
    { apply wf_sessions_snoc; [apply wf_sessions_del; done| |done].
      destruct (decide (Session.id oldest = BaseAgent.uuid4 e)) as [Heq|Hne].
      - rewrite <- Heq. apply get_del_eq. apply Hwf.
      - rewrite get_del_ne by done. done. }
    split.
    + intros k s0 Hg Hu. rewrite get_app.
      assert (Session.id oldest <> k) by (intros <-; congruence).
      rewrite get_del_ne by done. rewrite Hg. done.
    + intros k s0 Hg Hk. rewrite get_app in Hg.
      destruct (PyDict.get k (PyDict.del _ _)) eqn:Hgd.
      * inversion Hg; subst. eapply get_del_Some; [apply Hwf|done].
      * simpl in Hg. destruct (decide (k = BaseAgent.uuid4 e)); [done|discriminate].
Qed.

Lemma create_session_frame_witness :
  PyDict.get "s1"
    (BaseAgent.sessions
       (@BaseAgent.create_session BaseAgent.t BaseAgent.BaseAgent_Self (Sample.env "s2" 20) "v" None
          Sample.one_shot_agent).2)
  = Some (Sample.session "s1" "u" 10).
Proof.
  apply (@create_session_frame BaseAgent.t BaseAgent.BaseAgent_Self BaseAgent_Lawful
           (Sample.env "s2" 20) "v" None Sample.one_shot_agent).
  - split; [repeat constructor; simpl; tauto|]. repeat constructor.
  - reflexivity.
  - reflexivity.
  - simpl. congruence.
Defined.

(** X3: no user ever holds more sessions than the cap: the bound on every
    user's session count is kept by [create_session] and by
    [terminate_session]. *)
Theorem session_cap_invariant {A : Type} `{LawfulSelf A} (N : nat) (a : A) :
  AgentConfig.max_sessions (BaseAgent.config (BaseAgent.base a)) = Z.of_nat N ->
  wf_sessions (BaseAgent.sessions (BaseAgent.base a)) ->
  (forall u, length (BaseAgent.user_sessions u (BaseAgent.base a)) <= N) ->
  (forall e user wd u,
     PyDict.get (BaseAgent.uuid4 e) (BaseAgent.sessions (BaseAgent.base a)) = None ->
     length (BaseAgent.user_sessions u
               (BaseAgent.base (BaseAgent.create_session e user wd a).2)) <= N) /\
  (forall o sid u,
     length (BaseAgent.user_sessions u
               (BaseAgent.base (BaseAgent.self_terminate_session o sid a).2)) <= N).
Proof.
  intros Hcap Hwf Hinv. split.
  - intros e user wd u Hfresh.
    destruct (decide (u = user)) as [->|Hu].
    + destruct (create_session_count e user wd a N Hcap Hwf Hfresh (Hinv user))
        as (_ & _ & _ & Hlen).
      rewrite Hlen. lia.
    + destruct (create_session_cases e user wd a Hwf Hfresh) as [_ Hcases].
      specialize (Hinv u). unfold BaseAgent.user_sessions in *.
      destruct Hcases as [(_ & _ & s & Hd & _ & Hus & _)|[(_ & _ & _ & Ha)|
                          (_ & _ & oldest & s & _ & Hd & _ & Hus & _)]].
      * rewrite Hd, (filter_values_snoc_ne user u) by done. done.
      * rewrite Ha. done.
      * rewrite Hd, (filter_values_snoc_ne user u) by done.
        etransitivity; [apply filter_values_del_le|done].
  - intros o sid u. unfold BaseAgent.user_sessions. rewrite terminate_sessions.
    etransitivity; [apply filter_values_del_le|apply Hinv].
Qed.

Lemma session_cap_invariant_witness :
  length (BaseAgent.user_sessions "u"
            (@BaseAgent.create_session BaseAgent.t BaseAgent.BaseAgent_Self
               (Sample.env "s2" 20) "u" None
               (BaseAgent.mk (Sample.cfg 1) [("s1", Sample.session "s1" "u" 10)])).2)
  <= 1.
Proof.
  apply (@session_cap_invariant BaseAgent.t BaseAgent.BaseAgent_Self BaseAgent_Lawful 1
           (BaseAgent.mk (Sample.cfg 1) [("s1", Sample.session "s1" "u" 10)])).
  - reflexivity.
  - split; [repeat constructor; simpl; tauto|]. repeat constructor.
  - intros u. unfold BaseAgent.user_sessions. simpl.
    destruct (bool_decide ("u" = u)); simpl; lia.
  - reflexivity.
Defined.

(** X4: below the cap, terminating the session just created gives back the
    agent as it was, returns [True] and calls nothing in the operating
    system. *)
Theorem create_then_terminate_restores
    (e : BaseAgent.CreateEnv BaseAgent.TermOracle) (o : BaseAgent.TermOracle)
    (user : string) (wd : option string) (a : BaseAgent.t) :
  PyDict.get (BaseAgent.uuid4 e) (BaseAgent.sessions a) = None ->
  (Z.of_nat (length (BaseAgent.user_sessions user a))
   < AgentConfig.max_sessions (BaseAgent.config a))%Z ->
  let out := @BaseAgent.create_session BaseAgent.t BaseAgent.BaseAgent_Self
               e user wd a in
  out.1 = (Ok (BaseAgent.uuid4 e), []) /\
  BaseAgent.terminate_session o (BaseAgent.uuid4 e) out.2 = (true, [], a).
Proof.
  intros Hfresh Hlt. unfold BaseAgent.create_session. simpl.
  destruct (_ <=? _)%Z eqn:Hle; [apply Z.leb_le in Hle; lia|]. simpl.
  split; [done|]. unfold BaseAgent.terminate_session. simpl.
  rewrite get_set_eq. simpl. rewrite set_fresh by done.
  rewrite del_snoc_fresh by done. destruct a; done.
Qed.

Lemma create_then_terminate_restores_witness :
  BaseAgent.terminate_session Sample.quiet "s2"
    (@BaseAgent.create_session BaseAgent.t BaseAgent.BaseAgent_Self
       (Sample.env "s2" 20) "u" None Sample.one_shot_agent).2
  = (true, [], Sample.one_shot_agent).
Proof.
  apply (create_then_terminate_restores (Sample.env "s2" 20) Sample.quiet "u" None
           Sample.one_shot_agent); [reflexivity|vm_compute; reflexivity].
Defined.

(** X5: [terminate_session] answers whether the id was known, touches no
    other session, and signals only the process of the session it
    removes. *)
Theorem terminate_session_frame (o : BaseAgent.TermOracle) (sid : string)
    (a : BaseAgent.t) :
  let r := BaseAgent.terminate_session o sid a in
  r.1.1 = PyDict.mem sid (BaseAgent.sessions a) /\
  BaseAgent.config r.2 = BaseAgent.config a /\
  (forall sid', sid' <> sid ->
     PyDict.get sid' (BaseAgent.sessions r.2) = PyDict.get sid' (BaseAgent.sessions a)) /\
  (forall x, In x r.1.2 ->
     exists s p, PyDict.get sid (BaseAgent.sessions a) = Some s /\
                 Session.process s = Some p /\
                 BaseAgent.alive_before o = true /\
                 (x = Terminate p \/ x = Kill p /\ In (Terminate p) r.1.2)) /\
  (PyDict.get sid (BaseAgent.sessions a) = None -> r = (false, [], a)).
Proof.
  unfold BaseAgent.terminate_session, PyDict.mem.
  destruct (PyDict.get sid (BaseAgent.sessions a)) as [s|] eqn:Hg; simpl.
  - repeat split; try done.
    + intros sid' Hne. apply get_del_ne. congruence.
    + intros x Hx. destruct (Session.process s) as [p|] eqn:Hp; [|done].
      destruct (BaseAgent.alive_before o); [|done].
      exists s, p. split; [done|]. split; [done|]. split; [done|].
      unfold BaseAgent.stop_process in *.
      destruct (BaseAgent.terminate_raises o); [done|].
      destruct (BaseAgent.alive_after o); [destruct (BaseAgent.kill_raises o)|];
        simpl in *; intuition (subst; auto).
  - repeat split; try done.
Qed.

Lemma terminate_session_frame_witness :
  BaseAgent.terminate_session Sample.quiet "s9" Sample.one_shot_agent
  = (false, [], Sample.one_shot_agent).
Proof.
  apply (terminate_session_frame Sample.quiet "s9" Sample.one_shot_agent).
  reflexivity.
Defined.

Lemma wf_sessions_ids d :
  wf_sessions d -> map Session.id (PyDict.values d) = PyDict.keys d.
Proof.
  intros [_ Hf]. unfold PyDict.values, PyDict.keys.
  induction Hf as [|[k s] d Hks _ IH]; simpl; [done|]. simpl in Hks. congruence.
Qed.

Lemma list_sessions_listed alive (p : Session.t -> bool) (a : BaseAgent.t) :
  forall l : list Session.t,
  (forall s, In s l -> PyDict.get (Session.id s) (BaseAgent.sessions a) = Some s) ->
  let f := fun session : Session.t =>
    if p session
    then match BaseAgent.get_session_info (alive (Session.id session))
                 (Session.id session) a with
         | Some info => [info]
         | None => []
         end
    else [] in
  map BaseAgent.info_id (flat_map f l) = map Session.id (List.filter p l) /\
  map BaseAgent.info_user_id (flat_map f l) = map Session.user_id (List.filter p l).
Proof.
  induction l as [|s l IH]; intros Hget f; [done|].
  destruct IH as [IH1 IH2]; [intros; apply Hget; right; done|].
  simpl. unfold f at 1 3. destruct (p s); simpl; [|done].
  unfold BaseAgent.get_session_info. rewrite Hget by (left; done). simpl.
  split; f_equal; done.
Qed.

(** X6: [list_sessions] for a user lists exactly that user's sessions, each
    once and in creation order, and [total] is their number; without a
    user it lists every session of the agent. *)
Theorem list_sessions_lists_user_sessions (alive : string -> bool) (u : string)
    (a : BaseAgent.t) :
  wf_sessions (BaseAgent.sessions a) ->
  let r := BaseAgent.list_sessions alive (Some u) a in
  map BaseAgent.info_id (BaseAgent.listed r)
  = map Session.id (BaseAgent.user_sessions u a) /\
  Forall (fun info => BaseAgent.info_user_id info = u) (BaseAgent.listed r) /\
  List.NoDup (map BaseAgent.info_id (BaseAgent.listed r)) /\
  BaseAgent.total r = length (BaseAgent.user_sessions u a) /\
  map BaseAgent.info_id (BaseAgent.listed (BaseAgent.list_sessions alive None a))
  = PyDict.keys (BaseAgent.sessions a).
Proof.
  intros Hwf r.
  assert (Hget : forall s, In s (PyDict.values (BaseAgent.sessions a)) ->
            PyDict.get (Session.id s) (BaseAgent.sessions a) = Some s).
  { intros s. apply wf_sessions_get. done. }
  destruct (list_sessions_listed alive
              (fun s => bool_decide (Session.user_id s = u)) a _ Hget) as [Hid Hu].
  destruct (list_sessions_listed alive (fun _ => true) a _ Hget) as [Hall _].
  assert (Hkeys : map Session.id (PyDict.values (BaseAgent.sessions a))
                  = PyDict.keys (BaseAgent.sessions a)).
  { apply wf_sessions_ids. done. }
  assert (Hfil : forall l : list Session.t, List.filter (fun _ => true) l = l).
  { induction l; simpl; congruence. }
  split; [exact Hid|]. split; [|split; [|split]].
  - apply List.Forall_forall. intros info Hin.
    assert (Hin' : In (BaseAgent.info_user_id info)
                      (map Session.user_id (BaseAgent.user_sessions u a))).
    { unfold BaseAgent.user_sessions. rewrite <- Hu. apply in_map. done. }
    apply in_map_iff in Hin' as (s & Hs & Hin'). rewrite <- Hs.
    apply List.filter_In in Hin' as [_ Hb]. apply bool_decide_eq_true in Hb. done.
  - unfold r, BaseAgent.list_sessions. simpl. rewrite Hid.
    assert (Hnd : List.NoDup (map Session.id (PyDict.values (BaseAgent.sessions a)))).
    { rewrite Hkeys. apply Hwf. }
    revert Hnd. generalize (PyDict.values (BaseAgent.sessions a)).
    induction l as [|s l IH]; simpl; [constructor|].
    intros Hnd. apply List.NoDup_cons_iff in Hnd as [Hni Hnd].
    destruct (bool_decide _); [|auto]. simpl. constructor; [|auto].
    intros Hin. apply Hni. apply in_map_iff in Hin as (s' & Hs' & Hin).
    apply in_map_iff. exists s'. split; [done|].
    apply List.filter_In in Hin as [Hin _]. done.
  - unfold r, BaseAgent.list_sessions. simpl.
    rewrite <- (length_map BaseAgent.info_id), Hid, length_map. done.
  - unfold BaseAgent.list_sessions. simpl. rewrite Hall, Hfil. exact Hkeys.
Qed.

Lemma list_sessions_lists_user_sessions_witness :
  map BaseAgent.info_id
    (BaseAgent.listed (BaseAgent.list_sessions (fun _ => true) (Some "u")
                         Sample.one_shot_agent))
  = ["s1"].
Proof.
  apply (list_sessions_lists_user_sessions (fun _ => true) "u" Sample.one_shot_agent).
  split; [repeat constructor; simpl; tauto|]. repeat constructor.
Defined.

(** ** The one-shot execution: what every run has in common *)

Lemma tag_output_session_id sid s ev :
  PyDict.get "session_id" (BaseAgent.tag_output sid s ev) = Some (VStr sid).
Proof.
  unfold BaseAgent.tag_output. rewrite get_set_ne by done. apply get_set_eq.
Qed.

(** The shape of what the loop returns: parsed lines in order, then at
    most the timeout event, which comes with the only signal sent. *)
Lemma output_loop_shape h w p sid s : forall fuel k evs fx,
  BaseAgent.output_loop h w p sid s fuel k = Some (evs, fx) ->
  exists outs,
    (evs = map (BaseAgent.tag_output sid s) outs /\ fx = []) \/
    (evs = map (BaseAgent.tag_output sid s) outs ++ [BaseAgent.timeout_event sid s] /\
     fx = [Terminate p]).
Proof.
  induction fuel as [|fuel IH]; intros k evs fx; [discriminate|].
  rewrite output_loop_S. unfold BaseAgent.loop_pass.
  assert (Hcont : BaseAgent.output_loop h w p sid s fuel (S k) = Some (evs, fx) ->
            exists outs,
              (evs = map (BaseAgent.tag_output sid s) outs /\ fx = []) \/
              (evs = map (BaseAgent.tag_output sid s) outs
                     ++ [BaseAgent.timeout_event sid s] /\ fx = [Terminate p]))
    by apply IH.
  assert (Hnil : Some (@nil Event, @nil OsEffect) = Some (evs, fx) ->
            exists outs,
              (evs = map (BaseAgent.tag_output sid s) outs /\ fx = []) \/
              (evs = map (BaseAgent.tag_output sid s) outs
                     ++ [BaseAgent.timeout_event sid s] /\ fx = [Terminate p])).
  { intros [= <- <-]. exists []. left. done. }
  destruct (_ <? _)%Z.
  { destruct (BaseAgent.timeout_terminate_raises w); [done|].
    intros [= <- <-]. exists []. right. done. }
  destruct (BaseAgent.reads w k) as [[output|e]| |[]|?]; try done.
  destruct (bool_decide _); [done|].
  destruct (BaseAgent.parse_output h _ output) as [parsed|[]]; try done.
  destruct (BaseAgent.output_loop h w p sid s fuel (S k)) as [[evs' fx']|] eqn:Hl;
    [|discriminate].
  intros [= <- <-]. destruct (IH _ _ _ Hl) as [outs [[-> ->]|[-> ->]]].
  - exists (parsed :: outs). left. done.
  - exists (parsed :: outs). right. done.
Qed.

(** X7: every event of an execution names the session it belongs to, even
    where the parsed line had a [session_id] of its own. *)
Theorem execute_events_name_session (h : BaseAgent.Hooks) (w : BaseAgent.World)
    (fuel : nat) (sid message : string) (a : BaseAgent.t) :
  Forall (fun ev => PyDict.get "session_id" ev = Some (VStr sid))
         (BaseAgent.events (BaseAgent.execute_command h w fuel sid message a)).
Proof.
  assert (Hloop : forall p s evs fx,
            BaseAgent.output_loop h w p sid s fuel 0 = Some (evs, fx) ->
            Forall (fun ev => PyDict.get "session_id" ev = Some (VStr sid)) evs).
  { intros p s evs fx Hl. apply output_loop_shape in Hl as [outs [[-> _]|[-> _]]].
    - apply List.Forall_forall. intros ev Hin. apply in_map_iff in Hin as (o & <- & _).
      apply tag_output_session_id.
    - apply Forall_app. split; [|repeat constructor].
      apply List.Forall_forall. intros ev Hin. apply in_map_iff in Hin as (o & <- & _).
      apply tag_output_session_id. }
  unfold BaseAgent.execute_command.
  destruct (PyDict.get sid (BaseAgent.sessions a)) as [s|]; simpl; [|repeat constructor].
  destruct (BaseAgent.prepare_command h message s); simpl; [|repeat constructor].
  destruct (BaseAgent.spawn w) as [p|]; simpl; [|repeat constructor].
  destruct (BaseAgent.output_loop h w p sid s fuel 0) as [[evs fx]|] eqn:Hl; simpl;
    [|constructor].
  specialize (Hloop _ _ _ _ Hl).
  destruct (BaseAgent.wait w) as [rc|]; simpl; [|done].
  destruct (rc =? 0)%Z; simpl; [done|].
  destruct (BaseAgent.stderr_read w); simpl;
    (apply Forall_app; split; [done|repeat constructor]).
Qed.

Lemma execute_events_name_session_witness :
  Forall (fun ev => PyDict.get "session_id" ev = Some (VStr "s1"))
         (BaseAgent.events
            (BaseAgent.execute_command
               (GeminiCLIAgent.hooks (Sample.cfg 5))
               (Sample.printing_world [Sample.assistant_line]) 10 "s1" "hello"
               Sample.one_shot_agent)).
Proof.
  apply (execute_events_name_session (GeminiCLIAgent.hooks (Sample.cfg 5))
           (Sample.printing_world [Sample.assistant_line]) 10 "s1" "hello"
           Sample.one_shot_agent).
Defined.

Lemma set_session_process_keys sid p (a : BaseAgent.t) :
  PyDict.keys (BaseAgent.sessions (BaseAgent.set_session_process sid p a))
  = PyDict.keys (BaseAgent.sessions a) /\
  BaseAgent.config (BaseAgent.set_session_process sid p a) = BaseAgent.config a.
Proof.
  unfold BaseAgent.set_session_process.
  destruct (PyDict.get sid (BaseAgent.sessions a)) as [s|] eqn:Hg; [|done].
  simpl. split; [|done]. eapply keys_set_present. done.
Qed.

(** X8: an execution starts at most one process; its only other call into
    the operating system is one SIGTERM to that process, sent with the
    timeout event; it never sends SIGKILL, and it never adds or removes a
    session. *)
Theorem execute_command_footprint (h : BaseAgent.Hooks) (w : BaseAgent.World)
    (fuel : nat) (sid message : string) (a : BaseAgent.t) :
  let r := BaseAgent.execute_command h w fuel sid message a in
  PyDict.keys (BaseAgent.sessions (BaseAgent.after r))
  = PyDict.keys (BaseAgent.sessions a) /\
  BaseAgent.config (BaseAgent.after r) = BaseAgent.config a /\
  (forall p, ~ In (Kill p) (BaseAgent.effects r)) /\
  (BaseAgent.effects r = [] \/
   exists s p cmd,
     PyDict.get sid (BaseAgent.sessions a) = Some s /\
     BaseAgent.spawn w = Ok p /\
     BaseAgent.prepare_command h message s = Ok cmd /\
     exists env,
       (BaseAgent.effects r = [Spawn p cmd (Session.working_directory s) env] \/
        BaseAgent.effects r
        = [Spawn p cmd (Session.working_directory s) env; Terminate p] /\
        In (BaseAgent.timeout_event sid s) (BaseAgent.events r))).
Proof.
  intros r.
  pose proof (set_session_process_keys sid None a) as [Hk0 Hc0].
  assert (Hrun : forall p, PyDict.keys (BaseAgent.sessions
                     (BaseAgent.set_session_process sid (Some p) a))
                   = PyDict.keys (BaseAgent.sessions a) /\
                   BaseAgent.config (BaseAgent.set_session_process sid (Some p) a)
                   = BaseAgent.config a)
    by (intros; apply set_session_process_keys).
  unfold r, BaseAgent.execute_command.
  destruct (PyDict.get sid (BaseAgent.sessions a)) as [s|] eqn:Hg; simpl;
    [|repeat split; auto].
  destruct (BaseAgent.prepare_command h message s) as [cmd|] eqn:Hp; simpl;
    [|repeat split; auto].
  destruct (BaseAgent.spawn w) as [p|] eqn:Hs; simpl; [|repeat split; auto].
  destruct (Hrun p) as [Hk1 Hc1].
  destruct (BaseAgent.output_loop h w p sid s fuel 0) as [[evs fx]|] eqn:Hl; simpl.
  2:{ repeat split; auto.
      - intros q [Hq|[]]. discriminate.
      - right. exists s, p, cmd. repeat split; auto. eexists. left. done. }
  apply output_loop_shape in Hl as [outs Hshape].
  assert (Hfoot :
    (forall q, ~ In (Kill q)
       (Spawn p cmd (Session.working_directory s)
          match BaseAgent.create_process h with
          | Some mk_env => Some (mk_env (BaseAgent.environ w) (BaseAgent.home w))
          | None => None
          end :: fx)) /\
    forall tail,
    exists env,
      Spawn p cmd (Session.working_directory s)
        match BaseAgent.create_process h with
        | Some mk_env => Some (mk_env (BaseAgent.environ w) (BaseAgent.home w))
        | None => None
        end :: fx = [Spawn p cmd (Session.working_directory s) env] \/
      Spawn p cmd (Session.working_directory s)
        match BaseAgent.create_process h with
        | Some mk_env => Some (mk_env (BaseAgent.environ w) (BaseAgent.home w))
        | None => None
        end :: fx = [Spawn p cmd (Session.working_directory s) env; Terminate p] /\
      In (BaseAgent.timeout_event sid s) (evs ++ tail)).
  { destruct Hshape as [[-> ->]|[-> ->]].
    - split; [intros q [Hq|[]]; discriminate|]. intros tail. eexists. left. done.
    - split; [intros q [Hq|[Hq|[]]]; discriminate|]. intros tail. eexists. right.
      split; [done|]. apply in_app_iff. left. apply in_app_iff. right. left. done. }
  destruct Hfoot as [Hnk Hsh].
  destruct (BaseAgent.wait w) as [rc|]; simpl.
  2:{ repeat split; auto. right. exists s, p, cmd. repeat split; auto.
      specialize (Hsh []). rewrite app_nil_r in Hsh. done. }
  destruct (rc =? 0)%Z; simpl.
  { repeat split; auto. right. exists s, p, cmd. repeat split; auto.
    specialize (Hsh []). rewrite app_nil_r in Hsh. done. }
  destruct (BaseAgent.stderr_read w); simpl;
    (repeat split; auto; right; exists s, p, cmd; repeat split; auto).
Qed.

Lemma execute_command_footprint_witness :
  PyDict.keys (BaseAgent.sessions (BaseAgent.after
    (BaseAgent.execute_command (ClaudeCodeAgent.hooks (Sample.cfg 5) Sample.no_str)
       Sample.silent_world 3002 "s1" "hello" Sample.one_shot_agent)))
  = PyDict.keys (BaseAgent.sessions Sample.one_shot_agent).
Proof.
  apply (execute_command_footprint (ClaudeCodeAgent.hooks (Sample.cfg 5) Sample.no_str)
           Sample.silent_world 3002 "s1" "hello" Sample.one_shot_agent).
Defined.

Lemma loop_pass_continue h w p sid s k r :
  exists r', BaseAgent.loop_pass h w p sid s k (Some r) = Some r'.
Proof.
  unfold BaseAgent.loop_pass. destruct r as [evs fx].
  destruct (_ <? _)%Z.
  { destruct (BaseAgent.timeout_terminate_raises w); eauto. }
  destruct (BaseAgent.reads w k) as [[output|e]| |[]|?]; eauto.
  destruct (bool_decide _); eauto.
  destruct (BaseAgent.parse_output h _ output) as [parsed|[]]; eauto.
Qed.

Lemma output_loop_deadline h w p sid s n : forall k,
  (BaseAgent.timeout_ms < BaseAgent.clock w (k + n))%Z ->
  exists r, BaseAgent.output_loop h w p sid s (S n) k = Some r.
Proof.
  induction n as [|n IH]; intros k Hclock.
  - rewrite Nat.add_0_r in Hclock. simpl. unfold BaseAgent.loop_pass.
    apply Z.ltb_lt in Hclock. rewrite Hclock.
    destruct (BaseAgent.timeout_terminate_raises w); eauto.
  - rewrite output_loop_S. destruct (IH (S k)) as [r Hr].
    { replace (S k + n) with (k + S n) by lia. done. }
    rewrite Hr. apply loop_pass_continue.
Qed.

(** X9: whatever the child prints, the output loop is over by the first
    pass that starts more than 300 seconds after the spawn: from then on
    the run does not depend on how much longer it is observed. *)
Theorem execution_ends_by_deadline (h : BaseAgent.Hooks) (w : BaseAgent.World)
    (sid message : string) (a : BaseAgent.t) (n fuel : nat) :
  (300000 < BaseAgent.clock w n)%Z ->
  n < fuel ->
  let r := BaseAgent.execute_command h w fuel sid message a in
  BaseAgent.status r <> BaseAgent.OutOfFuel /\
  r = BaseAgent.execute_command h w (S n) sid message a.
Proof.
  intros Hclock Hfuel r.
  assert (Hsame : r = BaseAgent.execute_command h w (S n) sid message a).
  { unfold r, BaseAgent.execute_command.
    destruct (PyDict.get sid (BaseAgent.sessions a)) as [s|]; [|done].
    destruct (BaseAgent.prepare_command h message s); [|done].
    destruct (BaseAgent.spawn w) as [p|]; [|done].
    destruct (output_loop_deadline h w p sid s n 0 Hclock) as [res Hres].
    replace fuel with (S n + (fuel - S n)) by lia.
    rewrite (output_loop_more _ _ _ _ _ _ _ _ _ Hres), Hres. done. }
  split; [|done]. rewrite Hsame. unfold BaseAgent.execute_command.
  destruct (PyDict.get sid (BaseAgent.sessions a)) as [s|]; [|done].
  destruct (BaseAgent.prepare_command h message s); [|done].
  destruct (BaseAgent.spawn w) as [p|]; [|done].
  destruct (output_loop_deadline h w p sid s n 0 Hclock) as [[evs fx] Hres].
  rewrite Hres. destruct (BaseAgent.wait w) as [rc|]; [|done].
  destruct (rc =? 0)%Z; [done|]. destruct (BaseAgent.stderr_read w); done.
Qed.

Lemma execution_ends_by_deadline_witness :
  BaseAgent.execute_command (ClaudeCodeAgent.hooks (Sample.cfg 5) Sample.no_str)
    Sample.silent_world 4000 "s1" "hello" Sample.one_shot_agent
  = BaseAgent.execute_command (ClaudeCodeAgent.hooks (Sample.cfg 5) Sample.no_str)
      Sample.silent_world 3002 "s1" "hello" Sample.one_shot_agent.
Proof.
  apply (execution_ends_by_deadline
           (ClaudeCodeAgent.hooks (Sample.cfg 5) Sample.no_str)
           Sample.silent_world "s1" "hello" Sample.one_shot_agent 3001 4000).
  - vm_compute. reflexivity.
  - lia.
Defined.

Lemma output_loop_prints split w p sid s lines : forall k,
  (forall i l, nth_error lines i = Some l ->
     BaseAgent.reads w (k + i) = BaseAgent.RLine (Ok l)) ->
  (forall i, i <= length lines ->
     (BaseAgent.clock w (k + i) <= BaseAgent.timeout_ms)%Z) ->
  BaseAgent.reads w (k + length lines) = BaseAgent.REof ->
  exists evs,
    BaseAgent.output_loop (CustomAgent.hooks split) w p sid s (S (length lines)) k
    = Some (evs, []) /\
    map (PyDict.get "content") evs
    = map (fun l => Some (VStr l))
          (List.filter (fun l => negb (bool_decide (l = ""))) lines) /\
    Forall (fun ev => PyDict.get "type" ev = Some (VStr "text")) evs.
Proof.
  induction lines as [|l lines IH]; intros k Hreads Hclock Heof.
  - simpl in Heof. rewrite Nat.add_0_r in Heof.
    specialize (Hclock 0 (Nat.le_0_l _)). rewrite Nat.add_0_r in Hclock.
    exists []. simpl. unfold BaseAgent.loop_pass.
    destruct (_ <? _)%Z eqn:Hlt; [apply Z.ltb_lt in Hlt; lia|].
    rewrite Heof. done.
  - destruct (IH (S k)) as (evs & Hl & Hc & Ht).
    { intros i l' Hn. replace (S k + i) with (k + S i) by lia. apply Hreads. done. }
    { intros i Hi. replace (S k + i) with (k + S i) by lia. apply Hclock. simpl. lia. }
    { replace (S k + length lines) with (k + length (l :: lines)) by (simpl; lia). done. }
    change (length (l :: lines)) with (S (length lines)).
    rewrite output_loop_S, Hl. unfold BaseAgent.loop_pass.
    pose proof (Hclock 0 (Nat.le_0_l _)) as Hc0. rewrite Nat.add_0_r in Hc0.
    destruct (_ <? _)%Z eqn:Hlt; [apply Z.ltb_lt in Hlt; lia|].
    pose proof (Hreads 0 l eq_refl) as Hr0. rewrite Nat.add_0_r in Hr0. rewrite Hr0.
    simpl. destruct (bool_decide (l = "")); simpl.
    + exists evs. done.
    + eexists. split; [reflexivity|]. split.
      * simpl. f_equal. exact Hc.
      * constructor; [reflexivity|done].
Qed.

(** X10: with the default parser, a child that prints some lines, closes its
    output and exits with status 0 gives one text event per non-blank
    line, in order and with the line as content, and nothing else. *)
Theorem default_parser_streams_every_line (split : string -> list string)
    (w : BaseAgent.World) (sid message : string) (a : BaseAgent.t)
    (s : Session.t) (p : Process) (lines : list string) :
  PyDict.get sid (BaseAgent.sessions a) = Some s ->
  BaseAgent.spawn w = Ok p ->
  BaseAgent.wait w = Some 0%Z ->
  (forall i l, nth_error lines i = Some l -> BaseAgent.reads w i = BaseAgent.RLine (Ok l)) ->
  BaseAgent.reads w (length lines) = BaseAgent.REof ->
  (forall i, i <= length lines -> (BaseAgent.clock w i <= 300000)%Z) ->
  let r := BaseAgent.execute_command (CustomAgent.hooks split) w
             (S (length lines)) sid message a in
  BaseAgent.status r = BaseAgent.Finished /\
  map (PyDict.get "content") (BaseAgent.events r)
  = map (fun l => Some (VStr l))
        (List.filter (fun l => negb (bool_decide (l = ""))) lines) /\
  Forall (fun ev => PyDict.get "type" ev = Some (VStr "text")) (BaseAgent.events r) /\
  BaseAgent.effects r = [Spawn p (split message) (Session.working_directory s) None].
Proof.
  intros Hg Hs Hw Hreads Heof Hclock r.
  destruct (output_loop_prints split w p sid s lines 0) as (evs & Hl & Hc & Ht); auto.
  unfold r, BaseAgent.execute_command. rewrite Hg, Hs, Hl, Hw. simpl. auto.
Qed.

Lemma default_parser_streams_every_line_witness :
  map (PyDict.get "content")
    (BaseAgent.events
       (BaseAgent.execute_command (CustomAgent.hooks (fun m => ["echo"; m]))
          (Sample.printing_world ["one"; ""; "two"]) 4 "s1" "hello"
          Sample.one_shot_agent))
  = [Some (VStr "one"); Some (VStr "two")].
Proof.
  apply (default_parser_streams_every_line (fun m => ["echo"; m])
           (Sample.printing_world ["one"; ""; "two"]) "s1" "hello"
           Sample.one_shot_agent (Sample.session "s1" "u" 10) {| pid := 4242 |}
           ["one"; ""; "two"]).
  - reflexivity.
  - reflexivity.
  - reflexivity.
  - intros i l Hn. simpl. rewrite Hn. reflexivity.
  - reflexivity.
  - intros i Hi. simpl in *. lia.
Defined.

(** ** Parsing of JSON objects *)

Lemma has_type_object tag m :
  ClaudeCodeAgent.has_type tag (Json.JObj m)
  = Ok (match PyDict.get "type" m with
        | Some v => ClaudeCodeAgent.is_str tag v
        | None => false
        end).
Proof.
  unfold ClaudeCodeAgent.has_type. simpl. unfold PyDict.mem.
  destruct (PyDict.get "type" m); done.
Qed.

Lemma is_str_true tag v : ClaudeCodeAgent.is_str tag v = true <-> v = Json.JStr tag.
Proof.
  destruct v; simpl; try (split; [discriminate|congruence]).
  rewrite bool_decide_eq_true. split; congruence.
Qed.

(** X11: a line that decodes to a JSON object never makes [parse_output]
    raise unless the object is tagged "assistant"; the event keeps the
    decoded object under "raw" and is a "result" or a "raw_json" event
    according to the object's own type. *)
Theorem parse_output_object (py_str : Json.t -> string) (ts output : string)
    (m : list (string * Json.t)) :
  Json.loads output = Ok (Json.JObj m) ->
  PyDict.get "type" m <> Some (Json.JStr "assistant") ->
  exists ev,
    ClaudeCodeAgent.parse_output py_str ts output = Ok ev /\
    PyDict.get "raw" ev = Some (VJson (Json.JObj m)) /\
    PyDict.get "timestamp" ev = Some (VStr ts) /\
    (PyDict.get "type" m = Some (Json.JStr "result") ->
     PyDict.get "type" ev = Some (VStr "result") /\
     PyDict.get "content" ev
     = Some (match PyDict.get "result" m with
             | Some v => of_json v
             | None => VStr ""
             end)) /\
    (PyDict.get "type" m <> Some (Json.JStr "result") ->
     PyDict.get "type" ev = Some (VStr "raw_json") /\
     PyDict.get "content" ev = Some (VStr (py_str (Json.JObj m)))).
Proof.
  intros Hl Hna. unfold ClaudeCodeAgent.parse_output. rewrite Hl.
  rewrite !has_type_object.
  destruct (PyDict.get "type" m) as [v|] eqn:Hty.
  - destruct (ClaudeCodeAgent.is_str "assistant" v) eqn:Ha.
    { apply is_str_true in Ha. congruence. }
    destruct (ClaudeCodeAgent.is_str "result" v) eqn:Hr.
    + apply is_str_true in Hr. subst v. eexists. split; [reflexivity|].
      repeat split; try done.
    + eexists. split; [reflexivity|]. split; [done|]. split; [done|].
      split; [|done]. intros [= ->]. simpl in Hr. done.
  - eexists. split; [reflexivity|]. repeat split; done.
Qed.

Lemma parse_output_object_witness :
  exists ev,
    ClaudeCodeAgent.parse_output Sample.no_str "t" "{}" = Ok ev /\
    PyDict.get "type" ev = Some (VStr "raw_json").
Proof.
  destruct (parse_output_object Sample.no_str "t" "{}" [] eq_refl)
    as (ev & Hev & _ & _ & _ & Hraw); [simpl; congruence|].
  exists ev. split; [exact Hev|]. apply Hraw. simpl. congruence.
Defined.

(** X12: whenever [parse_output] returns, the event has a "type" among the
    four the agent knows, a "content" and the "timestamp" of the call. *)
Theorem parse_output_event_keys (py_str : Json.t -> string) (ts output : string)
    (ev : Event) :
  ClaudeCodeAgent.parse_output py_str ts output = Ok ev ->
  (exists ty, PyDict.get "type" ev = Some (VStr ty) /\
              In ty ["text"; "assistant_response"; "result"; "raw_json"]) /\
  PyDict.get "content" ev <> None /\
  PyDict.get "timestamp" ev = Some (VStr ts) /\
  PyDict.get "error" ev = None.
Proof.
  unfold ClaudeCodeAgent.parse_output.
  assert (Hshape : forall ty c rest,
            In ty ["text"; "assistant_response"; "result"; "raw_json"] ->
            PyDict.get "timestamp" rest = Some (VStr ts) ->
            PyDict.get "error" rest = None ->
            Ok (("type", VStr ty) :: ("content", c) :: rest) = Ok ev ->
            (exists ty, PyDict.get "type" ev = Some (VStr ty) /\
                        In ty ["text"; "assistant_response"; "result"; "raw_json"]) /\
            PyDict.get "content" ev <> None /\
            PyDict.get "timestamp" ev = Some (VStr ts) /\
            PyDict.get "error" ev = None).
  { intros ty c rest Hin Hts Herr [= <-]. split; [exists ty; done|]. done. }
  destruct (Json.loads output) as [parsed|e] eqn:Hl.
  - destruct (ClaudeCodeAgent.has_type "assistant" parsed) as [[]|]; [| |done].
    + destruct (ClaudeCodeAgent.assistant_content parsed); [|done].
      apply Hshape; simpl; auto.
    + destruct (ClaudeCodeAgent.has_type "result" parsed) as [[]|]; [| |done];
        apply Hshape; simpl; auto.
  - apply loads_raises in Hl as ->. apply Hshape; simpl; auto.
Qed.

Lemma parse_output_event_keys_witness :
  PyDict.get "timestamp"
    (ClaudeCodeAgent.text_event "not json at all" "t") = Some (VStr "t").
Proof.
  apply (parse_output_event_keys Sample.no_str "t" "not json at all"
           (ClaudeCodeAgent.text_event "not json at all" "t")).
  vm_compute. reflexivity.
Defined.

(** ** The Gemini agent: JSON objects are passed through *)

Lemma get_map_of_json k (members : list (string * Json.t)) :
  PyDict.get k (map (fun kv => (kv.1, of_json kv.2)) members)
  = of_json <$> PyDict.get k members.
Proof.
  induction members as [|[k' v] members IH]; simpl; [done|].
  destruct (decide (k = k')); done.
Qed.

(** X13: the Gemini agent hands a line that is a JSON object on as the
    event itself: every field keeps its value, except that "session_id"
    and "agent_type" are set to those of the session; a line that is any
    other JSON value ends the stream without an event. *)
Theorem gemini_object_passes_through (cfg : AgentConfig.t) (w : BaseAgent.World)
    (p : Process) (sid : string) (s : Session.t) (k : nat) (output : string)
    (evs : list Event) (fx : list OsEffect) :
  (BaseAgent.clock w k <= 300000)%Z ->
  BaseAgent.reads w k = BaseAgent.RLine (Ok output) ->
  output <> "" ->
  (forall members, Json.loads output = Ok (Json.JObj members) ->
     exists ev,
       BaseAgent.loop_pass (GeminiCLIAgent.hooks cfg) w p sid s k (Some (evs, fx))
       = Some (ev :: evs, fx) /\
       PyDict.get "session_id" ev = Some (VStr sid) /\
       PyDict.get "agent_type" ev
       = Some (VStr (AgentTypeValue.value (Session.agent_type s))) /\
       forall key, key <> "session_id" -> key <> "agent_type" ->
                   PyDict.get key ev = of_json <$> PyDict.get key members) /\
  (forall value, Json.loads output = Ok value ->
     (forall members, value <> Json.JObj members) ->
     BaseAgent.loop_pass (GeminiCLIAgent.hooks cfg) w p sid s k (Some (evs, fx))
     = Some ([], [])).
Proof.
  intros Hclock Hread Hne.
  assert (Hlt : (BaseAgent.timeout_ms <? BaseAgent.clock w k)%Z = false).
  { apply Z.ltb_ge. unfold BaseAgent.timeout_ms. lia. }
  split.
  - intros members Hl. unfold BaseAgent.loop_pass. rewrite Hlt, Hread.
    rewrite bool_decide_eq_false_2 by done. simpl.
    unfold GeminiCLIAgent.parse_output. rewrite Hl.
    eexists. split; [reflexivity|]. unfold BaseAgent.tag_output.
    split; [rewrite get_set_ne by done; apply get_set_eq|].
    split; [apply get_set_eq|].
    intros key H1 H2. rewrite !get_set_ne by done. apply get_map_of_json.
  - intros value Hl Hno. unfold BaseAgent.loop_pass. rewrite Hlt, Hread.
    rewrite bool_decide_eq_false_2 by done. simpl.
    unfold GeminiCLIAgent.parse_output. rewrite Hl.
    destruct value; try done. destruct (Hno members eq_refl).
Qed.

Lemma gemini_object_passes_through_witness :
  BaseAgent.loop_pass (GeminiCLIAgent.hooks (Sample.cfg 5))
    (Sample.printing_world ["123"]) {| pid := 4242 |} "s1"
    (Sample.session "s1" "u" 10) 0 (Some ([], []))
  = Some ([], []).
Proof.
  pose proof (gemini_object_passes_through (Sample.cfg 5)
                (Sample.printing_world ["123"]) {| pid := 4242 |} "s1"
                (Sample.session "s1" "u" 10) 0 "123" [] []
                ltac:(simpl; lia) eq_refl ltac:(discriminate)) as [_ H].
  apply (H (Json.JNum "123")).
  - vm_compute. reflexivity.
  - discriminate.
Defined.

(** ** Turns of the persistent agent *)

(** X14: a turn that runs to its end leaves the agent exactly as it found
    it: the in-flight mark set on entry is always removed, whether the
    turn ended with a result, an exception or a rejection; and it writes
    to the child at most once. *)
Theorem persistent_turn_restores_agent (w : PersistentClaudeAgent.TurnWorld)
    (fuel : nat) (sid message : string) (a a' : PersistentClaudeAgent.t)
    (evs : list Event) (fx : list OsEffect) :
  PersistentClaudeAgent.execute_command w fuel sid message a = Some (evs, fx, a') ->
  a' = a /\
  (fx = [] \/
   exists p, PersistentClaudeAgent.claude_processes a !! sid = Some p /\
             fx = [StdinWrite p (message +:+ PersistentClaudeAgent.newline)]).
Proof.
  unfold PersistentClaudeAgent.execute_command, PersistentClaudeAgent.enter.
  destruct (negb _).
  { intros [= <- <- <-]. auto. }
  destruct (PersistentClaudeAgent.claude_processes a !! sid) as [p|] eqn:Hp.
  2:{ intros [= <- <- <-]. auto. }
  destruct (bool_decide _) eqn:Hin.
  { intros [= <- <- <-]. auto. }
  apply bool_decide_eq_false in Hin.
  assert (Hrel : PersistentClaudeAgent.release sid
                   (PersistentClaudeAgent.set_executing_sessions
                      ({[sid]} ∪ PersistentClaudeAgent.executing_sessions a) a) = a).
  { unfold PersistentClaudeAgent.release, PersistentClaudeAgent.set_executing_sessions.
    destruct a as [b procs ex]. simpl in *. f_equal.
    apply set_eq. intros x.
    rewrite elem_of_difference, elem_of_union, elem_of_singleton.
    split; [tauto|]. intros Hx. split; [tauto|]. congruence. }
  unfold PersistentClaudeAgent.run_turn.
  destruct (PersistentClaudeAgent.stdin_raises w).
  { rewrite Hrel. intros [= <- <- <-]. auto. }
  destruct (PersistentClaudeAgent._stream_output _ _ _ _) as [[evs0 ex]|]; [|done].
  rewrite Hrel. intros [= <- <- <-]. split; [done|]. eauto.
Qed.

Lemma persistent_turn_restores_agent_witness :
  exists evs fx,
    PersistentClaudeAgent.execute_command (Sample.answering ["not json at all"])
      10 "s1" "hello" Sample.persistent_agent
    = Some (evs, fx, Sample.persistent_agent).
Proof.
  destruct (PersistentClaudeAgent.execute_command (Sample.answering ["not json at all"])
              10 "s1" "hello" Sample.persistent_agent) as [[[evs fx] a']|] eqn:He.
  - destruct (persistent_turn_restores_agent _ _ _ _ _ _ _ _ He) as [-> _].
    exists evs, fx. reflexivity.
  - vm_compute in He. discriminate He.
Defined.

Lemma stream_output_S reads fuel k c :
  PersistentClaudeAgent._stream_output reads (S fuel) k c
  = match reads k with
    | PersistentClaudeAgent.SError e => Some ([], Some e)
    | PersistentClaudeAgent.STimeout =>
        if (3 <=? S c)%nat then Some ([], None)
        else PersistentClaudeAgent._stream_output reads fuel (S k) (S c)
    | PersistentClaudeAgent.SEof exited =>
        if exited then Some ([], None)
        else PersistentClaudeAgent._stream_output reads fuel (S k) 0
    | PersistentClaudeAgent.SLine (Raise e) => Some ([], Some e)
    | PersistentClaudeAgent.SLine (Ok output) =>
        if bool_decide (output = "")
        then PersistentClaudeAgent._stream_output reads fuel (S k) 0
        else
          match PersistentClaudeAgent.classify_line output with
          | Raise e => Some ([], Some e)
          | Ok (ev, true) => Some ([ev], None)
          | Ok (ev, false) =>
              match PersistentClaudeAgent._stream_output reads fuel (S k) 0 with
              | None => None
              | Some (evs, ex) => Some (ev :: evs, ex)
              end
          end
    end.
Proof. reflexivity. Qed.

(** The result of a stream that ended within [fuel] reads depends on those
    reads only, and on no further fuel. *)
Lemma stream_output_local reads reads' : forall fuel k c r fuel',
  PersistentClaudeAgent._stream_output reads fuel k c = Some r ->
  (forall j, k <= j < k + fuel -> reads' j = reads j) ->
  fuel <= fuel' ->
  PersistentClaudeAgent._stream_output reads' fuel' k c = Some r.
Proof.
  induction fuel as [|fuel IH]; intros k c r fuel' Hs Hag Hf; [discriminate|].
  destruct fuel' as [|fuel']; [lia|].
  rewrite stream_output_S in Hs |- *. rewrite (Hag k) by lia.
  assert (Hrec : forall c' r',
            PersistentClaudeAgent._stream_output reads fuel (S k) c' = Some r' ->
            PersistentClaudeAgent._stream_output reads' fuel' (S k) c' = Some r').
  { intros c' r' Hr. apply (IH (S k) c' r' fuel' Hr); [|lia].
    intros j Hj. apply Hag. lia. }
  destruct (reads k) as [[output|e]|[]| |e]; auto.
  - destruct (bool_decide _); auto.
    destruct (PersistentClaudeAgent.classify_line output) as [[ev []]|]; auto.
    destruct (PersistentClaudeAgent._stream_output reads fuel (S k) 0)
      as [[evs ex]|] eqn:Hr; [|discriminate].
    rewrite (Hrec _ _ Hr). done.
  - destruct (3 <=? S c)%nat; auto.
Qed.

Lemma stream_output_stops reads n : forall k c,
  (match reads (k + n) with
   | PersistentClaudeAgent.SLine (Ok output) =>
       output <> "" /\
       exists ev, PersistentClaudeAgent.classify_line output = Ok (ev, true)
   | PersistentClaudeAgent.SEof exited => exited = true
   | _ => False
   end) ->
  exists r, PersistentClaudeAgent._stream_output reads (S n) k c = Some r.
Proof.
  induction n as [|n IH]; intros k c Hstop.
  - rewrite Nat.add_0_r in Hstop. simpl.
    destruct (reads k) as [[output|e]|[]| |e]; try done; eauto.
    destruct Hstop as [Hne [ev Hev]]. rewrite bool_decide_eq_false_2, Hev by done. eauto.
  - assert (Hrec : forall c', exists r,
              PersistentClaudeAgent._stream_output reads (S n) (S k) c' = Some r).
    { intros c'. apply IH. replace (S k + n) with (k + S n) by lia. done. }
    rewrite stream_output_S.
    destruct (reads k) as [[output|e]|[]| |e]; eauto.
    + destruct (bool_decide _); [eauto|].
      destruct (PersistentClaudeAgent.classify_line output) as [[ev []]|]; eauto.
      destruct (Hrec 0) as [[evs ex] ->]. eauto.
    + destruct (3 <=? S c)%nat; eauto.
Qed.

(** X15: a turn ends at the first result line, or at the end of the child's
    output once it has exited, at the latest: what the turn yields is
    fixed by the reads up to that one, and nothing the child prints
    afterwards belongs to it. *)
Theorem result_line_ends_turn (reads reads' : nat -> PersistentClaudeAgent.StreamRead)
    (k0 fuel fuel' : nat) :
  (match reads k0 with
   | PersistentClaudeAgent.SLine (Ok output) =>
       output <> "" /\
       exists ev, PersistentClaudeAgent.classify_line output = Ok (ev, true)
   | PersistentClaudeAgent.SEof exited => exited = true
   | _ => False
   end) ->
  (forall j, j <= k0 -> reads' j = reads j) ->
  k0 < fuel -> k0 < fuel' ->
  exists r,
    PersistentClaudeAgent._stream_output reads fuel 0 0 = Some r /\
    PersistentClaudeAgent._stream_output reads' fuel' 0 0 = Some r.
Proof.
  intros Hstop Hag Hf Hf'.
  destruct (stream_output_stops reads k0 0 0 Hstop) as [r Hr].
  exists r. split.
  - eapply stream_output_local; [exact Hr|done|lia].
  - eapply stream_output_local; [exact Hr| |lia]. intros j Hj. apply Hag. lia.
Qed.

Lemma result_line_ends_turn_witness :
  exists r,
    PersistentClaudeAgent._stream_output
      (PersistentClaudeAgent.stream_reads (Sample.answering [Sample.result_line; "later"]))
      5 0 0 = Some r /\
    PersistentClaudeAgent._stream_output
      (PersistentClaudeAgent.stream_reads (Sample.answering [Sample.result_line]))
      7 0 0 = Some r.
Proof.
  apply (result_line_ends_turn
           (PersistentClaudeAgent.stream_reads
              (Sample.answering [Sample.result_line; "later"]))
           (PersistentClaudeAgent.stream_reads (Sample.answering [Sample.result_line]))
           0 5 7).
  - simpl. split; [discriminate|]. eexists. vm_compute. reflexivity.
  - intros j Hj. replace j with 0 by lia. reflexivity.
  - lia.
  - lia.
Defined.

Lemma stream_output_timeouts reads n : forall k c,
  reads (k + n) = PersistentClaudeAgent.STimeout ->
  reads (S (k + n)) = PersistentClaudeAgent.STimeout ->
  reads (S (S (k + n))) = PersistentClaudeAgent.STimeout ->
  exists evs ex,
    PersistentClaudeAgent._stream_output reads (n + 3) k c = Some (evs, ex) /\
    length evs <= n.
Proof.
  induction n as [|n IH]; intros k c H1 H2 H3.
  - rewrite Nat.add_0_r in H1, H2, H3. simpl.
    rewrite H1. destruct c as [|[|c]]; simpl; eauto; rewrite H2; simpl; eauto.
    rewrite H3. simpl. eauto.
  - assert (Hrec : forall c', exists evs ex,
              PersistentClaudeAgent._stream_output reads (n + 3) (S k) c'
              = Some (evs, ex) /\ length evs <= n).
    { intros c'. apply IH; replace (S k + n) with (k + S n) by lia; done. }
    assert (Hnil : forall ex : option Exn, exists evs ex0,
              Some (@nil Event, ex) = Some (evs, ex0) /\ length evs <= S n).
    { intros ex. exists [], ex. split; [done|simpl; lia]. }
    assert (Hweak : forall c', exists evs ex,
              PersistentClaudeAgent._stream_output reads (n + 3) (S k) c'
              = Some (evs, ex) /\ length evs <= S n).
    { intros c'. destruct (Hrec c') as (evs & ex & ? & ?). exists evs, ex.
      split; [done|lia]. }
    change (S n + 3) with (S (n + 3)). rewrite stream_output_S.
    destruct (reads k) as [[output|e]|[]| |e]; auto.
    + destruct (bool_decide _); [auto|].
      destruct (PersistentClaudeAgent.classify_line output) as [[ev []]|]; auto.
      * exists [ev], None. split; [done|simpl; lia].
      * destruct (Hrec 0) as (evs & ex & -> & Hlen). exists (ev :: evs), ex.
        split; [done|simpl; lia].
    + destruct (3 <=? S c)%nat; auto.
Qed.

(** X16: three reads in a row that time out (2 seconds each) end the turn
    wherever they occur: the turn is over by the third of them, what it
    yields is fixed by the reads up to it, and no event is owed to the
    silence itself. *)
Theorem three_timeouts_end_turn (reads reads' : nat -> PersistentClaudeAgent.StreamRead)
    (k0 fuel fuel' : nat) :
  reads k0 = PersistentClaudeAgent.STimeout ->
  reads (S k0) = PersistentClaudeAgent.STimeout ->
  reads (S (S k0)) = PersistentClaudeAgent.STimeout ->
  (forall j, j <= k0 + 2 -> reads' j = reads j) ->
  k0 + 2 < fuel -> k0 + 2 < fuel' ->
  exists evs ex,
    PersistentClaudeAgent._stream_output reads fuel 0 0 = Some (evs, ex) /\
    PersistentClaudeAgent._stream_output reads' fuel' 0 0 = Some (evs, ex) /\
    length evs <= k0.
Proof.
  intros H1 H2 H3 Hag Hf Hf'.
  destruct (stream_output_timeouts reads k0 0 0 H1 H2 H3) as (evs & ex & Hr & Hlen).
  exists evs, ex. split; [|split; [|done]].
  - eapply stream_output_local; [exact Hr|done|lia].
  - eapply stream_output_local; [exact Hr| |lia]. intros j Hj. apply Hag. lia.
Qed.

Lemma three_timeouts_end_turn_witness :
  exists evs ex,
    PersistentClaudeAgent._stream_output
      (PersistentClaudeAgent.stream_reads (Sample.answering ["hello"])) 9 0 0
    = Some (evs, ex) /\
    PersistentClaudeAgent._stream_output
      (PersistentClaudeAgent.stream_reads (Sample.answering ["hello"])) 4 0 0
    = Some (evs, ex) /\
    length evs <= 1.
Proof.
  apply (three_timeouts_end_turn
           (PersistentClaudeAgent.stream_reads (Sample.answering ["hello"]))
           (PersistentClaudeAgent.stream_reads (Sample.answering ["hello"]))
           1 9 4); try reflexivity; try lia.
Defined.

(** X17: a child that has closed its output without exiting keeps the turn
    going for ever: however long the loop is run, it does not end, and the
    session stays marked as executing. *)
Theorem closed_output_never_ends_turn (w : PersistentClaudeAgent.TurnWorld)
    (sid message : string) (a : PersistentClaudeAgent.t) (p : Process) :
  PyDict.mem sid (BaseAgent.sessions (PersistentClaudeAgent.base a)) = true ->
  PersistentClaudeAgent.claude_processes a !! sid = Some p ->
  sid ∉ PersistentClaudeAgent.executing_sessions a ->
  PersistentClaudeAgent.stdin_raises w = None ->
  (forall k, PersistentClaudeAgent.stream_reads w k = PersistentClaudeAgent.SEof false) ->
  (forall fuel, PersistentClaudeAgent.execute_command w fuel sid message a = None) /\
  sid ∈ PersistentClaudeAgent.executing_sessions
          (PersistentClaudeAgent.enter sid a).2.
Proof.
  intros Hm Hp Hex Hin Hreads.
  assert (Hloop : forall fuel k c,
            PersistentClaudeAgent._stream_output
              (PersistentClaudeAgent.stream_reads w) fuel k c = None).
  { induction fuel as [|fuel IH]; intros k c; [done|].
    rewrite stream_output_S, Hreads. apply IH. }
  unfold PersistentClaudeAgent.execute_command, PersistentClaudeAgent.enter.
  rewrite Hm, Hp. simpl. rewrite bool_decide_eq_false_2 by done. split.
  - intros fuel. unfold PersistentClaudeAgent.run_turn. rewrite Hin, Hloop. done.
  - simpl. apply elem_of_union_l, elem_of_singleton. done.
Qed.

Lemma closed_output_never_ends_turn_witness :
  PersistentClaudeAgent.execute_command
    {| PersistentClaudeAgent.stdin_raises := None;
       PersistentClaudeAgent.stream_reads :=
         fun _ => PersistentClaudeAgent.SEof false |}
    1000 "s1" "hello" Sample.persistent_agent = None.
Proof.
  apply (closed_output_never_ends_turn
           {| PersistentClaudeAgent.stdin_raises := None;
              PersistentClaudeAgent.stream_reads :=
                fun _ => PersistentClaudeAgent.SEof false |}
           "s1" "hello" Sample.persistent_agent {| pid := 4242 |}).
  - reflexivity.
  - reflexivity.
  - simpl. apply not_elem_of_empty.
  - reflexivity.
  - reflexivity.
Defined.

(** ** From creation to the first turn of a persistent session *)

Lemma persistent_terminate_executing o sid (a : PersistentClaudeAgent.t) :
  PersistentClaudeAgent.executing_sessions
    (PersistentClaudeAgent.terminate_session o sid a).2
  = PersistentClaudeAgent.executing_sessions a.
Proof.
  unfold PersistentClaudeAgent.terminate_session.
  destruct (BaseAgent.terminate_session _ _ _) as [[ok fx] b'].
  destruct (PersistentClaudeAgent.claude_processes a !! sid); [|done].
  destruct (PersistentClaudeAgent.stdin_close_raises o); [done|].
  destruct (PersistentClaudeAgent.proc_terminate_raises o); [done|].
  destruct (PersistentClaudeAgent.proc_alive_after o); [|done].
  destruct (PersistentClaudeAgent.proc_kill_raises o); done.
Qed.

Lemma persistent_base_create e user wd (a : PersistentClaudeAgent.t) sid fx a0 :
  @BaseAgent.create_session PersistentClaudeAgent.t
    PersistentClaudeAgent.Persistent_Self e user wd a = (Ok sid, fx, a0) ->
  PyDict.mem sid (BaseAgent.sessions (PersistentClaudeAgent.base a0)) = true /\
  PersistentClaudeAgent.executing_sessions a0
  = PersistentClaudeAgent.executing_sessions a.
Proof.
  unfold BaseAgent.create_session. simpl.
  destruct (_ <=? _)%Z.
  - destruct (BaseAgent.py_min _) as [oldest|]; [|done].
    pose proof (persistent_terminate_executing (BaseAgent.evict e)
                  (Session.id oldest) a) as Hex.
    destruct (PersistentClaudeAgent.terminate_session _ _ a) as [[ok fx0] a1].
    intros [= <- <- <-]. simpl in *. unfold PyDict.mem. rewrite get_set_eq. done.
  - intros [= <- <- <-]. simpl. unfold PyDict.mem. rewrite get_set_eq. done.
Qed.

(** X18: a persistent session that was created successfully is ready for
    its first command: its child was started with the stream-json flags,
    is on record for the session, and the first submission passes all
    three checks and marks the session as executing. *)
Theorem persistent_create_then_accepted (e : PersistentClaudeAgent.CreateEnv)
    (user : string) (wd : option string) (a a' : PersistentClaudeAgent.t)
    (sid : string) (fx : list OsEffect) :
  PersistentClaudeAgent.create_session e user wd a = (Ok sid, fx, a') ->
  sid ∉ PersistentClaudeAgent.executing_sessions a ->
  exists p cwd,
    PersistentClaudeAgent.spawn e = Ok p /\
    PersistentClaudeAgent.claude_processes a' !! sid = Some p /\
    List.last fx (Kill p)
    = Spawn p [AgentConfig.executable_path
                 (BaseAgent.config (PersistentClaudeAgent.base a'));
               "--print"; "--output-format=stream-json"; "--verbose"] cwd
        (Some (PersistentClaudeAgent._get_environment
                 (PersistentClaudeAgent.environ e) (PersistentClaudeAgent.home e))) /\
    (wd = None \/ wd = Some "" -> cwd = ".") /\
    (forall d, wd = Some d -> d <> "" -> cwd = d) /\
    (PersistentClaudeAgent.enter sid a').1 = PersistentClaudeAgent.Accepted p /\
    sid ∈ PersistentClaudeAgent.executing_sessions
            (PersistentClaudeAgent.enter sid a').2.
Proof.
  intros Hc Hex. unfold PersistentClaudeAgent.create_session in Hc.
  destruct (@BaseAgent.create_session PersistentClaudeAgent.t
              PersistentClaudeAgent.Persistent_Self
              (PersistentClaudeAgent.super_create e) user wd a)
    as [[[sid0|ex] fx0] a0] eqn:Hb; [|done].
  destruct (persistent_base_create _ _ _ _ _ _ _ Hb) as [Hm Hexe].
  destruct (PersistentClaudeAgent.spawn e) as [p|]; [|done].
  destruct (PersistentClaudeAgent._read_initial_output _) as [[]|]; try done.
  2:{ destruct (PersistentClaudeAgent.init_terminate_raises e); done. }
  injection Hc as <- <- <-.
  exists p, (BaseAgent.str_or wd "."). split; [done|].
  split; [simpl; apply lookup_insert_eq|]. split.
  { simpl. rewrite List.last_last. done. }
  split; [intros [->| ->]; done|].
  split; [intros d -> Hd; simpl; rewrite bool_decide_eq_false_2 by done; done|].
  unfold PersistentClaudeAgent.enter. simpl. rewrite Hm. simpl.
  rewrite lookup_insert_eq. rewrite bool_decide_eq_false_2 by (rewrite Hexe; done).
  simpl. split; [done|]. apply elem_of_union_l, elem_of_singleton. done.
Qed.

Lemma persistent_create_then_accepted_witness :
  exists p cwd,
    PersistentClaudeAgent.spawn
      {| PersistentClaudeAgent.super_create :=
           {| BaseAgent.uuid4 := "s1"; BaseAgent.now := 10;
              BaseAgent.getcwd := "/srv";
              BaseAgent.evict := Sample.persistent_term |};
         PersistentClaudeAgent.environ := ∅;
         PersistentClaudeAgent.home := "/home/bot";
         PersistentClaudeAgent.spawn := Ok {| pid := 4242 |};
         PersistentClaudeAgent.init_read := PersistentClaudeAgent.InitLine true;
         PersistentClaudeAgent.init_terminate_raises := false |} = Ok p /\
    cwd = ".".
Proof.
  destruct (persistent_create_then_accepted
              {| PersistentClaudeAgent.super_create :=
                   {| BaseAgent.uuid4 := "s1"; BaseAgent.now := 10;
                      BaseAgent.getcwd := "/srv";
                      BaseAgent.evict := Sample.persistent_term |};
                 PersistentClaudeAgent.environ := ∅;
                 PersistentClaudeAgent.home := "/home/bot";
                 PersistentClaudeAgent.spawn := Ok {| pid := 4242 |};
                 PersistentClaudeAgent.init_read := PersistentClaudeAgent.InitLine true;
                 PersistentClaudeAgent.init_terminate_raises := false |}
              "u" None (PersistentClaudeAgent.init (Sample.cfg 5))
              (PersistentClaudeAgent.create_session
                 {| PersistentClaudeAgent.super_create :=
                      {| BaseAgent.uuid4 := "s1"; BaseAgent.now := 10;
                         BaseAgent.getcwd := "/srv";
                         BaseAgent.evict := Sample.persistent_term |};
                    PersistentClaudeAgent.environ := ∅;
                    PersistentClaudeAgent.home := "/home/bot";
                    PersistentClaudeAgent.spawn := Ok {| pid := 4242 |};
                    PersistentClaudeAgent.init_read := PersistentClaudeAgent.InitLine true;
                    PersistentClaudeAgent.init_terminate_raises := false |}
                 "u" None (PersistentClaudeAgent.init (Sample.cfg 5))).2
              "s1"
              [Spawn {| pid := 4242 |}
                 ["claude"; "--print"; "--output-format=stream-json"; "--verbose"] "."
                 (Some (PersistentClaudeAgent._get_environment ∅ "/home/bot"))])
    as (p & cwd & Hs & _ & _ & Hcwd & _ & _).
  - reflexivity.
  - simpl. apply not_elem_of_empty.
  - exists p, cwd. split; [exact Hs|]. apply Hcwd. left. reflexivity.
Defined.

(** ** Streaming from the pty *)

Lemma stream_loop_unfold o fuel k c buf :
  PTYClaudeAgent.stream_loop o fuel k c buf
  = if (50 <=? c)%nat then Some ([], buf, k)
    else
      match fuel with
      | O => None
      | S fuel' =>
          match PTYClaudeAgent.stream_probe o k with
          | PTYClaudeAgent.ProbeOSError _ => Some ([], buf, k)
          | PTYClaudeAgent.ProbeIdle =>
              PTYClaudeAgent.stream_loop o fuel' (S k) (S c) buf
          | PTYClaudeAgent.ProbeEmpty =>
              PTYClaudeAgent.stream_loop o fuel' (S k) (S c) buf
          | PTYClaudeAgent.ProbeData data =>
              if bool_decide (data = "") then
                PTYClaudeAgent.stream_loop o fuel' (S k) (S c) buf
              else
                let '(lines, rest) := PTYClaudeAgent.split_lines (buf +:+ data) in
                match PTYClaudeAgent.stream_loop o fuel' (S k) 0 rest with
                | None => None
                | Some (evs, final, k') =>
                    Some (PTYClaudeAgent.line_events o k lines ++ evs, final, k')
                end
          end
      end.
Proof. destruct fuel; reflexivity. Qed.

Lemma str_app_nil_l (s : string) : "" +:+ s = s.
Proof. reflexivity. Qed.

Lemma str_app_cons c (s t : string) : String c s +:+ t = String c (s +:+ t).
Proof. reflexivity. Qed.

(** Splitting a buffer that grew by [b] continues the split of the old
    buffer from the remainder it left. *)
Lemma split_lines_app (a b : string) :
  PTYClaudeAgent.split_lines (a +:+ b)
  = let '(la, ra) := PTYClaudeAgent.split_lines a in
    let '(lb, rb) := PTYClaudeAgent.split_lines (ra +:+ b) in
    (la ++ lb, rb).
Proof.
  induction a as [|c a IH].
  - rewrite str_app_nil_l. simpl. rewrite str_app_nil_l.
    destruct (PTYClaudeAgent.split_lines b). done.
  - rewrite str_app_cons. simpl. rewrite IH.
    destruct (PTYClaudeAgent.split_lines a) as [la ra].
    destruct (Ascii.eqb c "010") eqn:Hc.
    + destruct (PTYClaudeAgent.split_lines (ra +:+ b)) as [lb rb]. done.
    + destruct la as [|l0 la].
      * rewrite str_app_cons. simpl.
        destruct (PTYClaudeAgent.split_lines (ra +:+ b)) as [lb rb]. rewrite Hc.
        destruct lb; done.
      * destruct (PTYClaudeAgent.split_lines (ra +:+ b)) as [lb rb]. done.
Qed.

(** The remainder left by a split holds no newline. *)
Lemma split_lines_rest (s : string) :
  PTYClaudeAgent.split_lines (PTYClaudeAgent.split_lines s).2
  = ([], (PTYClaudeAgent.split_lines s).2).
Proof.
  induction s as [|c s IH]; [done|]. simpl.
  destruct (PTYClaudeAgent.split_lines s) as [l t]. simpl in IH.
  destruct (Ascii.eqb c "010") eqn:Hc; [done|].
  destruct l; simpl; [|done]. rewrite IH, Hc. done.
Qed.

Lemma line_events_contents o (lines : list string) :
  forall f : nat -> string -> list Event,
  (forall i line, exists ts, f i line = PTYClaudeAgent.text_event o ts line) ->
  map (PyDict.get "content") (concat (imap f lines))
  = map (fun t => Some (VStr t)) (pty_texts o lines) /\
  Forall (fun ev => PyDict.get "type" ev = Some (VStr "text")) (concat (imap f lines)).
Proof.
  induction lines as [|l lines IH]; intros f Hf; [done|].
  destruct (IH (f ∘ S)) as [IH1 IH2]; [intros i line; apply Hf|].
  simpl. destruct (Hf 0 l) as [ts ->]. split.
  - rewrite List.map_app. unfold pty_texts in *. simpl.
    unfold PTYClaudeAgent.text_event.
    destruct (bool_decide (PTYClaudeAgent.text_of o l = "")); simpl;
      [exact IH1|f_equal; exact IH1].
  - apply Forall_app. split; [|exact IH2].
    unfold PTYClaudeAgent.text_event.
    destruct (bool_decide (PTYClaudeAgent.text_of o l = "")); repeat constructor.
Qed.

Lemma pty_texts_app o l1 l2 : pty_texts o (l1 ++ l2) = pty_texts o l1 ++ pty_texts o l2.
Proof. unfold pty_texts. rewrite List.map_app, List.filter_app. done. Qed.

Lemma stream_loop_contents o : forall fuel k c buf evs final k',
  PTYClaudeAgent.stream_loop o fuel k c buf = Some (evs, final, k') ->
  PTYClaudeAgent.split_lines buf = ([], buf) ->
  exists n,
    k' = k + n /\
    map (PyDict.get "content") evs
    = map (fun t => Some (VStr t))
          (pty_texts o (PTYClaudeAgent.split_lines (buf +:+ pty_bytes_read o k n)).1) /\
    final = (PTYClaudeAgent.split_lines (buf +:+ pty_bytes_read o k n)).2 /\
    Forall (fun ev => PyDict.get "type" ev = Some (VStr "text")) evs.
Proof.
  assert (Hstop : forall k buf evs final k',
            Some (@nil Event, buf, k) = Some (evs, final, k') ->
            PTYClaudeAgent.split_lines buf = ([], buf) ->
            exists n,
              k' = k + n /\
              map (PyDict.get "content") evs
              = map (fun t => Some (VStr t))
                    (pty_texts o (PTYClaudeAgent.split_lines
                                    (buf +:+ pty_bytes_read o k n)).1) /\
              final = (PTYClaudeAgent.split_lines (buf +:+ pty_bytes_read o k n)).2 /\
              Forall (fun ev => PyDict.get "type" ev = Some (VStr "text")) evs).
  { intros k buf evs final k' [= <- <- <-] Hb. exists 0. simpl.
    rewrite str_app_nil_r, Hb. split; [lia|done]. }
  induction fuel as [|fuel IH]; intros k c buf evs final k';
    rewrite stream_loop_unfold; destruct (50 <=? c)%nat eqn:Hc; auto; [done|].
  assert (Hskip : PTYClaudeAgent.stream_loop o fuel (S k) (S c) buf
                  = Some (evs, final, k') ->
                  match PTYClaudeAgent.stream_probe o k with
                  | PTYClaudeAgent.ProbeData data => data
                  | _ => ""
                  end = "" ->
                  PTYClaudeAgent.split_lines buf = ([], buf) ->
                  exists n,
                    k' = k + n /\
                    map (PyDict.get "content") evs
                    = map (fun t => Some (VStr t))
                          (pty_texts o (PTYClaudeAgent.split_lines
                                          (buf +:+ pty_bytes_read o k n)).1) /\
                    final = (PTYClaudeAgent.split_lines
                               (buf +:+ pty_bytes_read o k n)).2 /\
                    Forall (fun ev => PyDict.get "type" ev = Some (VStr "text")) evs).
  { intros Hl Hd Hb. destruct (IH _ _ _ _ _ _ Hl Hb) as (n & -> & Hev & Hfin).
    exists (S n). split; [lia|]. simpl. rewrite Hd, str_app_nil_l. done. }
  destruct (PTYClaudeAgent.stream_probe o k) as [data| | |errno] eqn:Hp; auto.
  destruct (bool_decide (data = "")) eqn:Hd.
  { apply bool_decide_eq_true in Hd. auto. }
  destruct (PTYClaudeAgent.split_lines (buf +:+ data)) as [lines rest] eqn:Hsp.
  destruct (PTYClaudeAgent.stream_loop o fuel (S k) 0 rest) as [[[evs0 final0] k0]|]
    eqn:Hl; [|done].
  intros [= <- <- <-] Hb.
  assert (Hrest : PTYClaudeAgent.split_lines rest = ([], rest)).
  { pose proof (split_lines_rest (buf +:+ data)) as Hr. rewrite Hsp in Hr. done. }
  destruct (IH _ _ _ _ _ _ Hl Hrest) as (n & -> & Hev & Hfin & Hty).
  destruct (line_events_contents o lines
              (fun i line =>
                 PTYClaudeAgent.text_event o (PTYClaudeAgent.stream_clock o k i) line))
    as [Hlc Hlt]; [eauto|].
  exists (S n). split; [lia|]. simpl. rewrite Hp.
  rewrite <- str_app_assoc, split_lines_app, Hsp.
  destruct (PTYClaudeAgent.split_lines (rest +:+ pty_bytes_read o (S k) n))
    as [lb rb]. simpl in *.
  split; [|split; [done|]].
  - rewrite List.map_app, pty_texts_app, List.map_app. f_equal; done.
  - apply Forall_app. done.
Qed.

Lemma pty_leaves_at_spec o n :
  pty_leaves_at o n = true <->
  (50 <= n /\ forall j, n - 50 <= j < n ->
                        pty_quiet (PTYClaudeAgent.stream_probe o j) = true) \/
  (exists errno, PTYClaudeAgent.stream_probe o n = PTYClaudeAgent.ProbeOSError errno).
Proof.
  unfold pty_leaves_at. rewrite orb_true_iff, andb_true_iff, Nat.leb_le, forallb_forall.
  split.
  - intros [[Hn Hq]|He].
    + left. split; [done|]. intros j Hj. apply Hq. apply in_seq. lia.
    + right. destruct (PTYClaudeAgent.stream_probe o n); try discriminate. eauto.
  - intros [[Hn Hq]|[errno He]].
    + left. split; [done|]. intros j Hj. apply in_seq in Hj. apply Hq. lia.
    + right. rewrite He. done.
Qed.

(** The pass at which the loop is left is the first at which it can be. *)
Lemma stream_loop_leaves o : forall fuel k c buf evs final k',
  PTYClaudeAgent.stream_loop o fuel k c buf = Some (evs, final, k') ->
  c <= k ->
  (forall j, k - c <= j < k -> pty_quiet (PTYClaudeAgent.stream_probe o j) = true) ->
  (c = k \/ (c < k /\ pty_quiet (PTYClaudeAgent.stream_probe o (k - c - 1)) = false)) ->
  pty_leaves_at o k' = true /\
  forall m, k <= m < k' -> pty_leaves_at o m = false.
Proof.
  induction fuel as [|fuel IH]; intros k c buf evs final k' Hs Hck Hq Hlast;
    rewrite stream_loop_unfold in Hs; destruct (50 <=? c)%nat eqn:Hc.
  - injection Hs as <- <- <-. apply Nat.leb_le in Hc. split; [|intros m Hm; lia].
    apply pty_leaves_at_spec. left. split; [lia|]. intros j Hj. apply Hq. lia.
  - discriminate.
  - injection Hs as <- <- <-. apply Nat.leb_le in Hc. split; [|intros m Hm; lia].
    apply pty_leaves_at_spec. left. split; [lia|]. intros j Hj. apply Hq. lia.
  - apply Nat.leb_gt in Hc.
    assert (Hnot : (forall errno, PTYClaudeAgent.stream_probe o k
                                  <> PTYClaudeAgent.ProbeOSError errno) ->
                   pty_leaves_at o k = false).
    { intros Hne. apply not_true_iff_false. intros Hl.
      apply pty_leaves_at_spec in Hl as [[Hk Hall]|[errno He]]; [|apply (Hne _ He)].
      destruct Hlast as [->|[Hlt Hnq]]; [lia|].
      rewrite Hall in Hnq by lia. discriminate. }
    assert (Hquiet : PTYClaudeAgent.stream_loop o fuel (S k) (S c) buf
                     = Some (evs, final, k') ->
                     pty_quiet (PTYClaudeAgent.stream_probe o k) = true ->
                     pty_leaves_at o k' = true /\
                     forall m, k <= m < k' -> pty_leaves_at o m = false).
    { intros Hrec Hqk.
      destruct (IH _ _ _ _ _ _ Hrec) as [Hend Hbefore].
      - lia.
      - intros j Hj. destruct (decide (j = k)) as [->|Hne]; [done|]. apply Hq. lia.
      - destruct Hlast as [->|[Hlt Hnq]]; [left; done|right].
        split; [lia|]. replace (S k - S c - 1) with (k - c - 1) by lia. done.
      - split; [done|]. intros m Hm. destruct (decide (m = k)) as [->|Hne].
        + apply Hnot. intros errno He. rewrite He in Hqk. discriminate.
        + apply Hbefore. lia. }
    destruct (PTYClaudeAgent.stream_probe o k) as [data| | |errno] eqn:Hp.
    + destruct (bool_decide (data = "")) eqn:Hd.
      { apply Hquiet; [done|]. simpl. done. }
      destruct (PTYClaudeAgent.split_lines (buf +:+ data)) as [lines rest].
      destruct (PTYClaudeAgent.stream_loop o fuel (S k) 0 rest)
        as [[[evs0 final0] k0]|] eqn:Hrec; [|discriminate].
      injection Hs as <- <- <-.
      destruct (IH _ _ _ _ _ _ Hrec) as [Hend Hbefore].
      * lia.
      * intros j Hj. lia.
      * right. split; [lia|]. replace (S k - 0 - 1) with k by lia.
        rewrite Hp. simpl. done.
      * split; [done|]. intros m Hm. destruct (decide (m = k)) as [->|Hne].
        -- apply Hnot. intros errno. done.
        -- apply Hbefore. lia.
    + apply Hquiet; done.
    + apply Hquiet; done.
    + injection Hs as <- <- <-. split; [|intros m Hm; lia].
      apply pty_leaves_at_spec. right. eauto.
Qed.

Lemma pty_stream_contents (o : PTYClaudeAgent.StreamOracle)
    (fuel : nat) (evs : list Event) :
  PTYClaudeAgent.text_of o "" = "" ->
  PTYClaudeAgent._stream_pty_output o fuel = Some evs ->
  exists n lines rest,
    pty_leaves_at o n = true /\
    (forall m, m < n -> pty_leaves_at o m = false) /\
    PTYClaudeAgent.split_lines (pty_bytes_read o 0 n) = (lines, rest) /\
    map (PyDict.get "content") evs
    = map (fun t => Some (VStr t)) (pty_texts o (lines ++ [rest])) /\
    Forall (fun ev => PyDict.get "type" ev = Some (VStr "text")) evs.
Proof.
  intros Hempty. unfold PTYClaudeAgent._stream_pty_output.
  destruct (PTYClaudeAgent.stream_loop o fuel 0 0 "") as [[[evs0 final] k]|] eqn:Hl;
    [|done].
  intros [= <-].
  destruct (stream_loop_leaves o _ _ _ _ _ _ _ Hl) as [Hend Hbefore];
    [lia|intros j Hj; lia|left; done|].
  destruct (stream_loop_contents o _ _ _ _ _ _ _ Hl eq_refl)
    as (n & -> & Hev & Hfin & Hty).
  rewrite str_app_nil_l in Hev, Hfin.
  destruct (PTYClaudeAgent.split_lines (pty_bytes_read o 0 n)) as [lines rest] eqn:Hsp.
  simpl in Hev, Hfin. subst final.
  exists n, lines, rest. split; [exact Hend|].
  split; [intros m Hm; apply Hbefore; lia|]. split; [done|]. split.
  - rewrite List.map_app, pty_texts_app, List.map_app. f_equal; [exact Hev|].
    unfold pty_texts. simpl. destruct (bool_decide (rest = "")) eqn:Hr.
    + apply bool_decide_eq_true in Hr. subst rest. rewrite Hempty. done.
    + unfold PTYClaudeAgent.text_event.
      destruct (bool_decide (PTYClaudeAgent.text_of o rest = "")); done.
  - apply Forall_app. split; [done|].
    destruct (bool_decide (rest = "")); [constructor|].
    unfold PTYClaudeAgent.text_event.
    destruct (bool_decide (PTYClaudeAgent.text_of o rest = "")); repeat constructor.
Qed.

Lemma tag_keeps_content sid a ev :
  PyDict.get "content" (PTYClaudeAgent.tag sid a ev) = PyDict.get "content" ev /\
  PyDict.get "session_id" (PTYClaudeAgent.tag sid a ev) = Some (VStr sid).
Proof.
  unfold PTYClaudeAgent.tag. split.
  - rewrite !get_set_ne by done. done.
  - rewrite get_set_ne by done. apply get_set_eq.
Qed.

(** X19: a command sent to a pty session is written once, followed by a
    newline.  The loop is left at the first pass that follows 50 passes in
    a row without bytes, or whose probe fails, and the contents of the
    events that come back are the non-blank lines, in order, of all the
    bytes read in the passes before that one, however the reads cut that
    data into chunks; a last line without a newline is delivered too, and
    every event is a text event that names the session. *)
Theorem pty_execute_streams_lines (o : PTYClaudeAgent.StreamOracle) (fuel : nat)
    (sid message : string) (a : PTYClaudeAgent.t) (info : PTYClaudeAgent.PtyInfo)
    (evs : list Event) (fx : list OsEffect) :
  PyDict.mem sid (BaseAgent.sessions (PTYClaudeAgent.base a)) = true ->
  PTYClaudeAgent.pty_sessions a !! sid = Some info ->
  PTYClaudeAgent.text_of o "" = "" ->
  PTYClaudeAgent.execute_command None o fuel sid message a = Some (evs, fx) ->
  fx = [OsWrite (PTYClaudeAgent.master_fd info)
                (message +:+ String "010"%char EmptyString)] /\
  Forall (fun ev => PyDict.get "session_id" ev = Some (VStr sid) /\
                    PyDict.get "type" ev = Some (VStr "text")) evs /\
  exists n lines rest,
    pty_leaves_at o n = true /\
    (forall m, m < n -> pty_leaves_at o m = false) /\
    PTYClaudeAgent.split_lines (pty_bytes_read o 0 n) = (lines, rest) /\
    map (PyDict.get "content") evs
    = map (fun t => Some (VStr t)) (pty_texts o (lines ++ [rest])).
Proof.
  intros Hm Hp Hempty. unfold PTYClaudeAgent.execute_command, PTYClaudeAgent.begin_execute.
  rewrite Hm, Hp. simpl.
  destruct (PTYClaudeAgent._stream_pty_output o fuel) as [evs0|] eqn:Hs; [|done].
  intros [= <- <-]. split; [done|].
  destruct (pty_stream_contents o fuel evs0 Hempty Hs)
    as (n & lines & rest & Hend & Hbefore & Hsp & Hc & Hty).
  split.
  - apply List.Forall_forall. intros ev Hin. apply in_map_iff in Hin as (ev0 & <- & Hin).
    split; [apply tag_keeps_content|].
    unfold PTYClaudeAgent.tag. rewrite !get_set_ne by done.
    apply (proj1 (List.Forall_forall _ _) Hty). done.
  - exists n, lines, rest. split; [done|]. split; [done|]. split; [done|].
    rewrite <- Hc. rewrite List.map_map.
    apply map_ext. intros ev. apply tag_keeps_content.
Qed.

Lemma pty_execute_streams_lines_witness :
  exists evs n,
    PTYClaudeAgent.execute_command None
      (Sample.pty_chunks ["on"; String "e" (String "010" "tw"); "o"]) 60
      "s1" "hello" Sample.pty_agent
    = Some (evs, [OsWrite 7 (String "h" (String "e" (String "l" (String "l"
                     (String "o" (String "010" EmptyString))))))]) /\
    pty_leaves_at (Sample.pty_chunks ["on"; String "e" (String "010" "tw"); "o"]) n
    = true /\
    map (PyDict.get "content") evs
    = map (fun t => Some (VStr t))
          (pty_texts (Sample.pty_chunks ["on"; String "e" (String "010" "tw"); "o"])
             ((PTYClaudeAgent.split_lines
                 (pty_bytes_read
                    (Sample.pty_chunks ["on"; String "e" (String "010" "tw"); "o"])
                    0 n)).1
              ++ [(PTYClaudeAgent.split_lines
                     (pty_bytes_read
                        (Sample.pty_chunks ["on"; String "e" (String "010" "tw"); "o"])
                        0 n)).2])).
Proof.
  destruct (PTYClaudeAgent.execute_command None
              (Sample.pty_chunks ["on"; String "e" (String "010" "tw"); "o"]) 60
              "s1" "hello" Sample.pty_agent) as [[evs fx]|] eqn:He.
  - destruct (pty_execute_streams_lines
                (Sample.pty_chunks ["on"; String "e" (String "010" "tw"); "o"]) 60
                "s1" "hello" Sample.pty_agent
                {| PTYClaudeAgent.master_fd := 7; PTYClaudeAgent.pty_pid := 4242;
                   PTYClaudeAgent.buffer := "";
                   PTYClaudeAgent.pty_working_directory := "/srv" |}
                evs fx eq_refl eq_refl eq_refl He)
      as (-> & _ & n & lines & rest & Hend & _ & Hsp & Hc).
    exists evs, n. split; [reflexivity|]. split; [exact Hend|].
    rewrite Hsp. exact Hc.
  - vm_compute in He. discriminate He.
Defined.

(** Three chunks, then silence: the loop is left at pass 53, and the two
    lines come back whole. *)
Example pty_chunks_sample :
  (exists evs fx,
     PTYClaudeAgent.execute_command None
       (Sample.pty_chunks ["on"; String "e" (String "010" "tw"); "o"]) 60
       "s1" "hello" Sample.pty_agent = Some (evs, fx) /\
     map (PyDict.get "content") evs = [Some (VStr "one"); Some (VStr "two")]) /\
  pty_leaves_at (Sample.pty_chunks ["on"; String "e" (String "010" "tw"); "o"]) 53
  = true /\
  forallb (fun m => negb (pty_leaves_at
                            (Sample.pty_chunks
                               ["on"; String "e" (String "010" "tw"); "o"]) m))
          (seq 0 53) = true /\
  pty_bytes_read (Sample.pty_chunks ["on"; String "e" (String "010" "tw"); "o"]) 0 53
  = String "o" (String "n" (String "e" (String "010" "two"))).
Proof.
  split; [eexists _, _; split; [vm_compute; reflexivity|reflexivity]|].
  vm_compute. repeat split; reflexivity.
Qed.

Lemma stream_loop_silent o : forall n k c buf,
  50 <= c + n ->
  (forall j, k <= j < k + n ->
     forall data, PTYClaudeAgent.stream_probe o j = PTYClaudeAgent.ProbeData data ->
                  data = "") ->
  exists k', PTYClaudeAgent.stream_loop o n k c buf = Some ([], buf, k').
Proof.
  induction n as [|n IH]; intros k c buf Hc Hq; rewrite stream_loop_unfold.
  - destruct (50 <=? c)%nat eqn:Hle; [eauto|]. apply Nat.leb_gt in Hle. lia.
  - destruct (50 <=? c)%nat eqn:Hle; [eauto|].
    assert (Hrec : exists k',
              PTYClaudeAgent.stream_loop o n (S k) (S c) buf = Some ([], buf, k')).
    { apply IH; [lia|]. intros j Hj. apply Hq. lia. }
    destruct (PTYClaudeAgent.stream_probe o k) as [data| | |errno] eqn:Hp; eauto.
    rewrite (Hq k ltac:(lia) data Hp). simpl. done.
Qed.

Lemma stream_loop_ends o : forall m k c buf,
  (forall j, k + m <= j < k + m + 50 ->
     forall data, PTYClaudeAgent.stream_probe o j = PTYClaudeAgent.ProbeData data ->
                  data = "") ->
  exists r, PTYClaudeAgent.stream_loop o (m + 50) k c buf = Some r.
Proof.
  induction m as [|m IH]; intros k c buf Hq.
  - destruct (stream_loop_silent o 50 k c buf) as [k' Hk]; [lia| |eauto].
    intros j Hj. apply Hq. lia.
  - assert (Hrec : forall c' buf', exists r,
              PTYClaudeAgent.stream_loop o (m + 50) (S k) c' buf' = Some r).
    { intros c' buf'. apply IH. intros j Hj. apply Hq. lia. }
    change (S m + 50) with (S (m + 50)). rewrite stream_loop_unfold.
    destruct (50 <=? c)%nat; [eauto|].
    destruct (PTYClaudeAgent.stream_probe o k) as [data| | |errno]; eauto.
    destruct (bool_decide (data = "")); [eauto|].
    destruct (PTYClaudeAgent.split_lines (buf +:+ data)) as [lines rest].
    destruct (Hrec 0 rest) as [[[evs final] k'] ->]. eauto.
Qed.

Lemma stream_loop_more o : forall fuel k c buf r fuel',
  PTYClaudeAgent.stream_loop o fuel k c buf = Some r ->
  fuel <= fuel' ->
  PTYClaudeAgent.stream_loop o fuel' k c buf = Some r.
Proof.
  induction fuel as [|fuel IH]; intros k c buf r fuel' Hs Hf;
    rewrite stream_loop_unfold in Hs; rewrite stream_loop_unfold;
    destruct (50 <=? c)%nat; try done.
  destruct fuel' as [|fuel']; [lia|].
  assert (Hrec : forall k c buf r,
            PTYClaudeAgent.stream_loop o fuel k c buf = Some r ->
            PTYClaudeAgent.stream_loop o fuel' k c buf = Some r).
  { intros. apply (IH _ _ _ _ fuel'); [done|lia]. }
  destruct (PTYClaudeAgent.stream_probe o k) as [data| | |errno]; auto.
  destruct (bool_decide (data = "")); [auto|].
  destruct (PTYClaudeAgent.split_lines (buf +:+ data)) as [lines rest].
  destruct (PTYClaudeAgent.stream_loop o fuel (S k) 0 rest) as [[[evs final] k']|]
    eqn:Hl; [|done].
  rewrite (Hrec _ _ _ _ Hl). done.
Qed.

(** X20: the stream of a pty session ends once 50 passes in a row have
    brought no bytes (about five seconds), wherever they occur; a pty that
    is silent from the start ends the stream without any event. *)
Theorem pty_stream_ends_after_silence (o : PTYClaudeAgent.StreamOracle)
    (k0 fuel : nat) :
  (forall j, k0 <= j < k0 + 50 ->
     forall data, PTYClaudeAgent.stream_probe o j = PTYClaudeAgent.ProbeData data ->
                  data = "") ->
  k0 + 50 <= fuel ->
  exists evs,
    PTYClaudeAgent._stream_pty_output o fuel = Some evs /\
    (k0 = 0 -> evs = []).
Proof.
  intros Hq Hf. unfold PTYClaudeAgent._stream_pty_output.
  destruct (stream_loop_ends o k0 0 0 "" Hq) as [[[evs final] k'] Hr].
  rewrite (stream_loop_more o _ _ _ _ _ fuel Hr) by lia.
  eexists. split; [reflexivity|]. intros ->.
  destruct (stream_loop_silent o 50 0 0 "") as [k1 Hk1]; [lia|exact Hq|].
  change (0 + 50) with 50 in Hr. rewrite Hk1 in Hr. injection Hr as <- <- <-. done.
Qed.

Lemma pty_stream_ends_after_silence_witness :
  exists evs, PTYClaudeAgent._stream_pty_output (Sample.pty_chunks []) 50 = Some evs /\
              (0 = 0 -> evs = []).
Proof.
  apply (pty_stream_ends_after_silence (Sample.pty_chunks []) 0 50).
  - intros j Hj data Hd. simpl in Hd. destruct j; discriminate Hd.
  - lia.
Defined.

(** ** The CLI agent: bookkeeping of turns *)

Lemma cli_execute_step w sid message a cs :
  PyDict.mem sid (BaseAgent.sessions (ClaudeCodeCLIAgent.base a)) = true ->
  ClaudeCodeCLIAgent.cli_sessions a !! sid = Some cs ->
  let r := ClaudeCodeCLIAgent.execute_command w sid message a in
  ClaudeCodeCLIAgent.base (ClaudeCodeCLIAgent.after r) = ClaudeCodeCLIAgent.base a /\
  ClaudeCodeCLIAgent.claude_path (ClaudeCodeCLIAgent.after r)
  = ClaudeCodeCLIAgent.claude_path a /\
  (ClaudeCodeCLIAgent.status r = ClaudeCodeCLIAgent.Finished ->
   exists cs',
     ClaudeCodeCLIAgent.cli_sessions (ClaudeCodeCLIAgent.after r) !! sid = Some cs' /\
     ClaudeCodeCLIAgent.conversation_turns cs'
     = (ClaudeCodeCLIAgent.conversation_turns cs + 1)%Z /\
     ClaudeCodeCLIAgent.last_command cs' = Some message) /\
  (ClaudeCodeCLIAgent.status r = ClaudeCodeCLIAgent.Blocked ->
   exists cs',
     ClaudeCodeCLIAgent.cli_sessions (ClaudeCodeCLIAgent.after r) !! sid = Some cs' /\
     ClaudeCodeCLIAgent.conversation_turns cs' = ClaudeCodeCLIAgent.conversation_turns cs /\
     ClaudeCodeCLIAgent.last_command cs' = ClaudeCodeCLIAgent.last_command cs).
Proof.
  intros Hm Hc. unfold ClaudeCodeCLIAgent.execute_command. rewrite Hm, Hc.
  destruct (ClaudeCodeCLIAgent._execute_claude_cli _ _ _) as [[[evs fx] token] []];
    simpl; (split; [done|]); (split; [done|]); split; try done; intros _;
    eexists; rewrite lookup_insert_eq; done.
Qed.

(** X21: [get_session_info] of the CLI agent counts the turns that ran to
    their end and remembers the last message sent: after any number of
    completed turns the counter has grown by that number. *)
Theorem cli_info_counts_turns (turns : list (ClaudeCodeCLIAgent.World * string))
    (sid : string) (alive : bool) :
  forall (a : ClaudeCodeCLIAgent.t) (cs : ClaudeCodeCLIAgent.ClaudeCLISession),
  PyDict.mem sid (BaseAgent.sessions (ClaudeCodeCLIAgent.base a)) = true ->
  ClaudeCodeCLIAgent.cli_sessions a !! sid = Some cs ->
  Forall (fun r => ClaudeCodeCLIAgent.status r = ClaudeCodeCLIAgent.Finished)
         (ClaudeCodeCLIAgent.run_turns turns sid a) ->
  let a' := List.last (map ClaudeCodeCLIAgent.after
                         (ClaudeCodeCLIAgent.run_turns turns sid a)) a in
  exists info fields,
    ClaudeCodeCLIAgent.get_session_info alive sid a' = Some (info, Some fields) /\
    BaseAgent.get_session_info alive sid (ClaudeCodeCLIAgent.base a) = Some info /\
    ClaudeCodeCLIAgent.info_conversation_turns fields
    = (ClaudeCodeCLIAgent.conversation_turns cs + Z.of_nat (length turns))%Z /\
    ClaudeCodeCLIAgent.info_last_command fields
    = List.last (map (fun t => Some t.2) turns) (ClaudeCodeCLIAgent.last_command cs) /\
    ClaudeCodeCLIAgent.info_claude_executable fields = ClaudeCodeCLIAgent.claude_path a.
Proof.
  induction turns as [|[w message] turns IH]; intros a cs Hm Hc Hfin a'.
  - unfold a'. simpl. unfold ClaudeCodeCLIAgent.get_session_info.
    unfold PyDict.mem in Hm. unfold BaseAgent.get_session_info.
    destruct (PyDict.get sid _) as [s|]; [|done]. rewrite Hc.
    eexists _, _. split; [reflexivity|]. split; [reflexivity|]. simpl.
    split; [lia|done].
  - simpl in Hfin. apply Forall_cons in Hfin as [Hst Hfin].
    destruct (cli_execute_step w sid message a cs Hm Hc) as (Hb & Hp & Hf & _).
    destruct (Hf Hst) as (cs' & Hc' & Ht & Hlast).
    assert (Hm' : PyDict.mem sid (BaseAgent.sessions (ClaudeCodeCLIAgent.base
                    (ClaudeCodeCLIAgent.after
                       (ClaudeCodeCLIAgent.execute_command w sid message a)))) = true)
      by (rewrite Hb; done).
    destruct (IH _ cs' Hm' Hc' Hfin) as (info & fields & Hi & Hbi & Hn & Hl & He).
    exists info, fields.
    assert (Ha' : a' = List.last (map ClaudeCodeCLIAgent.after
                     (ClaudeCodeCLIAgent.run_turns turns sid
                        (ClaudeCodeCLIAgent.after
                           (ClaudeCodeCLIAgent.execute_command w sid message a))))
                     (ClaudeCodeCLIAgent.after
                        (ClaudeCodeCLIAgent.execute_command w sid message a))).
    { unfold a'. simpl.
      destruct (ClaudeCodeCLIAgent.run_turns turns sid _) as [|r rs]; [done|].
      simpl. clear. revert r. induction rs as [|r' rs IHr]; intros r; [done|].
      simpl. apply (IHr r'). }
    rewrite Ha'. split; [done|]. split; [rewrite <- Hb; done|].
    split; [rewrite Hn, Ht; simpl length; lia|]. split; [|rewrite He, Hp; done].
    rewrite Hl. simpl. rewrite Hlast.
    destruct turns as [|t turns]; [done|]. simpl. clear.
    generalize (Some t.2). induction turns as [|t' turns IHt]; intros d; [done|].
    simpl. destruct turns; [done|]. apply IHt.
Qed.

Lemma cli_info_counts_turns_witness :
  exists info fields,
    ClaudeCodeCLIAgent.get_session_info true "s1"
      (List.last (map ClaudeCodeCLIAgent.after
                    (ClaudeCodeCLIAgent.run_turns
                       [(Sample.cli_world ∅ ["hi"], "one");
                        (Sample.cli_world ∅ ["there"], "two")] "s1" Sample.cli_agent))
         Sample.cli_agent)
    = Some (info, Some fields) /\
    ClaudeCodeCLIAgent.info_conversation_turns fields = 2%Z /\
    ClaudeCodeCLIAgent.info_last_command fields = Some "two".
Proof.
  destruct (cli_info_counts_turns
              [(Sample.cli_world ∅ ["hi"], "one"); (Sample.cli_world ∅ ["there"], "two")]
              "s1" true Sample.cli_agent
              {| ClaudeCodeCLIAgent.session_id := "s1";
                 ClaudeCodeCLIAgent.claude_session_id := None;
                 ClaudeCodeCLIAgent.working_directory := "/srv";
                 ClaudeCodeCLIAgent.conversation_turns := 0;
                 ClaudeCodeCLIAgent.last_command := None |})
    as (info & fields & Hi & _ & Hn & Hl & _).
  - reflexivity.
  - reflexivity.
  - repeat constructor.
  - exists info, fields. split; [exact Hi|]. split; [exact Hn|exact Hl].
Defined.

(** ** The CLI agent: continuation token, environment, life cycle *)

Lemma hex_run_spec n : forall s r,
  ClaudeCodeCLIAgent.hex_run n s = Some r ->
  exists h, s = h +:+ r /\ String.length h = n /\
            forall r', ClaudeCodeCLIAgent.hex_run n (h +:+ r') = Some r'.
Proof.
  induction n as [|n IH]; intros s r Hr.
  - simpl in Hr. injection Hr as ->. exists "". done.
  - simpl in Hr. destruct s as [|c s]; [done|].
    destruct (ClaudeCodeCLIAgent.is_hex c) eqn:Hc; [|done].
    destruct (IH _ _ Hr) as (h & -> & Hlen & Hre).
    exists (String c h). split; [done|]. split; [simpl; lia|].
    intros r'. rewrite str_app_cons. simpl. rewrite Hc. apply Hre.
Qed.

Lemma dash_spec x r :
  ClaudeCodeCLIAgent.dash x = Some r -> x = Some (String "-" r).
Proof.
  destruct x as [[|c s]|]; simpl; try done.
  destruct c as [[] [] [] [] [] [] [] []]; try done. intros [= ->]. done.
Qed.

Lemma str_length_app (a b : string) :
  String.length (a +:+ b) = String.length a + String.length b.
Proof. induction a as [|c a IH]; [done|]. rewrite str_app_cons. simpl. lia. Qed.

Lemma substring_prefix (u r : string) :
  String.substring 0 (String.length u) (u +:+ r) = u.
Proof.
  induction u as [|c u IH].
  - simpl. destruct ("" +:+ r); done.
  - rewrite str_app_cons. simpl. rewrite IH. done.
Qed.

Lemma uuid_at_spec s :
  ClaudeCodeCLIAgent.uuid_at s = true ->
  exists u r, s = u +:+ r /\ String.length u = 36 /\
              ClaudeCodeCLIAgent.uuid_at u = true.
Proof.
  unfold ClaudeCodeCLIAgent.uuid_at.
  destruct (ClaudeCodeCLIAgent.hex_run 8 s) as [r1|] eqn:H1; [|done].
  destruct (ClaudeCodeCLIAgent.dash (Some r1)) as [r1'|] eqn:D1; [|done].
  destruct (ClaudeCodeCLIAgent.hex_run 4 r1') as [r2|] eqn:H2; [|done].
  destruct (ClaudeCodeCLIAgent.dash (Some r2)) as [r2'|] eqn:D2; [|done].
  destruct (ClaudeCodeCLIAgent.hex_run 4 r2') as [r3|] eqn:H3; [|done].
  destruct (ClaudeCodeCLIAgent.dash (Some r3)) as [r3'|] eqn:D3; [|done].
  destruct (ClaudeCodeCLIAgent.hex_run 4 r3') as [r4|] eqn:H4; [|done].
  destruct (ClaudeCodeCLIAgent.dash (Some r4)) as [r4'|] eqn:D4; [|done].
  destruct (ClaudeCodeCLIAgent.hex_run 12 r4') as [r5|] eqn:H5; [|done].
  intros _.
  apply dash_spec in D1, D2, D3, D4.
  injection D1 as ->. injection D2 as ->. injection D3 as ->. injection D4 as ->.
  apply hex_run_spec in H1 as (h1 & -> & L1 & R1).
  apply hex_run_spec in H2 as (h2 & -> & L2 & R2).
  apply hex_run_spec in H3 as (h3 & -> & L3 & R3).
  apply hex_run_spec in H4 as (h4 & -> & L4 & R4).
  apply hex_run_spec in H5 as (h5 & -> & L5 & R5).
  exists (h1 +:+ String "-" (h2 +:+ String "-" (h3 +:+ String "-"
            (h4 +:+ String "-" h5)))), r5.
  split; [|split].
  - rewrite !str_app_assoc. repeat (rewrite ?str_app_cons, ?str_app_assoc). done.
  - rewrite !str_length_app. simpl. rewrite !str_length_app. simpl.
    rewrite !str_length_app. simpl. rewrite !str_length_app. simpl. lia.
  - assert (Hd : forall r, ClaudeCodeCLIAgent.dash (Some (String "-" r)) = Some r)
      by reflexivity.
    rewrite R1, Hd. cbv beta iota. rewrite R2, Hd. cbv beta iota.
    rewrite R3, Hd. cbv beta iota. rewrite R4, Hd. cbv beta iota.
    rewrite <- (str_app_nil_r h5), R5. done.
Qed.

(** X22: the continuation token taken from a line of output is the leftmost
    part of the line that has the form of a UUID: 36 characters, hex
    digits in groups of 8-4-4-4-12 separated by dashes. *)
Theorem extracted_session_id_shape (text tok : string) :
  ClaudeCodeCLIAgent._extract_claude_session_id text = Some tok ->
  String.length tok = 36 /\
  ClaudeCodeCLIAgent.uuid_at tok = true /\
  exists pre post,
    text = pre +:+ tok +:+ post /\
    forall p1 p2, pre = p1 +:+ p2 -> p2 <> "" ->
                  ClaudeCodeCLIAgent.uuid_at (p2 +:+ tok +:+ post) = false.
Proof.
  assert (Hunfold : forall t,
            ClaudeCodeCLIAgent._extract_claude_session_id t
            = if ClaudeCodeCLIAgent.uuid_at t then Some (String.substring 0 36 t)
              else match t with
                   | EmptyString => None
                   | String _ t' => ClaudeCodeCLIAgent._extract_claude_session_id t'
                   end)
    by (intros []; reflexivity).
  induction text as [|c text IH]; rewrite Hunfold.
  - destruct (ClaudeCodeCLIAgent.uuid_at "") eqn:Hu; [|done].
    vm_compute in Hu. done.
  - destruct (ClaudeCodeCLIAgent.uuid_at (String c text)) eqn:Hu.
    + destruct (uuid_at_spec _ Hu) as (u & r & Heq & Hlen & Huu).
      assert (Hsub : String.substring 0 36 (String c text) = u).
      { rewrite Heq, <- Hlen. apply substring_prefix. }
      rewrite Hsub. intros [= <-]. split; [done|]. split; [done|]. exists "", r. split; [done|].
      intros p1 p2 Hp Hne. destruct p1, p2; done.
    + intros Hex. destruct (IH Hex) as (Hlen & Huu & pre & post & Heq & Hleft).
      split; [done|]. split; [done|]. exists (String c pre), post.
      split; [rewrite str_app_cons, Heq; done|].
      intros p1 p2 Hp Hne. destruct p1 as [|c1 p1].
      * change ("" +:+ p2) with p2 in Hp. subst p2.
        rewrite str_app_cons, <- Heq. done.
      * rewrite str_app_cons in Hp. injection Hp as -> ->. apply (Hleft p1 p2); done.
Qed.

Lemma extracted_session_id_shape_witness :
  String.length "123e4567-e89b-12d3-a456-426614174000" = 36.
Proof.
  apply (extracted_session_id_shape Sample.uuid_line
           "123e4567-e89b-12d3-a456-426614174000").
  vm_compute. reflexivity.
Defined.

(** X23: the child of the CLI agent always finds the two XDG directories
    defined: a value set in the parent environment is passed on unchanged,
    a missing one is placed under the home directory. *)
Theorem cli_child_env_xdg (environ : gmap string string) (home : string) :
  let env := ClaudeCodeCLIAgent.child_env environ home in
  (forall v, environ !! "XDG_CONFIG_HOME" = Some v -> env !! "XDG_CONFIG_HOME" = Some v) /\
  (environ !! "XDG_CONFIG_HOME" = None ->
   env !! "XDG_CONFIG_HOME" = Some (ClaudeCodeCLIAgent.path_join home ".config")) /\
  (forall v, environ !! "XDG_CACHE_HOME" = Some v -> env !! "XDG_CACHE_HOME" = Some v) /\
  (environ !! "XDG_CACHE_HOME" = None ->
   env !! "XDG_CACHE_HOME" = Some (ClaudeCodeCLIAgent.path_join home ".cache")).
Proof.
  unfold ClaudeCodeCLIAgent.child_env.
  set (env0 := <["HOME" := home]> environ).
  set (env1 := match env0 !! "ANTHROPIC_API_KEY" with
               | Some v => if bool_decide (v ∈ ClaudeCodeCLIAgent.placeholders)
                           then delete "ANTHROPIC_API_KEY" env0 else env0
               | None => env0
               end).
  assert (H1 : forall k, k <> "HOME" -> k <> "ANTHROPIC_API_KEY" ->
                         env1 !! k = environ !! k).
  { intros k Hk1 Hk2. unfold env1, env0.
    destruct (_ !! "ANTHROPIC_API_KEY") as [v|]; [destruct (bool_decide _)|];
      rewrite ?lookup_delete_ne by done; rewrite lookup_insert_ne by done; done. }
  pose proof (H1 "XDG_CONFIG_HOME" ltac:(done) ltac:(done)) as Hc.
  pose proof (H1 "XDG_CACHE_HOME" ltac:(done) ltac:(done)) as Hk.
  set (env2 := match env1 !! "XDG_CONFIG_HOME" with
               | Some _ => env1
               | None => <["XDG_CONFIG_HOME" :=
                             ClaudeCodeCLIAgent.path_join home ".config"]> env1
               end).
  assert (H2c : env2 !! "XDG_CONFIG_HOME"
                = Some (match environ !! "XDG_CONFIG_HOME" with
                        | Some v => v
                        | None => ClaudeCodeCLIAgent.path_join home ".config"
                        end)).
  { unfold env2. rewrite <- Hc. destruct (env1 !! "XDG_CONFIG_HOME") eqn:He; [done|].
    apply lookup_insert_eq. }
  assert (H2k : env2 !! "XDG_CACHE_HOME" = environ !! "XDG_CACHE_HOME").
  { unfold env2. destruct (env1 !! "XDG_CONFIG_HOME"); [done|].
    rewrite lookup_insert_ne by done. done. }
  cbv zeta. fold env2. rewrite H2k.
  destruct (environ !! "XDG_CACHE_HOME") as [vk|] eqn:Hek.
  - rewrite H2c, H2k. repeat split; try done;
      try (intros v Hv; rewrite Hv; done); try (intros Hv; rewrite Hv; done).
  - rewrite lookup_insert_ne, H2c by done. rewrite lookup_insert_eq.
    repeat split; try done;
      try (intros v Hv; rewrite Hv; done); try (intros Hv; rewrite Hv; done).
Qed.

Lemma cli_child_env_xdg_witness :
  ClaudeCodeCLIAgent.child_env {[ "XDG_CONFIG_HOME" := "/etc/xdg" ]} "/home/bot"
    !! "XDG_CACHE_HOME"
  = Some (ClaudeCodeCLIAgent.path_join "/home/bot" ".cache").
Proof.
  apply (cli_child_env_xdg {[ "XDG_CONFIG_HOME" := "/etc/xdg" ]} "/home/bot").
  reflexivity.
Defined.

(** X24: below the cap, terminating a CLI session right after it was created
    gives back the agent as it was, both in the inherited session map and
    in the map of CLI sessions. *)
Theorem cli_create_then_terminate_restores
    (e : BaseAgent.CreateEnv BaseAgent.TermOracle) (o : BaseAgent.TermOracle)
    (user : string) (wd : option string) (a : ClaudeCodeCLIAgent.t) :
  PyDict.get (BaseAgent.uuid4 e) (BaseAgent.sessions (ClaudeCodeCLIAgent.base a)) = None ->
  ClaudeCodeCLIAgent.cli_sessions a !! BaseAgent.uuid4 e = None ->
  (Z.of_nat (length (BaseAgent.user_sessions user (ClaudeCodeCLIAgent.base a)))
   < AgentConfig.max_sessions (BaseAgent.config (ClaudeCodeCLIAgent.base a)))%Z ->
  let out := ClaudeCodeCLIAgent.create_session e user wd a in
  out.1 = (Ok (BaseAgent.uuid4 e), []) /\
  ClaudeCodeCLIAgent.cli_sessions out.2 !! BaseAgent.uuid4 e <> None /\
  ClaudeCodeCLIAgent.terminate_session o (BaseAgent.uuid4 e) out.2 = (true, [], a).
Proof.
  intros Hfresh Hcli Hlt.
  unfold ClaudeCodeCLIAgent.create_session, BaseAgent.create_session. simpl.
  destruct (_ <=? _)%Z eqn:Hle; [apply Z.leb_le in Hle; lia|]. simpl.
  split; [done|]. split; [rewrite lookup_insert_eq; done|].
  unfold ClaudeCodeCLIAgent.terminate_session, BaseAgent.terminate_session. simpl.
  rewrite get_set_eq. simpl. rewrite set_fresh by done.
  rewrite del_snoc_fresh by done. rewrite delete_insert_id by done.
  destruct a as [[cfg d] m path]. done.
Qed.

Lemma cli_create_then_terminate_restores_witness :
  ClaudeCodeCLIAgent.terminate_session Sample.quiet "s2"
    (ClaudeCodeCLIAgent.create_session (Sample.env "s2" 20) "u" None Sample.cli_agent).2
  = (true, [], Sample.cli_agent).
Proof.
  apply (cli_create_then_terminate_restores (Sample.env "s2" 20) Sample.quiet "u" None
           Sample.cli_agent); [reflexivity|reflexivity|vm_compute; reflexivity].
Defined.

Lemma cli_tag_keys sid ev :
  PyDict.get "agent_type" (ClaudeCodeCLIAgent.tag sid ev) = Some (VStr "claude_cli") /\
  PyDict.get "session_id" (ClaudeCodeCLIAgent.tag sid ev) = Some (VStr sid).
Proof.
  unfold ClaudeCodeCLIAgent.tag. split; [apply get_set_eq|].
  rewrite get_set_ne by done. apply get_set_eq.
Qed.

(** X25: every event of a turn of the CLI agent names the session and
    carries the agent type "claude_cli"; that is the value of no
    [AgentType], so it never equals the agent type that
    [get_session_info] reports for the same session. *)
Theorem cli_events_agent_type (w : ClaudeCodeCLIAgent.World) (sid message : string)
    (a : ClaudeCodeCLIAgent.t) :
  PyDict.mem sid (BaseAgent.sessions (ClaudeCodeCLIAgent.base a)) = true ->
  ClaudeCodeCLIAgent.cli_sessions a !! sid <> None ->
  Forall (fun ev => PyDict.get "agent_type" ev = Some (VStr "claude_cli") /\
                    PyDict.get "session_id" ev = Some (VStr sid))
         (ClaudeCodeCLIAgent.events (ClaudeCodeCLIAgent.execute_command w sid message a)) /\
  forall alive info fields,
    ClaudeCodeCLIAgent.get_session_info alive sid a = Some (info, fields) ->
    BaseAgent.info_agent_type info <> "claude_cli".
Proof.
  intros Hm Hc. split.
  - unfold ClaudeCodeCLIAgent.execute_command. rewrite Hm.
    destruct (ClaudeCodeCLIAgent.cli_sessions a !! sid) as [cs|]; [|done].
    destruct (ClaudeCodeCLIAgent._execute_claude_cli _ _ _) as [[[evs fx] token] []];
      simpl; (constructor; [done|]); apply List.Forall_forall; intros ev Hin;
      apply in_map_iff in Hin as (ev0 & <- & _); apply cli_tag_keys.
  - intros alive info fields. unfold ClaudeCodeCLIAgent.get_session_info.
    unfold BaseAgent.get_session_info.
    destruct (PyDict.get sid _) as [s|]; [|done]. intros [= <- _]. simpl.
    destruct (Session.agent_type s); done.
Qed.

Lemma cli_events_agent_type_witness :
  Forall (fun ev => PyDict.get "agent_type" ev = Some (VStr "claude_cli") /\
                    PyDict.get "session_id" ev = Some (VStr "s1"))
         (ClaudeCodeCLIAgent.events
            (ClaudeCodeCLIAgent.execute_command (Sample.cli_world ∅ ["hi"]) "s1" "hello"
               Sample.cli_agent)).
Proof.
  apply (cli_events_agent_type (Sample.cli_world ∅ ["hi"]) "s1" "hello" Sample.cli_agent).
  - reflexivity.
  - simpl. discriminate.
Defined.

(** ** The manager: registry invariant and dispatch *)

Lemma mem_keys {V} (k : string) (d : list (string * V)) :
  PyDict.mem k d = true <-> In k (PyDict.keys d).
Proof.
  rewrite mem_true_iff. split.
  - intros Hg. destruct (PyDict.get k d) eqn:He; [|done].
    apply get_Some_In in He. apply in_map_iff. exists (k, v). done.
  - intros Hin Hg. apply get_None_keys in Hg. done.
Qed.

Lemma create_session_wf_keys e user wd (a : BaseAgent.t) :
  wf_sessions (BaseAgent.sessions a) ->
  PyDict.get (BaseAgent.uuid4 e) (BaseAgent.sessions a) = None ->
  let out := @BaseAgent.create_session BaseAgent.t BaseAgent.BaseAgent_Self
               e user wd a in
  wf_sessions (BaseAgent.sessions out.2) /\
  (forall k, In k (PyDict.keys (BaseAgent.sessions out.2)) ->
             k = BaseAgent.uuid4 e \/ In k (PyDict.keys (BaseAgent.sessions a))) /\
  (forall sid, out.1.1 = Ok sid ->
     sid = BaseAgent.uuid4 e /\
     exists s, PyDict.get sid (BaseAgent.sessions out.2) = Some s /\
               Session.id s = sid /\ Session.user_id s = user).
Proof.
  intros Hwf Hfresh out.
  destruct (@create_session_cases BaseAgent.t BaseAgent.BaseAgent_Self BaseAgent_Lawful
              e user wd a Hwf Hfresh) as [_ Hcases].
  fold out in Hcases. simpl in Hcases.
  destruct Hcases as [(_ & Hr & s & Hd & Hid & Hu & _)|[(_ & _ & Hr & Ha)|
                      (_ & Hr & oldest & s & Hmin & Hd & Hid & Hu & _)]].
  - rewrite Hd. split; [apply wf_sessions_snoc; done|]. split.
    + intros k Hin. unfold PyDict.keys in Hin. rewrite List.map_app in Hin.
      apply List.in_app_iff in Hin as [Hin|[<-|[]]]; auto.
    + intros sid Hs. rewrite Hr in Hs. injection Hs as <-. split; [done|].
      exists s. split; [|done]. rewrite get_app.
      destruct (PyDict.get _ (BaseAgent.sessions a)) eqn:Hg; [congruence|].
      simpl. destruct (decide _); [done|congruence].
  - rewrite Ha. split; [done|]. split; [auto|].
    intros sid Hs. rewrite Hs in Hr. done.
  - assert (Hfd : PyDict.get (BaseAgent.uuid4 e)
                    (PyDict.del (Session.id oldest) (BaseAgent.sessions a)) = None).
    { destruct (decide (Session.id oldest = BaseAgent.uuid4 e)) as [Heq|Hne].
      - rewrite <- Heq. apply get_del_eq. apply Hwf.
      - rewrite get_del_ne by done. done. }
    rewrite Hd. split; [apply wf_sessions_snoc; [apply wf_sessions_del| |]; done|].
    split.
    + intros k Hin. unfold PyDict.keys in Hin. rewrite List.map_app in Hin.
      apply List.in_app_iff in Hin as [Hin|[<-|[]]]; auto.
      right. eapply keys_del_incl. exact Hin.
    + intros sid Hs. rewrite Hr in Hs. injection Hs as <-. split; [done|].
      exists s. split; [|done]. rewrite get_app.
      destruct (PyDict.get _ (PyDict.del _ _)) eqn:Hg; [congruence|].
      simpl. destruct (decide _); [done|congruence].
Qed.

(** X26: the manager can address every session its agents hold: that the
    registry maps each held session to the agent holding it is kept by
    creating a session under a new non-empty id and by terminating any
    session. *)
Theorem manager_registry_invariant (m : AgentManager.t BaseAgent.t) :
  registry_inv m ->
  (forall o agent_type user wd r fx m',
     AgentManager.create_session (Ops := AgentManager.BaseAgent_Ops)
       o agent_type user wd m = Some (r, fx, m') ->
     BaseAgent.uuid4 o <> "" ->
     AgentManager.session_to_agent m !! BaseAgent.uuid4 o = None ->
     registry_inv m') /\
  (forall o sid,
     registry_inv (AgentManager.terminate_session (Ops := AgentManager.BaseAgent_Ops)
                     o sid m).2) /\
  (forall sid, AgentManager.live (Ops := AgentManager.BaseAgent_Ops) sid m = true ->
               AgentManager.session_to_agent m !! sid <> None).
Proof.
  intros [Hnd Hinv]. split; [|split].
  - intros o ty user wd r fx m' Hc Hne Hun.
    unfold AgentManager.create_session in Hc.
    destruct (PyDict.get ty (AgentManager.agents m)) as [agent|] eqn:Hag.
    2:{ injection Hc as <- <- <-. done. }
    simpl in Hc.
    destruct (Hinv ty agent Hag) as [Hwf Hmap].
    assert (Hfresh : PyDict.get (BaseAgent.uuid4 o) (BaseAgent.sessions agent) = None).
    { destruct (PyDict.get (BaseAgent.uuid4 o) (BaseAgent.sessions agent)) eqn:Hg;
        [|done].
      rewrite (Hmap (BaseAgent.uuid4 o)) in Hun; [done|].
      unfold PyDict.mem. rewrite Hg. done. }
    destruct (create_session_wf_keys o user wd agent Hwf Hfresh) as (Hwf' & Hkeys & Hok).
    destruct (@BaseAgent.create_session BaseAgent.t BaseAgent.BaseAgent_Self
                o user wd agent) as [[res fx0] agent'] eqn:Hcs.
    simpl in *.
    assert (Hold : forall ty' ag sid,
              ty' <> ty -> PyDict.get ty' (AgentManager.agents m) = Some ag ->
              PyDict.mem sid (BaseAgent.sessions ag) = true ->
              AgentManager.session_to_agent m !! sid = Some ty' /\
              sid <> BaseAgent.uuid4 o).
    { intros ty' ag sid Hty Hg Hm. destruct (Hinv ty' ag Hg) as [_ Hmap'].
      split; [auto|]. intros ->. rewrite (Hmap' _ Hm) in Hun. done. }
    assert (Hnew : forall sid, PyDict.mem sid (BaseAgent.sessions agent') = true ->
              sid = BaseAgent.uuid4 o \/
              (sid <> BaseAgent.uuid4 o /\
               AgentManager.session_to_agent m !! sid = Some ty)).
    { intros sid Hm. apply mem_keys in Hm. destruct (Hkeys sid Hm) as [->|Hin]; [auto|].
      destruct (decide (sid = BaseAgent.uuid4 o)) as [->|Hd]; [auto|].
      right. split; [done|]. apply Hmap. apply mem_keys. done. }
    assert (Hnd' : List.NoDup (PyDict.keys (PyDict.set ty agent' (AgentManager.agents m)))).
    { erewrite keys_set_present; [done|exact Hag]. }
    destruct res as [sid0|ex]; injection Hc as <- <- <-.
    + destruct (Hok sid0 eq_refl) as [-> _].
      rewrite bool_decide_eq_false_2 by done. split; [done|].
      intros ty' ag Hg. simpl in Hg.
      destruct (decide (ty = ty')) as [<-|Hty].
      * rewrite get_set_eq in Hg. injection Hg as <-. split; [done|].
        intros sid Hm. simpl. destruct (Hnew sid Hm) as [->|[Hd Hs]].
        -- apply lookup_insert_eq.
        -- rewrite lookup_insert_ne by done. done.
      * rewrite get_set_ne in Hg by done. split; [apply (Hinv ty' ag Hg)|].
        intros sid Hm. simpl.
        destruct (Hold ty' ag sid ltac:(congruence) Hg Hm) as [Hs Hd].
        rewrite lookup_insert_ne by done. done.
    + assert (Hsame : agent' = agent).
      { destruct (@create_session_cases BaseAgent.t BaseAgent.BaseAgent_Self
                    BaseAgent_Lawful o user wd agent Hwf Hfresh) as [_ Hcases].
        rewrite Hcs in Hcases. simpl in Hcases.
        destruct Hcases as [(_ & Hr & _)|[(_ & _ & _ & Ha)|(_ & Hr & _)]];
          try discriminate Hr. done. }
      subst agent'. split; [done|].
      intros ty' ag Hg. simpl in Hg.
      destruct (decide (ty = ty')) as [<-|Hty].
      * rewrite get_set_eq in Hg. injection Hg as <-. done.
      * rewrite get_set_ne in Hg by done. apply (Hinv ty' ag Hg).
  - intros o sid. unfold AgentManager.terminate_session.
    destruct (AgentManager.session_to_agent m !! sid) as [ty|] eqn:Hs; [|done].
    destruct (PyDict.get ty (AgentManager.agents m)) as [agent|] eqn:Hag; [|done].
    simpl. destruct (Hinv ty agent Hag) as [Hwf Hmap].
    unfold BaseAgent.terminate_session.
    destruct (PyDict.get sid (BaseAgent.sessions agent)) as [s|] eqn:Hg;
      unfold registry_inv; simpl;
      (split; [erewrite keys_set_present; [done|exact Hag]|]).
    + intros ty' ag Hg'. simpl in Hg'.
      destruct (decide (ty = ty')) as [<-|Hty].
      * rewrite get_set_eq in Hg'. injection Hg' as <-. simpl.
        split; [apply wf_sessions_del; done|].
        intros sid' Hm. assert (sid' <> sid).
        { intros ->. unfold PyDict.mem in Hm. rewrite get_del_eq in Hm; [done|apply Hwf]. }
        rewrite lookup_delete_ne by done. apply Hmap.
        apply mem_keys. apply mem_keys in Hm. eapply keys_del_incl. exact Hm.
      * rewrite get_set_ne in Hg' by done. destruct (Hinv ty' ag Hg') as [Hwf' Hmap'].
        split; [done|]. intros sid' Hm. simpl.
        assert (sid' <> sid).
        { intros ->. rewrite (Hmap' _ Hm) in Hs. congruence. }
        rewrite lookup_delete_ne by done. auto.
    + intros ty' ag Hg'. simpl in Hg'.
      destruct (decide (ty = ty')) as [<-|Hty].
      * rewrite get_set_eq in Hg'. injection Hg' as <-. done.
      * rewrite get_set_ne in Hg' by done. apply (Hinv ty' ag Hg').
  - intros sid Hlive. unfold AgentManager.live in Hlive.
    apply existsb_exists in Hlive as ([ty agent] & Hin & Hm). simpl in Hm.
    apply In_get in Hin; [|done].
    destruct (Hinv ty agent Hin) as [_ Hmap]. rewrite (Hmap _ Hm). done.
Qed.

Lemma manager_registry_invariant_witness :
  registry_inv
    (AgentManager.terminate_session (Ops := AgentManager.BaseAgent_Ops)
       Sample.quiet "s1"
       (AgentManager.register_agent CLAUDE_CODE Sample.one_shot_agent
          {| AgentManager.agents := [];
             AgentManager.session_to_agent := {[ "s1" := CLAUDE_CODE ]} |})).2.
Proof.
  apply (manager_registry_invariant
           (AgentManager.register_agent CLAUDE_CODE Sample.one_shot_agent
              {| AgentManager.agents := [];
                 AgentManager.session_to_agent := {[ "s1" := CLAUDE_CODE ]} |})).
  split; [repeat constructor; simpl; tauto|].
  intros ty agent Hg. simpl in Hg. destruct (decide (ty = CLAUDE_CODE)); [|done].
  injection Hg as <-. subst ty. split.
  - split; [repeat constructor; simpl; tauto|]. repeat constructor.
  - intros sid Hm. unfold PyDict.mem in Hm. simpl in Hm.
    destruct (decide (sid = "s1")); [|done]. subst sid. reflexivity.
Defined.

Lemma set_same {K V} `{EqDecision K} (k : K) (v : V) d :
  PyDict.get k d = Some v -> PyDict.set k v d = d.
Proof.
  induction d as [|[k' v'] d IH]; simpl; [done|].
  destruct (decide (k = k')) as [->|Hne]; [congruence|].
  intros Hg. rewrite IH by done. done.
Qed.

(** X27: a message for a session that no agent holds gets exactly the
    "Session not found" event, and a look-up gets nothing, whether the id
    is unknown to the manager or still in its registry; nothing is started
    and the manager is left as it was. *)
Theorem manager_dispatch_not_live (h : BaseAgent.Hooks) (w : BaseAgent.World)
    (fuel : nat) (alive : bool) (sid message : string) (m : AgentManager.t BaseAgent.t) :
  (forall agent_type,
     AgentManager.session_to_agent m !! sid = Some agent_type ->
     PyDict.get agent_type (AgentManager.agents m) <> None) ->
  AgentManager.live (Ops := AgentManager.BaseAgent_Ops) sid m = false ->
  AgentManager.execute_command (one_shot_execute h w fuel) sid message m
  = (Ok [BaseAgent.not_found_event sid], [], m) /\
  AgentManager.get_session_info (BaseAgent.get_session_info alive) sid m = Ok None.
Proof.
  intros Hreg Hlive.
  unfold AgentManager.execute_command, AgentManager.get_session_info.
  destruct (AgentManager.session_to_agent m !! sid) as [ty|] eqn:Hs; [|done].
  destruct (PyDict.get ty (AgentManager.agents m)) as [agent|] eqn:Hag;
    [|destruct (Hreg ty eq_refl Hag)].
  assert (Hg : PyDict.get sid (BaseAgent.sessions agent) = None).
  { apply mem_false_iff. apply not_true_iff_false. intros Hm.
    apply not_true_iff_false in Hlive. apply Hlive.
    unfold AgentManager.live. apply existsb_exists. exists (ty, agent).
    split; [apply get_Some_In; done|done]. }
  unfold one_shot_execute, BaseAgent.execute_command, BaseAgent.get_session_info.
  rewrite Hg. simpl. rewrite set_same by done. destruct m; done.
Qed.

Lemma manager_dispatch_not_live_witness :
  AgentManager.execute_command
    (one_shot_execute (ClaudeCodeAgent.hooks (Sample.cfg 5) Sample.no_str)
       Sample.silent_world 10)
    "s1" "hello"
    (AgentManager.register_agent CLAUDE_CODE (BaseAgent.init (Sample.cfg 5))
       {| AgentManager.agents := [];
          AgentManager.session_to_agent := {[ "s1" := CLAUDE_CODE ]} |})
  = (Ok [BaseAgent.not_found_event "s1"], [],
     AgentManager.register_agent CLAUDE_CODE (BaseAgent.init (Sample.cfg 5))
       {| AgentManager.agents := [];
          AgentManager.session_to_agent := {[ "s1" := CLAUDE_CODE ]} |}).
Proof.
  apply (manager_dispatch_not_live
           (ClaudeCodeAgent.hooks (Sample.cfg 5) Sample.no_str) Sample.silent_world 10
           true "s1" "hello"
           (AgentManager.register_agent CLAUDE_CODE (BaseAgent.init (Sample.cfg 5))
              {| AgentManager.agents := [];
                 AgentManager.session_to_agent := {[ "s1" := CLAUDE_CODE ]} |})).
  - intros ty Hty. vm_compute in Hty. injection Hty as <-. simpl. discriminate.
  - reflexivity.
Defined.

Lemma create_session_stores e user wd (a : BaseAgent.t) sid fx a' :
  @BaseAgent.create_session BaseAgent.t BaseAgent.BaseAgent_Self e user wd a
  = (Ok sid, fx, a') ->
  exists s, PyDict.get sid (BaseAgent.sessions a') = Some s /\
            Session.id s = sid /\ Session.user_id s = user.
Proof.
  unfold BaseAgent.create_session. simpl.
  destruct (_ <=? _)%Z.
  - destruct (BaseAgent.py_min _) as [oldest|]; [|done].
    destruct (BaseAgent.terminate_session _ _ a) as [[ok fx0] a0].
    intros [= <- <- <-]. simpl. rewrite get_set_eq. eauto.
  - intros [= <- <- <-]. simpl. rewrite get_set_eq. eauto.
Qed.

(** X28: a session created through the manager can at once be looked up
    through the manager, which hands back the owning agent's record of it;
    the session is then live. *)
Theorem manager_create_then_info
    (o : BaseAgent.CreateEnv BaseAgent.TermOracle) (agent_type : AgentType)
    (user : string) (wd : option string) (m m' : AgentManager.t BaseAgent.t)
    (sid : string) (fx : list OsEffect) (alive : bool) :
  AgentManager.create_session (Ops := AgentManager.BaseAgent_Ops)
    o agent_type user wd m = Some (Ok (Some sid), fx, m') ->
  sid <> "" ->
  AgentManager.live (Ops := AgentManager.BaseAgent_Ops) sid m' = true /\
  AgentManager.session_to_agent m' !! sid = Some agent_type /\
  exists info,
    AgentManager.get_session_info (BaseAgent.get_session_info alive) sid m'
    = Ok (Some info) /\
    BaseAgent.info_id info = sid /\
    BaseAgent.info_user_id info = user.
Proof.
  intros Hc Hne. unfold AgentManager.create_session in Hc.
  destruct (PyDict.get agent_type (AgentManager.agents m)) as [agent|] eqn:Hag;
    [|done].
  simpl in Hc.
  destruct (@BaseAgent.create_session BaseAgent.t BaseAgent.BaseAgent_Self
              o user wd agent) as [[res fx0] agent'] eqn:Hcs.
  destruct res as [sid0|ex]; [|done]. injection Hc as -> <- <-.
  rewrite bool_decide_eq_false_2 by done.
  destruct (create_session_stores _ _ _ _ _ _ _ Hcs) as (s & Hg & Hid & Hu).
  split; [|split].
  - unfold AgentManager.live. simpl. apply existsb_exists. exists (agent_type, agent').
    split; [apply get_Some_In; apply get_set_eq|].
    simpl. unfold PyDict.mem. rewrite Hg. done.
  - simpl. apply lookup_insert_eq.
  - unfold AgentManager.get_session_info. simpl. rewrite lookup_insert_eq, get_set_eq.
    unfold BaseAgent.get_session_info. rewrite Hg. eexists. split; [reflexivity|].
    simpl. done.
Qed.

Lemma manager_create_then_info_witness :
  AgentManager.live (Ops := AgentManager.BaseAgent_Ops) "s1"
    (AgentManager.mk
       [(CLAUDE_CODE, BaseAgent.mk (Sample.cfg 5) [("s1", Sample.session "s1" "u" 10)])]
       {[ "s1" := CLAUDE_CODE ]}) = true.
Proof.
  apply (manager_create_then_info (Sample.env "s1" 10) CLAUDE_CODE "u" None
           (AgentManager.register_agent CLAUDE_CODE (BaseAgent.init (Sample.cfg 5))
              AgentManager.init)
           (AgentManager.mk
              [(CLAUDE_CODE,
                BaseAgent.mk (Sample.cfg 5) [("s1", Sample.session "s1" "u" 10)])]
              {[ "s1" := CLAUDE_CODE ]})
           "s1" [] true).
  - vm_compute. reflexivity.
  - discriminate.
Defined.

(** ** Listing across agents *)

Lemma list_sessions_all alive (a : BaseAgent.t) :
  wf_sessions (BaseAgent.sessions a) ->
  map BaseAgent.info_id (BaseAgent.listed (BaseAgent.list_sessions alive None a))
  = PyDict.keys (BaseAgent.sessions a).
Proof.
  intros Hwf. unfold BaseAgent.list_sessions. simpl.
  rewrite <- (wf_sessions_ids _ Hwf).
  assert (Hget : forall l : list Session.t,
            (forall s, In s l ->
               PyDict.get (Session.id s) (BaseAgent.sessions a) = Some s) ->
            map BaseAgent.info_id
              (flat_map
                 (fun session =>
                    match BaseAgent.get_session_info (alive (Session.id session))
                            (Session.id session) a with
                    | Some info => [info]
                    | None => []
                    end) l)
            = map Session.id l).
  { induction l as [|s l IH]; intros Hl; [done|]. simpl.
    unfold BaseAgent.get_session_info at 1. rewrite Hl by (left; done). simpl.
    f_equal. apply IH. intros; apply Hl; right; done. }
  apply Hget. intros s. apply wf_sessions_get. done.
Qed.

(** X29: the manager's listing of all sessions counts what it lists, and
    lists exactly the sessions that some agent holds. *)
Theorem manager_lists_live_sessions (alive : string -> bool)
    (m : AgentManager.t BaseAgent.t) :
  registry_inv m ->
  let r := AgentManager.list_all_sessions alive None m in
  r.1.2 = length r.1.1 /\
  (forall sid, In sid (map BaseAgent.info_id r.1.1)
               <-> AgentManager.live (Ops := AgentManager.BaseAgent_Ops) sid m = true) /\
  r.2 = map AgentTypeValue.value (PyDict.keys (AgentManager.agents m)).
Proof.
  intros [Hnd Hinv]. unfold AgentManager.list_all_sessions, AgentManager.live. simpl.
  assert (Hwf : forall ta, In ta (AgentManager.agents m) ->
                           wf_sessions (BaseAgent.sessions ta.2)).
  { intros [ty agent] Hin. apply (Hinv ty agent). apply In_get; done. }
  cut (list_sum (map BaseAgent.total
                   (map (fun ta => BaseAgent.list_sessions alive None ta.2)
                        (AgentManager.agents m)))
       = length (concat (map BaseAgent.listed
                   (map (fun ta => BaseAgent.list_sessions alive None ta.2)
                        (AgentManager.agents m)))) /\
       forall sid,
         In sid (map BaseAgent.info_id
                   (concat (map BaseAgent.listed
                      (map (fun ta => BaseAgent.list_sessions alive None ta.2)
                           (AgentManager.agents m)))))
         <-> existsb (fun ta => PyDict.mem sid (BaseAgent.sessions ta.2))
                     (AgentManager.agents m) = true).
  { intros [H1 H2]. split; [done|]. split; [done|]. done. }
  clear Hinv Hnd. induction (AgentManager.agents m) as [|[ty agent] d IH];
    cbn [map concat existsb snd].
  - split; [done|]. intros sid. split; [done|discriminate].
  - destruct IH as (Htot & Hids); [intros; apply Hwf; right; done|].
    split.
    + change (list_sum (?x :: ?l)) with (x + list_sum l).
      rewrite length_app, Htot. done.
    + intros sid. rewrite List.map_app, List.in_app_iff, Hids.
      rewrite list_sessions_all by (apply (Hwf (ty, agent)); left; done).
      rewrite orb_true_iff. rewrite <- mem_keys. done.
Qed.

Lemma manager_lists_live_sessions_witness :
  (AgentManager.list_all_sessions (fun _ => true) None
     (AgentManager.mk [(CLAUDE_CODE, Sample.one_shot_agent)]
        {[ "s1" := CLAUDE_CODE ]})).1.2 = 1.
Proof.
  apply (manager_lists_live_sessions (fun _ => true)
           (AgentManager.mk [(CLAUDE_CODE, Sample.one_shot_agent)]
              {[ "s1" := CLAUDE_CODE ]})).
  split; [repeat constructor; simpl; tauto|].
  intros ty agent Hg. simpl in Hg. destruct (decide (ty = CLAUDE_CODE)); [|done].
  injection Hg as <-. subst ty. split.
  - split; [repeat constructor; simpl; tauto|]. repeat constructor.
  - intros sid Hm. unfold PyDict.mem in Hm. simpl in Hm.
    destruct (decide (sid = "s1")); [|done]. subst sid. reflexivity.
Defined.
